(** * pyFAI.average: image-stack reduction, monitor lookup, correction pipeline

    A shallow embedding of [src/pyFAI/average.py].

    Numbers.  The program computes in [numpy.float32].  Here a pixel is an
    exact rational ([Q]): rounding is left out, and so are pixels that are
    already [inf] or [nan] in the input.  The two places where the program
    itself leaves the finite numbers are kept: a division by zero inside the
    cutoff mask (the quotient is an [fext], compared at once), and a
    statistic over an empty frame axis (an array of [nan], the outcome
    [NonFinite]).  [sqrt], which leaves the rationals, is rounded down to 24
    fractional bits.

    Arrays.  A 2D array is a list of rows, a 3D array a list of frames.
    The numpy operations are given by what they compute at each index. *)

From Stdlib Require Import Ascii String QArith Qround Qabs Sorted Permutation.
From stdpp Require Import gmap strings list fin_maps.

Local Open Scope string_scope.
Local Open Scope Q_scope.

(** ** Exceptions, outcomes, log records *)

Inductive exn : Type :=
  | RuntimeError (msg : string)
  | IndexError (msg : string)
  | ValueError (msg : string)
  | TypeError (msg : string)
  | AttributeError (msg : string)
  | NotImplementedError
  | Exception (msg : string)
  | MonitorNotFound (msg : string).

(** What a call does: it returns, it raises, or it returns an array that
    holds [nan] or [inf] entries (which [image] cannot hold). *)
Inductive outcome (A : Type) : Type :=
  | Ok (a : A)
  | Raise (e : exn)
  | NonFinite.
Arguments Ok {A} a.
Arguments Raise {A} e.
Arguments NonFinite {A}.

Definition bind {A B : Type} (m : outcome A) (k : A -> outcome B) : outcome B :=
  match m with
  | Ok a => k a
  | Raise e => Raise e
  | NonFinite => NonFinite
  end.

Notation "'let*' x ':=' m 'in' k" := (bind m (fun x => k))
  (at level 10, x pattern, m at level 100, k at level 200).

(** A record of [logger]: the level and the format string of the call. *)
Inductive log_record : Type :=
  | LogDebug (fmt : string)
  | LogInfo (fmt : string)
  | LogWarning (fmt : string)
  | LogError (fmt : string).

Definition is_warning (r : log_record) : bool :=
  match r with LogWarning _ => true | _ => false end.

(** ** Numbers *)

(** The quotient of two finite floats. *)
Inductive fext : Type :=
  | Fin (q : Q)
  | PInf
  | NInf
  | NaN.

(** [a / b] of numpy on floats: no exception on a zero divisor. *)
Definition np_true_divide (a b : Q) : fext :=
  if Qeq_bool b 0 then
    if Qeq_bool a 0 then NaN
    else if Qle_bool 0 a then PInf else NInf
  else Fin (a / b).

(** [x > c] of numpy: false on [nan]. *)
Definition np_greater (x : fext) (c : Q) : bool :=
  match x with
  | Fin q => negb (Qle_bool q c)
  | PInf => true
  | NInf => false
  | NaN => false
  end.

(** [sqrt] rounded down to a multiple of [2^-24 / den]. *)
Definition Qsqrt (q : Q) : Q :=
  Z.sqrt (Qnum q * Zpos (Qden q) * 2 ^ 48) # (Qden q * 2 ^ 24).

Definition Qsum (l : list Q) : Q := fold_right Qplus 0 l.

Definition Qmaximum (a b : Q) : Q := if Qle_bool a b then b else a.
Definition Qminimum (a b : Q) : Q := if Qle_bool a b then a else b.

(** ** Arrays *)

Definition image : Type := list (list Q).

Definition get2 {A : Type} (d : A) (a : list (list A)) (i j : nat) : A :=
  nth j (nth i a []) d.

Definition px (a : image) (i j : nat) : Q := get2 0 a i j.

Definition tabulate2 {A : Type} (h w : nat) (f : nat -> nat -> A)
  : list (list A) :=
  map (fun i => map (f i) (seq 0 w)) (seq 0 h).

(** [a.shape] of a 2D array. *)
Definition shape2 {A : Type} (a : list (list A)) : nat * nat :=
  (length a, length (hd [] a)).

(** [a] is a 2D array of shape [(h, w)]. *)
Definition has_shape {A : Type} (h w : nat) (a : list (list A)) : bool :=
  (length a =? h)%nat && forallb (fun r => (length r =? w)%nat) a.

(** [stack[:, i, j]] *)
Definition column {A : Type} (d : A) (stack : list (list (list A)))
  (i j : nat) : list A :=
  map (fun f => get2 d f i j) stack.

(** A reduction along the frame axis: [out[i, j] = f (stack[:, i, j])]. *)
Definition reduce_axis0 {A B : Type} (d : A) (h w : nat) (f : list A -> B)
  (stack : list (list (list A))) : list (list B) :=
  tabulate2 h w (fun i j => f (column d stack i j)).

(** ** Sorting and the statistics of one pixel across the frames *)

Fixpoint insert_sorted (x : Q) (l : list Q) : list Q :=
  match l with
  | [] => [x]
  | y :: l' => if Qle_bool x y then x :: l else y :: insert_sorted x l'
  end.

Definition sort (l : list Q) : list Q := fold_right insert_sorted [] l.

Definition mean1 (col : list Q) : Q := Qsum col / inject_Z (Z.of_nat (length col)).

Definition std1 (col : list Q) : Q :=
  let m := mean1 col in
  Qsqrt (mean1 (map (fun x => Qabs (x - m) * Qabs (x - m)) col)).

Definition max1 (col : list Q) : Q :=
  match col with [] => 0 | x :: l => fold_left Qmaximum l x end.

Definition min1 (col : list Q) : Q :=
  match col with [] => 0 | x :: l => fold_left Qminimum l x end.

(** [numpy.median]: the middle of the sorted values, or the mean of the two
    middle ones. *)
Definition median1 (col : list Q) : Q :=
  let s := sort col in
  let n := length col in
  if Nat.odd n then nth (n / 2) s 0
  else (nth (n / 2 - 1) s 0 + nth (n / 2) s 0) / 2.

(** [a[lower:upper]] for [0 <= lower] and [0 <= upper]. *)
Definition slice {A : Type} (lower upper : Z) (l : list A) : list A :=
  take (Z.to_nat upper - Z.to_nat lower) (drop (Z.to_nat lower) l).

(** ** The reductions of an [ndarray] along axis 0

    [numpy.sort(stack, axis=0)[lower:upper].mean(axis=0)]: the sort and the
    slice both act on each [stack[:, i, j]]. *)

Definition np_sort_axis0 (h w : nat) (stack : list image) : list image :=
  map (fun k => tabulate2 h w (fun i j => nth k (sort (column 0 stack i j)) 0))
      (seq 0 (length stack)).

(** A statistic that is [nan] on an empty axis. *)
Definition np_nan_on_empty (h w : nat) (f : list Q -> Q) (stack : list image)
  : outcome image :=
  match stack with
  | [] => NonFinite
  | _ => Ok (reduce_axis0 0 h w f stack)
  end.

Definition np_mean_axis0 (h w : nat) := np_nan_on_empty h w mean1.
Definition np_std_axis0 (h w : nat) := np_nan_on_empty h w std1.
Definition np_median_axis0 (h w : nat) := np_nan_on_empty h w median1.

Definition np_sum_axis0 (h w : nat) (stack : list image) : image :=
  reduce_axis0 0 h w Qsum stack.

Definition np_extremum_axis0 (h w : nat) (f : list Q -> Q) (stack : list image)
  : outcome image :=
  match stack with
  | [] => Raise (ValueError "zero-size array to reduction operation which has no identity")
  | _ => Ok (reduce_axis0 0 h w f stack)
  end.

(** [stack.__getattribute__(name)(axis=0)] for the names of [dir(stack)]
    that the documentation of [average_dark] and [average_images] lists.
    The other attributes of an [ndarray] are outside this development: the
    strings a [center_method] ranges over here are these five and the
    names that are no attribute of an [ndarray]. *)
Definition ndarray_method (name : string)
  : option (nat -> nat -> list image -> outcome image) :=
  if String.eqb name "mean" then Some np_mean_axis0
  else if String.eqb name "std" then Some np_std_axis0
  else if String.eqb name "sum" then Some (fun h w s => Ok (np_sum_axis0 h w s))
  else if String.eqb name "max" then Some (fun h w s => np_extremum_axis0 h w max1 s)
  else if String.eqb name "min" then Some (fun h w s => np_extremum_axis0 h w min1 s)
  else None.

(** ** average_dark *)

(** The first argument: a list of 2D images, or a 3D stack (an [ndarray]
    of shape [(length frames, h, w)]). *)
Inductive lstimg_t : Type :=
  | ImageList (l : list image)
  | Stack3D (h w : nat) (frames : list image).

Definition frames_of (lstimg : lstimg_t) : list image :=
  match lstimg with
  | ImageList l => l
  | Stack3D _ _ frames => frames
  end.

(** Lines 266-277: the stack, its frame shape and its length; or the early
    [return] of the single image of a list.  [stack[i] = img] needs [img]
    to have the shape of a frame (the broadcast of an image with a
    dimension of size one is left out). *)
Definition build_stack (lstimg : lstimg_t)
  : outcome image + outcome (list image * (nat * nat) * nat) :=
  match lstimg with
  | Stack3D h w frames => inr (Ok (frames, (h, w), length frames))
  | ImageList [] => inr (Raise (IndexError "list index out of range"))
  | ImageList (img0 :: rest) =>
      let shape := shape2 img0 in
      let length_ := length (img0 :: rest) in
      if (length_ =? 1)%nat then inl (Ok img0)
      else if forallb (has_shape shape.1 shape.2) (img0 :: rest)
           then inr (Ok (img0 :: rest, shape, length_))
           else inr (Raise (ValueError "could not broadcast input array"))
  end.

(** Lines 286-294: the index range of the quantile band, and whether the
    warning of the empty selection is logged. *)
Definition quantile_range (quantiles : Q * Q) (length_ : nat)
  : Z * Z * bool :=
  let n := Z.of_nat length_ in
  let lower := Z.max 0 (Qfloor (Qminimum quantiles.1 quantiles.2 * inject_Z n)) in
  let upper := Z.min n (Qceiling (Qmaximum quantiles.1 quantiles.2 * inject_Z n)) in
  if (upper =? lower)%Z then
    if (upper <? n)%Z then (lower, (upper + 1)%Z, false)
    else if (0 <? lower)%Z then ((lower - 1)%Z, upper, false)
    else (lower, upper, true)
  else (lower, upper, false).

Definition starts_with (p s : string) : bool := String.prefix p s.

(** Lines 278-297: the center image, with what is logged on the way. *)
Definition compute_center (stack : list image) (h w : nat) (length_ : nat)
  (center_method : string) (quantiles : option (Q * Q))
  : list log_record * outcome image :=
  match ndarray_method center_method with
  | Some method => ([], method h w stack)
  | None =>
      if String.eqb center_method "median" then
        ([LogInfo "Filtering data (median)"], np_median_axis0 h w stack)
      else if starts_with "quantil" center_method then
        let info := LogInfo "Filtering data (quantiles: %s)" in
        let sorted_ := np_sort_axis0 h w stack in
        match quantiles with
        | None => ([info], Raise (TypeError "'NoneType' object is not iterable"))
        | Some qs =>
            let '(lower, upper, empty) := quantile_range qs length_ in
            let warn :=
              if empty
              then [LogWarning "Empty selection for quantil %s, would keep points from %s to %s"]
              else [] in
            (info :: warn, np_mean_axis0 h w (slice lower upper sorted_))
        end
      else
        ([], Raise (RuntimeError "Cannot understand method: %s in average_dark"))
  end.

(** Line 307: [mask = (abs(stack - center) / std) > cutoff], with [center]
    and [std] broadcast along the frame axis.  A [center] or [std] full of
    [nan] (a statistic over an empty axis) masks nothing. *)
Definition cutoff_mask (stack : list image) (h w : nat)
  (center std : outcome image) (cutoff : Q) : list (list (list bool)) :=
  match center, std with
  | Ok c, Ok s =>
      map (fun frame =>
             tabulate2 h w (fun i j =>
               np_greater
                 (np_true_divide (Qabs (px frame i j - px c i j)) (px s i j))
                 cutoff))
          stack
  | _, _ => map (fun _ => tabulate2 h w (fun _ _ => false)) stack
  end.

(** Line 308: [stack[numpy.where(mask)] = 0.0] *)
Definition zero_masked (stack : list image) (h w : nat)
  (mask : list (list (list bool))) : list image :=
  zip_with (fun frame m =>
              tabulate2 h w (fun i j =>
                if get2 false m i j then 0 else px frame i j))
           stack mask.

Definition count_true (l : list bool) : Z :=
  Z.of_nat (length (filter (fun b => b = true) l)).

(** Lines 301-310. *)
Definition cutoff_average (stack : list image) (h w : nat) (length_ : nat)
  (center : outcome image) (cutoff : Q) : image :=
  let std := np_std_axis0 h w stack in
  let mask := cutoff_mask stack h w center std cutoff in
  let stack' := zero_masked stack h w mask in
  let summed := np_sum_axis0 h w stack' in
  let masked := reduce_axis0 false h w count_true mask in
  tabulate2 h w (fun i j =>
    px summed i j
    / inject_Z (Z.max 1 (Z.of_nat length_ - get2 0%Z masked i j))).

(** [cutoff is None or cutoff <= 0] *)
Definition no_cutoff (cutoff : option Q) : bool :=
  match cutoff with
  | None => true
  | Some c => Qle_bool c 0
  end.

(** Lines 278-311: from the stack to the result. *)
Definition reduce_stack (stack : list image) (h w : nat) (length_ : nat)
  (center_method : string) (cutoff : option Q) (quantiles : option (Q * Q))
  : list log_record * outcome image :=
  let '(log, center) :=
    compute_center stack h w length_ center_method quantiles in
  match center, cutoff with
  | Raise e, _ => (log, Raise e)
  | _, None => (log, center)
  | _, Some c =>
      if Qle_bool c 0 then (log, center)
      else (log, Ok (cutoff_average stack h w length_ center c))
  end.

Definition average_dark (lstimg : lstimg_t) (center_method : string)
  (cutoff : option Q) (quantiles : option (Q * Q))
  : list log_record * outcome image :=
  match build_stack lstimg with
  | inl early => ([], early)
  | inr (Raise e) => ([], Raise e)
  | inr NonFinite => ([], NonFinite)
  | inr (Ok (stack, (h, w), length_)) =>
      reduce_stack stack h w length_ center_method cutoff quantiles
  end.

(** The default of the parameter [quantiles]. *)
Definition default_quantiles : option (Q * Q) := Some (1 # 2, 1 # 2).

(** ** The reduction filters *)

Inductive filter_class : Type :=
  | MaxAveraging
  | MinAveraging
  | SumAveraging
  | MeanAveraging
  | AverageDarkFilter (filter_name : string) (cut_off : option Q)
      (quantiles : option (Q * Q)).

(** The attributes that [init] sets: those of an [ImageAccumulatorFilter],
    or those of an [ImageStackFilter]. *)
Inductive filter_state : Type :=
  | Accumulator (count : nat) (accumulated_image : option image)
  | Stacker (stack : option (list image)) (max_stack_size : option nat)
      (count : nat).

Record reduction_filter : Type :=
  Filter { cls : filter_class; state : filter_state }.

Definition name (c : filter_class) : string :=
  match c with
  | MaxAveraging => "max"
  | MinAveraging => "min"
  | SumAveraging => "sum"
  | MeanAveraging => "mean"
  | AverageDarkFilter filter_name _ _ => filter_name
  end.

Definition get_parameters (c : filter_class)
  : option Q * option (Q * Q) :=
  match c with
  | AverageDarkFilter _ cut_off quantiles => (cut_off, quantiles)
  | _ => (None, None)
  end.

Definition init (c : filter_class) (max_images : option nat)
  : reduction_filter :=
  match c with
  | AverageDarkFilter _ _ _ => Filter c (Stacker None max_images 0)
  | _ => Filter c (Accumulator 0 None)
  end.

(** An operation of numpy on two arrays of one shape (the broadcast of a
    dimension of size one is left out). *)
Definition np_binary (f : Q -> Q -> Q) (a b : image) : outcome image :=
  let '(h, w) := shape2 a in
  if has_shape h w a && has_shape h w b
  then Ok (tabulate2 h w (fun i j => f (px a i j) (px b i j)))
  else Raise (ValueError "operands could not be broadcast together").

Definition _accumulate (c : filter_class) (accumulated_image : option image)
  (added_image : image) : outcome image :=
  match c with
  | AverageDarkFilter _ _ _ => Raise NotImplementedError
  | _ =>
      match accumulated_image with
      | None => Ok added_image
      | Some acc =>
          match c with
          | MaxAveraging => np_binary Qmaximum acc added_image
          | MinAveraging => np_binary Qminimum acc added_image
          | _ => np_binary Qplus acc added_image
          end
      end
  end.

Definition zeros (h w : nat) : image := tabulate2 h w (fun _ _ => 0).

Definition add_image (f : reduction_filter) (img : image)
  : outcome reduction_filter :=
  match state f with
  | Accumulator count acc =>
      let* acc' := _accumulate (cls f) acc img in
      Ok (Filter (cls f) (Accumulator (S count) (Some acc')))
  | Stacker stack max_stack_size count =>
      let* stack :=
        match stack with
        | Some s => Ok s
        | None =>
            match max_stack_size with
            | None => Raise (TypeError "'NoneType' object cannot be interpreted as an integer")
            | Some n => Ok (replicate n (zeros (shape2 img).1 (shape2 img).2))
            end
        end in
      match stack !! count with
      | None => Raise (IndexError "index out of bounds for axis 0")
      | Some frame =>
          if has_shape (shape2 frame).1 (shape2 frame).2 img
          then Ok (Filter (cls f)
                     (Stacker (Some (<[count := img]> stack)) max_stack_size
                        (S count)))
          else Raise (ValueError "could not broadcast input array")
      end
  end.

(** [get_result]: what is returned is an array or [None]. *)
Definition get_result (f : reduction_filter) : outcome (option image) :=
  match state f with
  | Accumulator count acc =>
      match cls f with
      | MeanAveraging =>
          match acc with
          | None => Raise (TypeError "unsupported operand type(s) for /: 'NoneType' and 'float'")
          | Some a =>
              Ok (Some (tabulate2 (shape2 a).1 (shape2 a).2 (fun i j =>
                          px a i j / inject_Z (Z.of_nat count))))
          end
      | _ => Ok acc
      end
  | Stacker stack max_stack_size count =>
      match stack with
      | None => Raise (Exception "No data to reduce")
      | Some s =>
          match cls f with
          | AverageDarkFilter filter_name cut_off quantiles =>
              let frame := default [] (head s) in
              let* r := (average_dark
                           (Stack3D (shape2 frame).1 (shape2 frame).2
                              (take count s))
                           filter_name cut_off quantiles).2 in
              Ok (Some r)
          | _ => Raise NotImplementedError
          end
      end
  end.

(** ** The monitor value of a header *)

(** [fmt % args] for a format that holds no other conversion than [%s]. *)
Fixpoint percent (fmt : string) (args : list string) : outcome string :=
  match fmt with
  | EmptyString =>
      match args with
      | [] => Ok EmptyString
      | _ => Raise (TypeError "not all arguments converted during string formatting")
      end
  | String c fmt' =>
      match fmt' with
      | String c' fmt'' =>
          if Ascii.eqb c "%"%char && Ascii.eqb c' "s"%char then
            match args with
            | [] => Raise (TypeError "not enough arguments for format string")
            | a :: args' =>
                let* r := percent fmt'' args' in Ok (a ++ r)
            end
          else let* r := percent fmt' args in Ok (String c r)
      | EmptyString => let* r := percent fmt' args in Ok (String c r)
      end
  end.

(** [raise MonitorNotFound(fmt % args)]: the message is formatted first. *)
Definition raise_MonitorNotFound {A : Type} (fmt : string)
  (args : list string) : outcome A :=
  let* msg := percent fmt args in Raise (MonitorNotFound msg).

(** The whitespace of [str.split()]: tab, line feed, vertical tab, form
    feed, carriage return and space. *)
Definition is_space (c : ascii) : bool :=
  let n := nat_of_ascii c in
  ((9 <=? n)%nat && (n <=? 13)%nat) || (n =? 32)%nat.

Fixpoint split_words (s : string) (word : option string) : list string :=
  match s with
  | EmptyString => match word with Some wd => [wd] | None => [] end
  | String c s' =>
      if is_space c then
        match word with
        | Some wd => wd :: split_words s' None
        | None => split_words s' None
        end
      else
        split_words s' (Some (default EmptyString word ++ String c EmptyString))
  end.

(** [s.split()] *)
Definition split (s : string) : list string := split_words s None.

(** [s.split('/', 1)] when ['/' in s]: the text before and the text after
    the first separator. *)
Fixpoint split_slash (s : string) : option (string * string) :=
  match s with
  | EmptyString => None
  | String c s' =>
      if Ascii.eqb c "/"%char then Some (EmptyString, s')
      else match split_slash s' with
           | Some (a, b) => Some (String c a, b)
           | None => None
           end
  end.

(** [l.index(x)] *)
Fixpoint index (x : string) (l : list string) : option nat :=
  match l with
  | [] => None
  | y :: l' => if String.eqb x y then Some 0%nat else S <$> index x l'
  end.

Section Monitor.

(** [float(s)] of Python: the number that [s] denotes, or [None] where
    Python raises [ValueError]. *)
Variable float : string -> option Q.

Definition _get_monitor_value_from_edf (keys : gmap string string)
  (monitor_key : string) : outcome Q :=
  let* monitor :=
    match split_slash monitor_key with
    | Some (base_key, mnemonic) =>
        let mnemonic_values_key := base_key ++ "_mne" in
        match keys !! mnemonic_values_key with
        | None =>
            raise_MonitorNotFound
              "Monitor mnemonic key '%s' not found in the header"
              [mnemonic_values_key]
        | Some mnemonic_values =>
            let mnemonic_values := split mnemonic_values in
            let pos_values_key := base_key ++ "_pos" in
            match keys !! pos_values_key with
            | None =>
                raise_MonitorNotFound
                  "Monitor pos key '%s' not found in the header"
                  [pos_values_key]
            | Some pos_values =>
                let pos_values := split pos_values in
                match index mnemonic mnemonic_values with
                | None =>
                    raise_MonitorNotFound
                      "Monitor mnemonic '%s' not found in the header key '%s'"
                      [mnemonic; mnemonic_values_key]
                | Some index_ =>
                    if (length pos_values <=? index_)%nat then
                      raise_MonitorNotFound
                        "Monitor value '%s' not found in '%s'. Not enougth values."
                        [pos_values_key]
                    else Ok (nth index_ pos_values EmptyString)
                end
            end
        end
    | None =>
        match keys !! monitor_key with
        | None =>
            raise_MonitorNotFound
              "Monitor key '%s' not found in the header" [monitor_key]
        | Some monitor => Ok monitor
        end
    end in
  match float monitor with
  | Some v => Ok v
  | None => raise_MonitorNotFound "Monitor value '%s' is not valid" [monitor]
  end.

Inductive fabio_class : Type :=
  | EdfImage
  | NumpyImage
  | OtherImage.

(** What [_get_monitor_value] returns: a float, or an exception object. *)
Inductive monitor_result : Type :=
  | MonitorFloat (v : Q)
  | ExceptionObject (msg : string).

Definition _get_monitor_value (image_class : fabio_class)
  (header : gmap string string) (monitor_key : option string)
  : outcome monitor_result :=
  match monitor_key with
  | None => Ok (ExceptionObject "No monitor defined")
  | Some key =>
      match image_class with
      | EdfImage | NumpyImage =>
          let* v := _get_monitor_value_from_edf header key in
          Ok (MonitorFloat v)
      | OtherImage => Raise (Exception "File format '%s' unsupported")
      end
  end.

End Monitor.

(** ** The class Average: the correction of one image

    The arrays of the caller live in a heap: an [ndarray] object is a
    reference, and two references to one object see the writes of each
    other.  The dark and the flat of an [Average] are arrays that the
    object builds itself ([set_dark], [set_flat], [_update_flat]) and
    hands to nobody: they are held by value. *)

Inductive dtype_t : Type :=
  | float32
  | float64
  | int32
  | uint16.

Definition dtype_eqb (a b : dtype_t) : bool :=
  match a, b with
  | float32, float32 | float64, float64 | int32, int32 | uint16, uint16 => true
  | _, _ => false
  end.

Record ndarray : Type := Ndarray {
  dtype : dtype_t;
  c_contiguous : bool;
  data : image
}.

Abbreviation ref := nat.
Abbreviation heap := (list ndarray).

(** A new object. *)
Definition alloc (hp : heap) (a : ndarray) : heap * ref :=
  ((hp ++ [a])%list, length hp).

(** [numpy.ascontiguousarray(a, numpy.float32)]: the array itself when it
    is contiguous and of that type already, a converted copy otherwise. *)
Definition ascontiguousarray_float32 (hp : heap) (r : ref)
  : outcome (heap * ref) :=
  match hp !! r with
  | None => Raise (Exception "no such object")
  | Some a =>
      if dtype_eqb (dtype a) float32 && c_contiguous a then Ok (hp, r)
      else Ok (alloc hp (Ndarray float32 true (data a)))
  end.

(** A value of Python that is tested for truth: [None], a number, or a
    boolean. *)
Inductive pyval : Type :=
  | PNone
  | PNum (q : Q)
  | PBool (b : bool).

Definition truthy (v : pyval) : bool :=
  match v with
  | PNone => false
  | PNum q => negb (Qeq_bool q 0)
  | PBool b => b
  end.

Record Average : Type := {
  _dark : option image;
  _raw_flat : option image;
  _flat : option image;
  _monitor_key : option string;
  _threshold : pyval;
  _minimum : pyval;
  _maximum : pyval;
  _correct_flat_from_dark : bool
}.

(** [Average.__init__] *)
Definition Average_init : Average := {|
  _dark := None;
  _raw_flat := None;
  _flat := None;
  _monitor_key := None;
  _threshold := PNone;
  _minimum := PNone;
  _maximum := PNone;
  _correct_flat_from_dark := false
|}.

Definition set_dark (self : Average) (dark_list : option lstimg_t)
  : outcome Average :=
  match dark_list with
  | None =>
      Ok {| _dark := None; _raw_flat := _raw_flat self; _flat := _flat self;
            _monitor_key := _monitor_key self;
            _threshold := _threshold self; _minimum := _minimum self;
            _maximum := _maximum self;
            _correct_flat_from_dark := _correct_flat_from_dark self |}
  | Some darks =>
      let* d := (average_dark darks "mean" (Some 4) default_quantiles).2 in
      Ok {| _dark := Some d; _raw_flat := _raw_flat self; _flat := _flat self;
            _monitor_key := _monitor_key self;
            _threshold := _threshold self; _minimum := _minimum self;
            _maximum := _maximum self;
            _correct_flat_from_dark := _correct_flat_from_dark self |}
  end.

Definition set_flat (self : Average) (flat_list : option lstimg_t)
  : outcome Average :=
  match flat_list with
  | None =>
      Ok {| _dark := _dark self; _raw_flat := None; _flat := _flat self;
            _monitor_key := _monitor_key self;
            _threshold := _threshold self; _minimum := _minimum self;
            _maximum := _maximum self;
            _correct_flat_from_dark := _correct_flat_from_dark self |}
  | Some flats =>
      let* f := (average_dark flats "mean" (Some 4) default_quantiles).2 in
      Ok {| _dark := _dark self; _raw_flat := Some f; _flat := _flat self;
            _monitor_key := _monitor_key self;
            _threshold := _threshold self; _minimum := _minimum self;
            _maximum := _maximum self;
            _correct_flat_from_dark := _correct_flat_from_dark self |}
  end.

Definition set_correct_flat_from_dark (self : Average) (b : bool) : Average :=
  {| _dark := _dark self; _raw_flat := _raw_flat self; _flat := _flat self;
     _monitor_key := _monitor_key self;
     _threshold := _threshold self; _minimum := _minimum self;
     _maximum := _maximum self;
     _correct_flat_from_dark := b |}.

Definition set_monitor_name (self : Average) (monitor_name : option string)
  : Average :=
  {| _dark := _dark self; _raw_flat := _raw_flat self; _flat := _flat self;
     _monitor_key := monitor_name;
     _threshold := _threshold self; _minimum := _minimum self;
     _maximum := _maximum self;
     _correct_flat_from_dark := _correct_flat_from_dark self |}.

Definition set_pixel_filter (self : Average) (threshold minimum maximum : pyval)
  : Average :=
  {| _dark := _dark self; _raw_flat := _raw_flat self; _flat := _flat self;
     _monitor_key := _monitor_key self;
     _threshold := threshold; _minimum := minimum; _maximum := maximum;
     _correct_flat_from_dark := _correct_flat_from_dark self |}.

(** [a / b] on two arrays of one shape, with no zero in [b]. *)
Definition np_divide (a b : image) : outcome image :=
  if existsb (existsb (fun x => Qeq_bool x 0)) b then
    let* _ := np_binary Qdiv a b in NonFinite
  else np_binary Qdiv a b.

(** [a / v] for a number [v]. *)
Definition np_divide_scalar (a : image) (v : Q) : outcome image :=
  if Qeq_bool v 0 then NonFinite else Ok (map (map (fun x => x / v)) a).

(** [a op= b] on the object [r]: the result is written into the object. *)
Definition in_place (hp : heap) (r : ref) (op : image -> outcome image)
  : outcome heap :=
  match hp !! r with
  | None => Raise (Exception "no such object")
  | Some a =>
      let* d := op (data a) in
      Ok (<[r := Ndarray (dtype a) (c_contiguous a) d]> hp)
  end.

Section Correction.

Variable float : string -> option Q.

(** [pyFAI.utils.removeSaturatedPixel], of which the source is not at
    hand: from the heap, the array and the three bounds, to the heap
    after the call and the array that is returned. *)
Variable removeSaturatedPixel :
  heap -> ref -> pyval -> pyval -> pyval -> outcome (heap * ref).

(** Lines 605-606. *)
Definition saturation_step (self : Average) (hp : heap)
  (corrected_image : ref) : outcome (heap * ref) :=
  if truthy (_threshold self) || truthy (_minimum self)
     || truthy (_maximum self)
  then removeSaturatedPixel hp corrected_image
         (_threshold self) (_minimum self) (_maximum self)
  else Ok (hp, corrected_image).

(** Lines 611-617: [Some hp] after the division by the monitor, [None]
    when the monitor is not found and the image is skipped. *)
Definition monitor_step (self : Average) (image_class : fabio_class)
  (header : gmap string string) (hp : heap) (corrected_image : ref)
  : list log_record * outcome (option heap) :=
  match _monitor_key self with
  | None => ([], Ok (Some hp))
  | Some key =>
      match _get_monitor_value float image_class header (Some key) with
      | Ok (MonitorFloat v) =>
          ([], let* hp' := in_place hp corrected_image
                             (fun a => np_divide_scalar a v) in
               Ok (Some hp'))
      | Ok (ExceptionObject _) =>
          ([], Raise (TypeError "unsupported operand type(s) for /="))
      | Raise (MonitorNotFound _) =>
          ([LogWarning "Monitor not found in filename '%s', data skipped. Cause: %s"],
           Ok None)
      | Raise e => ([], Raise e)
      | NonFinite => ([], NonFinite)
      end
  end.

(** [Average._get_corrected_image]: the heap after the call and the
    array that is returned, or [None]. *)
Definition _get_corrected_image (self : Average) (hp : heap)
  (image_class : fabio_class) (header : gmap string string) (image : ref)
  : list log_record * outcome (heap * option ref) :=
  match
    (let* p := ascontiguousarray_float32 hp image in
     let '(hp, corrected_image) := p in
     let* p := saturation_step self hp corrected_image in
     let '(hp, corrected_image) := p in
     let* hp :=
       match _dark self with
       | Some dark =>
           in_place hp corrected_image (fun a => np_binary Qminus a dark)
       | None => Ok hp
       end in
     let* hp :=
       match _flat self with
       | Some flat =>
           in_place hp corrected_image (fun a => np_divide a flat)
       | None => Ok hp
       end in
     Ok (hp, corrected_image))
  with
  | Ok (hp, corrected_image) =>
      let '(log, r) :=
        monitor_step self image_class header hp corrected_image in
      (log,
       let* o := r in
       match o with
       | Some hp' => Ok (hp', Some corrected_image)
       | None => Ok (hp, None)
       end)
  | Raise e => ([], Raise e)
  | NonFinite => ([], NonFinite)
  end.

End Correction.

(** [Average._update_flat] *)
Definition _update_flat (self : Average)
  : list log_record * outcome Average :=
  let '(log, flat) :=
    match _raw_flat self with
    | Some raw_flat =>
        let '(log, flat) :=
          if _correct_flat_from_dark self then
            match _dark self with
            | Some dark => ([], np_binary Qminus raw_flat dark)
            | None =>
                ([LogDebug "No dark. Flat correction using dark skipped"],
                 Ok raw_flat)
            end
          else ([], Ok raw_flat) in
        (log,
         let* flat := flat in
         Ok (Some (map (map (fun x => if Qle_bool x 0 then 1 else x)) flat)))
    | None => ([], Ok None)
    end in
  (log,
   let* flat := flat in
   Ok {| _dark := _dark self; _raw_flat := _raw_flat self; _flat := flat;
         _monitor_key := _monitor_key self;
         _threshold := _threshold self; _minimum := _minimum self;
         _maximum := _maximum self;
         _correct_flat_from_dark := _correct_flat_from_dark self |}).

(** * Statements

    The shapes of the inputs, what the properties below say of a result,
    and the inputs of the examples. *)

(** Every frame of the input has shape [(h, w)]; a 3D stack has the frame
    shape [(h, w)]. *)
Definition frames_shape (lstimg : lstimg_t) (h w : nat) : Prop :=
  match lstimg with
  | ImageList l => forallb (has_shape h w) l = true
  | Stack3D h' w' frames =>
      h' = h /\ w' = w /\ forallb (has_shape h w) frames = true
  end.

(** The input is a list that holds one image. *)
Definition single_image_list (lstimg : lstimg_t) : bool :=
  match lstimg with
  | ImageList [_] => true
  | _ => false
  end.

(** From the words of the specification: [out] is the pointwise
    arithmetic mean of the frames.  It has the shape
    of a frame and each of its pixels is the sum of that pixel over the
    frames, divided by the number of frames. *)
Definition is_pointwise_mean (frames : list image) (h w : nat) (out : image)
  : Prop :=
  has_shape h w out = true
  /\ forall i j, (i < h)%nat -> (j < w)%nat ->
       px out i j
       == Qsum (map (fun f => px f i j) frames)
          / inject_Z (Z.of_nat (length frames)).

(** From the words of the specification, at one pixel: [col] holds the
    values of the pixel across the frames and [c] is its center.  A value
    is masked when its distance to the center, divided by the standard
    deviation of [col], is above the cutoff. *)
Definition masked_value (col : list Q) (c cutoff : Q) (x : Q) : bool :=
  np_greater (np_true_divide (Qabs (x - c)) (std1 col)) cutoff.

(** The masked values count as zero; the sum is divided by the number of
    values that are not masked, or by one when all are. *)
Definition trimmed_pixel (col : list Q) (c cutoff : Q) : Q :=
  Qsum (map (fun x => if masked_value col c cutoff x then 0 else x) col)
  / inject_Z
      (Z.max 1 (Z.of_nat (length col)
                - Z.of_nat (length (filter (fun x => masked_value col c cutoff x = true) col)))).

(** What is said of [average_dark] on the input [lstimg], of frame shape
    [(h, w)], with a cutoff [c]: whenever the center image of the frames is
    [center], the result is, pixel by pixel, [trimmed_pixel]. *)
Definition cutoff_average_spec (lstimg : lstimg_t) (h w : nat) (m : string)
  (c : Q) (quantiles : option (Q * Q)) : Prop :=
  forall center,
    (compute_center (frames_of lstimg) h w (length (frames_of lstimg))
       m quantiles).2 = Ok center ->
    exists out,
      (average_dark lstimg m (Some c) quantiles).2 = Ok out
      /\ has_shape h w out = true
      /\ forall i j, (i < h)%nat -> (j < w)%nat ->
           px out i j
           == trimmed_pixel (map (fun f => px f i j) (frames_of lstimg))
                (px center i j) c.

(** The call returns an image of shape [(h, w)] equal to [frame] at every
    pixel. *)
Definition returns_frame (r : outcome image) (h w : nat) (frame : image)
  : Prop :=
  exists out,
    r = Ok out
    /\ has_shape h w out = true
    /\ forall i j, (i < h)%nat -> (j < w)%nat -> px out i j == px frame i j.

(** The center methods under which a single frame is its own center: the
    mean, sum, max, min and median, and the quantile band within [0, 1]. *)
Definition frame_is_center (m : string) (quantiles : option (Q * Q)) : Prop :=
  m = "mean" \/ m = "sum" \/ m = "max" \/ m = "min" \/ m = "median"
  \/ (m = "quantile"
      /\ exists q1 q2, quantiles = Some (q1, q2)
                       /\ 0 <= q1 <= 1 /\ 0 <= q2 <= 1).

(** What is said of the band (0.5, 0.5) on the input [lstimg]: a result is
    returned and a warning is logged. *)
Definition half_band_spec (lstimg : lstimg_t) (cutoff : option Q) : Prop :=
  let r := average_dark lstimg "quantile" cutoff (Some (1 # 2, 1 # 2)) in
  (exists out, r.2 = Ok out) /\ existsb is_warning r.1 = true.

(** A header with two mnemonics and one position. *)
Definition short_pos_header : gmap string string :=
  <["counter_mne" := "a b"]> (<["counter_pos" := "1"]> ∅).

(** An [Average] with a dark and a raw flat, to be corrected from the dark. *)
Definition flat_example : Average :=
  {| _dark := Some [[1; 1]; [1; 1]];
     _raw_flat := Some [[3; 1]; [0; 2]];
     _flat := None;
     _monitor_key := None;
     _threshold := PNone; _minimum := PNone; _maximum := PNone;
     _correct_flat_from_dark := true |}.

(** An [Average] with a dark and nothing else. *)
Definition dark_only : Average :=
  {| _dark := Some [[1]];
     _raw_flat := None;
     _flat := None;
     _monitor_key := None;
     _threshold := PNone; _minimum := PNone; _maximum := PNone;
     _correct_flat_from_dark := false |}.

(** [add_image] on each image of [imgs], in order, as a caller does. *)
Fixpoint add_images (f : reduction_filter) (imgs : list image)
  : outcome reduction_filter :=
  match imgs with
  | [] => Ok f
  | img :: imgs' => let* f' := add_image f img in add_images f' imgs'
  end.

(** The operation that an accumulator folds its images with. *)
Definition accumulator_op (c : filter_class) : option (Q -> Q -> Q) :=
  match c with
  | MaxAveraging => Some Qmaximum
  | MinAveraging => Some Qminimum
  | SumAveraging | MeanAveraging => Some Qplus
  | AverageDarkFilter _ _ _ => None
  end.

(** ** The filters by name, and the choice of [average_images] *)

Definition _FILTERS : list filter_class :=
  [MaxAveraging; MinAveraging; MeanAveraging; SumAveraging].

Definition _FILTER_NAME_MAPPING : gmap string filter_class :=
  fold_left (fun m f => <[name f := f]> m) _FILTERS ∅.

Definition _get_filter_class (filter_name : string) : outcome filter_class :=
  match _FILTER_NAME_MAPPING !! filter_name with
  | None => Raise (Exception "Filter name '%s' unknown")
  | Some filter_class => Ok filter_class
  end.

(** [x in l] for a list of strings. *)
Definition str_in (x : string) (l : list string) : bool :=
  existsb (String.eqb x) l.

(** Lines 696-698 of [average_images]: the name of the filter, with what
    is logged. *)
Definition sanitize_filter (filter_ : string) : list log_record * string :=
  if str_in filter_ ["min"; "max"; "median"; "mean"; "sum"; "quantiles"; "std"]
  then ([], filter_)
  else ([LogWarning "Filter %s not understood. switch to mean filter"], "mean").

(** The truth of [cutoff] (a number or [None]) and of [quantiles] (a pair
    or [None]) as conditions. *)
Definition cutoff_truthy (cutoff : option Q) : bool :=
  match cutoff with
  | None => false
  | Some c => negb (Qeq_bool c 0)
  end.

Definition quantiles_truthy (quantiles : option (Q * Q)) : bool :=
  match quantiles with
  | None => false
  | Some _ => true
  end.

(** Lines 709-713 of [average_images]: the algorithm. *)
Definition select_algorithm (filter_ : string) (cutoff : option Q)
  (quantiles : option (Q * Q)) : outcome filter_class :=
  if cutoff_truthy cutoff || quantiles_truthy quantiles
     || str_in filter_ ["median"; "quantiles"; "std"]
  then Ok (AverageDarkFilter filter_ cutoff quantiles)
  else _get_filter_class filter_.

(** The string holds no ['/']. *)
Fixpoint no_slash (s : string) : bool :=
  match s with
  | EmptyString => true
  | String c s' => negb (Ascii.eqb c "/"%char) && no_slash s'
  end.

(** One pixel after the corrections, in the order of
    [_get_corrected_image]: minus the dark, divided by the flat, divided
    by the monitor, each where there is one. *)
Definition corrected_pixel (self : Average) (monitor : option Q) (i j : nat)
  (x : Q) : Q :=
  let x1 := match _dark self with Some dark => x - px dark i j | None => x end in
  let x2 := match _flat self with Some flat => x1 / px flat i j | None => x1 end in
  match monitor with Some v => x2 / v | None => x2 end.

(** The array holds no zero. *)
Definition no_zero (a : image) : bool :=
  negb (existsb (existsb (fun x => Qeq_bool x 0)) a).

(** An [Average] with a dark, a flat and a monitor key. *)
Definition full_example : Average :=
  {| _dark := Some [[2]];
     _raw_flat := Some [[2]];
     _flat := Some [[2]];
     _monitor_key := Some "mon";
     _threshold := PNone; _minimum := PNone; _maximum := PNone;
     _correct_flat_from_dark := false |}.

(** ** common_prefix *)

(** [zip(string_list)], the [zip] of one list: a tuple of one element for
    each string. *)
Definition zip1 (string_list : list string) : list (list string) :=
  map (fun s => [s]) string_list.

(** The loop of [common_prefix] over the tuples [ch]: [c = ch[0]]; [good]
    is whether no element of [ch] differs from [c]; the prefix grows by [c]
    or the loop ends. *)
Fixpoint common_prefix_loop (tuples : list (list string)) (prefix : string)
  : outcome string :=
  match tuples with
  | [] => Ok prefix
  | ch :: tuples' =>
      match ch with
      | [] => Raise (IndexError "tuple index out of range")
      | c :: _ =>
          let good := forallb (fun i => String.eqb i c) ch in
          if good then common_prefix_loop tuples' (prefix ++ c)
          else Ok prefix
      end
  end.

Definition common_prefix (string_list : list string) : outcome string :=
  common_prefix_loop (zip1 string_list) EmptyString.

(** ** GeometryConstaintsModel

    [src/pyFAI/gui/calibration/model/GeometryConstaintsModel.py].  The
    class [ConstraintModel] is not at hand: its objects and the truth of
    their [isValid()] are parameters. *)

Section GeometryConstaints.

Variable ConstraintModel : Type.
Variable constraint_isValid : ConstraintModel -> bool.

Record GeometryConstaintsModel : Type := {
  __distance : ConstraintModel;
  __waveLength : ConstraintModel;
  __poni1 : ConstraintModel;
  __poni2 : ConstraintModel;
  __rotation1 : ConstraintModel;
  __rotation2 : ConstraintModel;
  __rotation3 : ConstraintModel
}.

(** [isValid]: [Some b] for [return b], [None] where the body ends with no
    [return]. *)
Definition isValid (self : GeometryConstaintsModel) : option bool :=
  if negb (constraint_isValid (__distance self)) then Some false
  else if negb (constraint_isValid (__waveLength self)) then Some false
  else if negb (constraint_isValid (__poni1 self)) then Some false
  else if negb (constraint_isValid (__poni2 self)) then Some false
  else if negb (constraint_isValid (__rotation1 self)) then Some false
  else if negb (constraint_isValid (__rotation2 self)) then Some false
  else if negb (constraint_isValid (__rotation3 self)) then Some false
  else None.

(** The constraints of a model, as [isValid] visits them. *)
Definition constraints (self : GeometryConstaintsModel)
  : list ConstraintModel :=
  [__distance self; __waveLength self; __poni1 self; __poni2 self;
   __rotation1 self; __rotation2 self; __rotation3 self].

End GeometryConstaints.

(** ** The passes of an Average over its images

    An image of fabio, as the passes see it: its class, its header, its
    number of frames and its array [data].  [Average.set_images] is taken
    on images that are open already (a file name would be opened, an array
    wrapped, by fabio). *)

Record fabio_image : Type := {
  fabio_cls : fabio_class;
  fabio_header : gmap string string;
  fabio_nframes : nat;
  fabio_data : ref
}.

(** [Average.set_images]: the images and the number of their frames. *)
Definition set_images (image_list : list fabio_image)
  : list fabio_image * nat :=
  (image_list,
   fold_left (fun n img => (n + fabio_nframes img)%nat) image_list 0%nat).

(** An algorithm as an object that works on the arrays of the heap.  An
    accumulator holds its accumulated image by reference: the first image
    it is given is kept as it is, each later one gives a new array.  A
    stack filter copies each image into its own buffer. *)
Inductive algorithm : Type :=
  | AccumulatorObject (c : filter_class) (count : nat)
      (accumulated_image : option ref)
  | StackObject (f : reduction_filter).

(** [algorithm.init(max_images)] *)
Definition algorithm_init (c : filter_class) (max_images : option nat)
  : algorithm :=
  match c with
  | AverageDarkFilter _ _ _ => StackObject (init c max_images)
  | _ => AccumulatorObject c 0 None
  end.

(** [algorithm.add_image(image)] *)
Definition algorithm_add_image (hp : heap) (alg : algorithm) (img : ref)
  : outcome (heap * algorithm) :=
  match alg with
  | StackObject f =>
      match hp !! img with
      | None => Raise (Exception "no such object")
      | Some a =>
          let* f' := add_image f (data a) in Ok (hp, StackObject f')
      end
  | AccumulatorObject c count None =>
      Ok (hp, AccumulatorObject c (S count) (Some img))
  | AccumulatorObject c count (Some acc) =>
      match hp !! acc, hp !! img with
      | Some a, Some b =>
          let* d := _accumulate c (Some (data a)) (data b) in
          let '(hp', r) := alloc hp (Ndarray float32 true d) in
          Ok (hp', AccumulatorObject c (S count) (Some r))
      | _, _ => Raise (Exception "no such object")
      end
  end.

(** The filter that the algorithm is, with the arrays it refers to read
    from the heap. *)
Definition algorithm_filter (hp : heap) (alg : algorithm)
  : outcome reduction_filter :=
  match alg with
  | StackObject f => Ok f
  | AccumulatorObject c count None => Ok (Filter c (Accumulator count None))
  | AccumulatorObject c count (Some acc) =>
      match hp !! acc with
      | None => Raise (Exception "no such object")
      | Some a => Ok (Filter c (Accumulator count (Some (data a))))
      end
  end.

(** [algorithm.get_result()] *)
Definition algorithm_get_result (hp : heap) (alg : algorithm)
  : outcome (option image) :=
  let* f := algorithm_filter hp alg in get_result f.

(** A [for] loop whose body logs, and returns the next state or raises. *)
Fixpoint for_each {A S : Type}
  (body : S -> A -> list log_record * outcome S) (l : list A) (s : S)
  : list log_record * outcome S :=
  match l with
  | [] => ([], Ok s)
  | x :: l' =>
      let '(log, r) := body s x in
      match r with
      | Ok s' =>
          let '(log', r') := for_each body l' s' in ((log ++ log')%list, r')
      | _ => (log, r)
      end
  end.

(** [a.min()], [a.max()] as arguments of a call of the logger: they raise
    on an array with no element. *)
Definition intensity_range (a : option image) : outcome unit :=
  match a with
  | None => Raise (AttributeError "'NoneType' object has no attribute 'min'")
  | Some d =>
      if (length (concat d) =? 0)%nat
      then Raise (ValueError "zero-size array to reduction operation minimum which has no identity")
      else Ok tt
  end.

Section Passes.

Variable float : string -> option Q.

Variable removeSaturatedPixel :
  heap -> ref -> pyval -> pyval -> pyval -> outcome (heap * ref).

(** [fabio_image.getframe(frame).data], of fabio: the heap after the call
    and the array of the frame. *)
Variable getframe_data : heap -> fabio_image -> nat -> outcome (heap * ref).

(** Lines 624-633: the body of the loop over the frames of an image. *)
Definition reduce_frame (self : Average) (fabio_img : fabio_image)
  (st : heap * algorithm) (frame : nat)
  : list log_record * outcome (heap * algorithm) :=
  let '(hp, alg) := st in
  match
    (let* p := (if (fabio_nframes fabio_img =? 1)%nat
                then Ok (hp, fabio_data fabio_img)
                else getframe_data hp fabio_img frame) in
     let* _ := intensity_range (data <$> p.1 !! p.2) in
     Ok p)
  with
  | Ok (hp, data_) =>
      let '(log, r) :=
        _get_corrected_image float removeSaturatedPixel self hp
          (fabio_cls fabio_img) (fabio_header fabio_img) data_ in
      (LogDebug "Intensity range for %s#%i is %s --> %s" :: log,
       let* c := r in
       match c with
       | (hp, None) => Ok (hp, alg)
       | (hp, Some corrected_image) =>
           algorithm_add_image hp alg corrected_image
       end)
  | Raise e => ([], Raise e)
  | NonFinite => ([], NonFinite)
  end.

(** [Average._get_image_reduction], on the images and the number of frames
    that [set_images] has stored: the heap after the pass and the
    result. *)
Definition _get_image_reduction (self : Average)
  (fabio_images : list fabio_image) (nb_frames : nat) (c : filter_class)
  (hp : heap) : list log_record * outcome (heap * option image) :=
  let '(log, r) :=
    for_each
      (fun st fabio_img =>
         for_each (reduce_frame self fabio_img)
           (seq 0 (fabio_nframes fabio_img)) st)
      fabio_images (hp, algorithm_init c (Some nb_frames)) in
  (log,
   let* st := r in
   let* result := algorithm_get_result st.1 st.2 in
   Ok (st.1, result)).

(** [Average.process] without writer: the heap and the object after the
    call, and the result of each algorithm, in order. *)
Definition process (self : Average) (fabio_images : list fabio_image)
  (nb_frames : nat) (algorithms : list filter_class) (hp : heap)
  : list log_record * outcome (heap * Average * list (filter_class * image)) :=
  let '(log0, r0) := _update_flat self in
  match r0 with
  | Ok self' =>
      let '(log, r) :=
        for_each
          (fun (st : heap * list (filter_class * image)) c =>
             let '(log, r) :=
               _get_image_reduction self' fabio_images nb_frames c st.1 in
             match r with
             | Ok (hp', image_reduction) =>
                 match intensity_range image_reduction, image_reduction with
                 | Ok _, Some d =>
                     ((log ++ [LogDebug "Intensity range in merged dataset : %s --> %s"])%list,
                      Ok (hp', (st.2 ++ [(c, d)])%list))
                 | Raise e, _ => (log, Raise e)
                 | _, _ => (log, NonFinite)
                 end
             | Raise e => (log, Raise e)
             | NonFinite => (log, NonFinite)
             end)
          algorithms (hp, []) in
      ((log0 ++ log)%list,
       let* st := r in Ok (st.1, self', st.2))
  | Raise e => (log0, Raise e)
  | NonFinite => (log0, NonFinite)
  end.

End Passes.

(** An image of one frame whose header is empty, on the first array of the
    heap; an [Average] with a monitor key and nothing else; stand-ins for
    the functions of the libraries. *)
Definition plain_image : fabio_image :=
  {| fabio_cls := EdfImage; fabio_header := ∅; fabio_nframes := 1;
     fabio_data := 0 |}.

Definition monitor_only : Average := set_monitor_name Average_init (Some "mon").

Definition no_float (s : string) : option Q := None.

Definition no_saturation (hp : heap) (r : ref) (threshold minimum maximum : pyval)
  : outcome (heap * ref) := Ok (hp, r).

Definition no_getframe (hp : heap) (img : fabio_image) (frame : nat)
  : outcome (heap * ref) := Raise (Exception "no such frame").

(** ** A pass as a function of the values of the frames

    What a pass computes when no array is shared: the correction of an
    image from its values (no saturation bound), and the loop of the pass
    on a filter that holds its images by value. *)

Definition correct_values (float : string -> option Q) (self : Average)
  (image_class : fabio_class) (header : gmap string string) (d : image)
  : outcome (option image) :=
  let* d1 := match _dark self with
             | Some dark => np_binary Qminus d dark
             | None => Ok d
             end in
  let* d2 := match _flat self with
             | Some flat => np_divide d1 flat
             | None => Ok d1
             end in
  match _monitor_key self with
  | None => Ok (Some d2)
  | Some key =>
      match _get_monitor_value float image_class header (Some key) with
      | Ok (MonitorFloat v) =>
          let* d3 := np_divide_scalar d2 v in Ok (Some d3)
      | Ok (ExceptionObject _) =>
          Raise (TypeError "unsupported operand type(s) for /=")
      | Raise (MonitorNotFound _) => Ok None
      | Raise e => Raise e
      | NonFinite => NonFinite
      end
  end.

Fixpoint reduce_values (float : string -> option Q) (self : Average)
  (f : reduction_filter) (frames : list (fabio_image * image))
  : outcome reduction_filter :=
  match frames with
  | [] => Ok f
  | (img, d) :: frames' =>
      let* _ := intensity_range (Some d) in
      let* c := correct_values float self (fabio_cls img) (fabio_header img) d in
      match c with
      | None => reduce_values float self f frames'
      | Some corrected =>
          let* f' := add_image f corrected in
          reduce_values float self f' frames'
      end
  end.

(** The values of the arrays of the images, read from the heap. *)
Definition frame_values (hp : heap) (fabio_images : list fabio_image)
  : list (fabio_image * image) :=
  map (fun img => (img, default [] (data <$> hp !! fabio_data img)))
      fabio_images.

(** The implementation [impl] does what [spec] says: the same exception,
    or results related by [R]. *)
Definition refines {A B : Type} (R : A -> B -> Prop) (spec : outcome A)
  (impl : outcome B) : Prop :=
  match spec with
  | Ok a => exists b, impl = Ok b /\ R a b
  | Raise e => impl = Raise e
  | NonFinite => impl = NonFinite
  end.

(** No correction of the object writes into an array. *)
Definition no_in_place (self : Average) : Prop :=
  _dark self = None /\ _flat self = None /\ _monitor_key self = None.

(** The array is one that [numpy.ascontiguousarray(_, float32)] returns
    as it is. *)
Definition is_float32_contiguous (a : ndarray) : bool :=
  dtype_eqb (dtype a) float32 && c_contiguous a.

(** An accumulator object is of one of the accumulator classes. *)
Definition algorithm_wf (alg : algorithm) : Prop :=
  match alg with
  | AccumulatorObject c _ _ => accumulator_op c <> None
  | StackObject _ => True
  end.

(** A second image of one frame, on the second array of the heap. *)
Definition second_image : fabio_image :=
  {| fabio_cls := EdfImage; fabio_header := ∅; fabio_nframes := 1;
     fabio_data := 1 |}.

(** [Average.process] as a function of the values of the frames: each
    algorithm is given the frames as they are on entry. *)
Fixpoint process_values (float : string -> option Q) (self : Average)
  (frames : list (fabio_image * image)) (nb_frames : nat)
  (algorithms : list filter_class) : outcome (list (filter_class * image)) :=
  match algorithms with
  | [] => Ok []
  | c :: algorithms' =>
      let* f := reduce_values float self (init c (Some nb_frames)) frames in
      let* image_reduction := get_result f in
      let* _ := intensity_range image_reduction in
      match image_reduction with
      | None => Raise (AttributeError "'NoneType' object has no attribute 'min'")
      | Some d =>
          let* results :=
            process_values float self frames nb_frames algorithms' in
          Ok ((c, d) :: results)
      end
  end.

(** No dark, no flat and no monitor are set. *)
Definition uncorrected (self : Average) : Prop :=
  _dark self = None /\ _raw_flat self = None /\ _monitor_key self = None.

(** The call returns: it neither raises nor leaves the rationals. *)
Definition is_ok {A : Type} (r : outcome A) : bool :=
  match r with
  | Ok _ => true
  | _ => false
  end.

(** * Properties *)

(** ** Arrays and shapes *)

Lemma nth_map_seq {A : Type} (d : A) (f : nat -> A) (n i : nat) :
  (i < n)%nat -> nth i (map f (seq 0 n)) d = f i.
Proof.
  intros Hi.
  rewrite (nth_indep _ d (f 0%nat)) by (rewrite length_map, length_seq; lia).
  rewrite (map_nth f (seq 0 n) 0%nat i), seq_nth by lia. reflexivity.
Qed.

Lemma get2_tabulate2 {A : Type} (d : A) (h w : nat) (f : nat -> nat -> A)
  (i j : nat) :
  (i < h)%nat -> (j < w)%nat -> get2 d (tabulate2 h w f) i j = f i j.
Proof.
  intros Hi Hj. unfold get2, tabulate2.
  rewrite (nth_map_seq [] (fun i => map (f i) (seq 0 w)) h i Hi).
  apply nth_map_seq, Hj.
Qed.

Lemma has_shape_tabulate2 {A : Type} (h w : nat) (f : nat -> nat -> A) :
  has_shape h w (tabulate2 h w f) = true.
Proof.
  unfold has_shape, tabulate2. rewrite length_map, length_seq, Nat.eqb_refl.
  simpl. apply forallb_forall. intros r Hr. apply in_map_iff in Hr.
  destruct Hr as [i [<- _]]. rewrite length_map, length_seq.
  apply Nat.eqb_refl.
Qed.

Lemma tabulate2_no_rows {A : Type} (w w' : nat) (f g : nat -> nat -> A) :
  tabulate2 0 w f = tabulate2 0 w' g.
Proof. reflexivity. Qed.

Lemma has_shape_no_rows {A : Type} (w : nat) (a : list (list A)) :
  has_shape 0 w a = true -> a = [].
Proof.
  unfold has_shape. intros H. apply andb_true_iff in H. destruct H as [H _].
  apply Nat.eqb_eq in H. destruct a; [reflexivity | discriminate].
Qed.

Lemma shape2_has_shape {A : Type} (h w : nat) (a : list (list A)) :
  has_shape h w a = true -> (0 < h)%nat -> shape2 a = (h, w).
Proof.
  unfold has_shape, shape2. intros H Hh. apply andb_true_iff in H.
  destruct H as [Hl Hr]. apply Nat.eqb_eq in Hl.
  destruct a as [|r a]; simpl in *; [lia |].
  apply andb_true_iff in Hr. destruct Hr as [Hr _]. apply Nat.eqb_eq in Hr.
  congruence.
Qed.

Lemma forallb_has_shape_no_rows (w w' : nat) (l : list image) :
  forallb (has_shape 0 w) l = true -> forallb (has_shape 0 w') l = true.
Proof.
  intros H. apply forallb_forall. intros a Ha.
  rewrite forallb_forall in H. specialize (H a Ha).
  apply has_shape_no_rows in H. subst a. reflexivity.
Qed.

Lemma reduce_stack_no_rows (stack : list image) (w w' n : nat) (m : string)
  (cutoff : option Q) (quantiles : option (Q * Q)) :
  reduce_stack stack 0 w' n m cutoff quantiles
  = reduce_stack stack 0 w n m cutoff quantiles.
Proof.
  unfold reduce_stack, compute_center.
  destruct (ndarray_method m) as [f|] eqn:Hm.
  - unfold ndarray_method in Hm.
    repeat match type of Hm with
           | (if ?b then _ else _) = _ => destruct b
           end; inversion Hm; subst f; destruct stack; reflexivity.
  - destruct (String.eqb m "median"); [destruct stack; reflexivity |].
    destruct (starts_with "quantil" m); [| reflexivity].
    destruct quantiles as [qs|]; [| reflexivity].
    destruct (quantile_range qs n) as [[lower upper] empty].
    change (np_sort_axis0 0 w' stack) with (np_sort_axis0 0 w stack).
    unfold np_mean_axis0, np_nan_on_empty.
    destruct (slice lower upper (np_sort_axis0 0 w stack)); reflexivity.
Qed.

Lemma build_stack_frames (lstimg : lstimg_t) (h w : nat) :
  frames_shape lstimg h w ->
  frames_of lstimg <> [] ->
  single_image_list lstimg = false ->
  exists w',
    build_stack lstimg
    = inr (Ok (frames_of lstimg, (h, w'), length (frames_of lstimg)))
    /\ (w' = w \/ h = 0%nat).
Proof.
  destruct lstimg as [l | h' w' frames];
    cbn [frames_shape frames_of single_image_list].
  - intros Hs Hne H1. destruct l as [|img0 rest]; [congruence |].
    destruct rest as [|img1 rest]; [discriminate |].
    assert (H0 : has_shape h w img0 = true).
    { cbn [forallb] in Hs. apply andb_true_iff in Hs. tauto. }
    unfold build_stack. destruct h as [|h].
    + pose proof (has_shape_no_rows _ _ H0) as ->. exists 0%nat.
      pose proof (forallb_has_shape_no_rows w 0 _ Hs) as Hs0.
      cbn [shape2 length hd fst snd Nat.eqb]. rewrite Hs0. auto.
    + exists w. rewrite (shape2_has_shape (S h) w img0 H0) by lia.
      cbn [fst snd length Nat.eqb]. rewrite Hs. auto.
  - intros (-> & -> & _) _ _. exists w. auto.
Qed.

(** Past the single image of a list, [average_dark] is [reduce_stack] on
    the frames. *)
Lemma average_dark_reduce_stack (lstimg : lstimg_t) (h w : nat) (m : string)
  (cutoff : option Q) (quantiles : option (Q * Q)) :
  frames_shape lstimg h w ->
  frames_of lstimg <> [] ->
  single_image_list lstimg = false ->
  average_dark lstimg m cutoff quantiles
  = reduce_stack (frames_of lstimg) h w (length (frames_of lstimg))
      m cutoff quantiles.
Proof.
  intros Hs Hne H1.
  destruct (build_stack_frames lstimg h w Hs Hne H1) as (w' & Hb & Hw).
  unfold average_dark. rewrite Hb.
  destruct Hw as [-> | ->]; [reflexivity | apply reduce_stack_no_rows].
Qed.

(** ** The mean without cutoff *)

Lemma ndarray_method_mean : ndarray_method "mean" = Some np_mean_axis0.
Proof. reflexivity. Qed.

Lemma reduce_stack_mean_no_cutoff (stack : list image) (h w n : nat)
  (cutoff : option Q) (quantiles : option (Q * Q)) :
  stack <> [] ->
  no_cutoff cutoff = true ->
  reduce_stack stack h w n "mean" cutoff quantiles
  = ([], Ok (reduce_axis0 0 h w mean1 stack)).
Proof.
  intros Hne Hc. unfold reduce_stack, compute_center.
  rewrite ndarray_method_mean. unfold np_mean_axis0, np_nan_on_empty.
  destruct stack as [|f stack]; [congruence |].
  destruct cutoff as [c|]; [| reflexivity].
  simpl in Hc. rewrite Hc. reflexivity.
Qed.

Lemma single_image_list_inv (lstimg : lstimg_t) :
  single_image_list lstimg = true -> exists f, lstimg = ImageList [f].
Proof.
  destruct lstimg as [[|f [|g l]]|]; try discriminate. eauto.
Qed.

(** C1.  For a stack of at least one frame, all frames of one shape,
    [average_dark] with the center method "mean" and no cutoff ([None], or
    a cutoff [<= 0]) returns the pointwise arithmetic mean of the frames:
    the center image is the result. *)
Theorem average_dark_mean_no_cutoff (lstimg : lstimg_t) (h w : nat)
  (cutoff : option Q) (quantiles : option (Q * Q)) :
  frames_shape lstimg h w ->
  frames_of lstimg <> [] ->
  no_cutoff cutoff = true ->
  exists out,
    (average_dark lstimg "mean" cutoff quantiles).2 = Ok out
    /\ is_pointwise_mean (frames_of lstimg) h w out.
Proof.
  intros Hs Hne Hc. destruct (single_image_list lstimg) eqn:H1.
  - apply single_image_list_inv in H1. destruct H1 as [f ->].
    exists f. split; [reflexivity |]. split.
    + simpl in Hs. apply andb_true_iff in Hs. tauto.
    + intros i j _ _. simpl. unfold Qdiv.
      change (/ inject_Z (Z.of_nat 1)) with 1. ring.
  - rewrite (average_dark_reduce_stack lstimg h w) by assumption.
    rewrite reduce_stack_mean_no_cutoff by assumption.
    eexists. split; [reflexivity |]. split.
    + apply has_shape_tabulate2.
    + intros i j Hi Hj. unfold px, reduce_axis0.
      rewrite get2_tabulate2 by assumption. unfold mean1, column.
      rewrite length_map. reflexivity.
Qed.

Lemma average_dark_mean_no_cutoff_witness :
  exists out,
    (average_dark (ImageList [[[1; 2]; [3; 0]]; [[0; 5]; [1; 1]]])
       "mean" None (Some (1 # 2, 1 # 2))).2 = Ok out
    /\ is_pointwise_mean [[[1; 2]; [3; 0]]; [[0; 5]; [1; 1]]] 2 2 out.
Proof.
  apply (average_dark_mean_no_cutoff
           (ImageList [[[1; 2]; [3; 0]]; [[0; 5]; [1; 1]]]) 2 2 None
           (Some (1 # 2, 1 # 2))).
  - reflexivity.
  - discriminate.
  - reflexivity.
Defined.

(** ** The average within the cutoff *)

Lemma column_zero_masked (stack : list image) (h w : nat)
  (mask_at : image -> nat -> nat -> bool) (i j : nat) :
  (i < h)%nat -> (j < w)%nat ->
  column 0 (zero_masked stack h w (map (fun f => tabulate2 h w (mask_at f)) stack)) i j
  = map (fun f => if mask_at f i j then 0 else px f i j) stack.
Proof.
  intros Hi Hj. unfold column, zero_masked.
  induction stack as [|f stack IH]; [reflexivity |].
  cbn [map zip_with]. rewrite IH. f_equal.
  unfold px at 1. rewrite !get2_tabulate2 by assumption. reflexivity.
Qed.

Lemma column_mask (stack : list image) (h w : nat)
  (mask_at : image -> nat -> nat -> bool) (i j : nat) :
  (i < h)%nat -> (j < w)%nat ->
  column false (map (fun f => tabulate2 h w (mask_at f)) stack) i j
  = map (fun f => mask_at f i j) stack.
Proof.
  intros Hi Hj. unfold column. rewrite map_map. apply map_ext. intros f.
  apply get2_tabulate2; assumption.
Qed.

Lemma count_true_map {A : Type} (p : A -> bool) (l : list A) :
  count_true (map p l) = Z.of_nat (length (filter (fun x => p x = true) l)).
Proof.
  unfold count_true. f_equal. induction l as [|x l IH]; [reflexivity |].
  cbn [map]. rewrite !filter_cons. destruct (p x) eqn:E.
  - rewrite !decide_True by done. simpl. congruence.
  - rewrite !decide_False by done. exact IH.
Qed.

Lemma length_filter_map {A B : Type} (g : A -> B) (p : B -> bool)
  (q : A -> bool) (l : list A) :
  (forall a, q a = p (g a)) ->
  length (filter (fun a => q a = true) l)
  = length (filter (fun x => p x = true) (map g l)).
Proof.
  intros Hq. induction l as [|a l IH]; [reflexivity |].
  cbn [map]. rewrite !filter_cons, Hq. destruct (p (g a)).
  - rewrite !decide_True by done. cbn [length]. f_equal. exact IH.
  - rewrite !decide_False by done. exact IH.
Qed.

Lemma px_cutoff_average (stack : list image) (h w : nat) (c : image)
  (cutoff : Q) (i j : nat) :
  stack <> [] -> (i < h)%nat -> (j < w)%nat ->
  px (cutoff_average stack h w (length stack) (Ok c) cutoff) i j
  = trimmed_pixel (map (fun f => px f i j) stack) (px c i j) cutoff.
Proof.
  intros Hne Hi Hj. unfold cutoff_average.
  unfold px at 1. rewrite get2_tabulate2 by assumption.
  assert (Hstd : np_std_axis0 h w stack = Ok (reduce_axis0 0 h w std1 stack)).
  { destruct stack; [congruence | reflexivity]. }
  rewrite Hstd. unfold cutoff_mask.
  set (mask_at := fun (frame : image) (i j : nat) =>
         np_greater
           (np_true_divide (Qabs (px frame i j - px c i j))
              (px (reduce_axis0 0 h w std1 stack) i j)) cutoff).
  change (map (fun frame : image => tabulate2 h w _) stack)
    with (map (fun f => tabulate2 h w (mask_at f)) stack).
  unfold np_sum_axis0, reduce_axis0 at 1 2. unfold px at 1.
  rewrite !get2_tabulate2 by assumption.
  rewrite column_zero_masked, column_mask by assumption.
  rewrite (count_true_map (fun f => mask_at f i j)).
  unfold trimmed_pixel. rewrite !map_map, length_map.
  assert (Hm : forall f, mask_at f i j
           = masked_value (map (fun f => px f i j) stack) (px c i j) cutoff
               (px f i j)).
  { intros f. unfold mask_at, masked_value, reduce_axis0.
    unfold px at 3. rewrite get2_tabulate2 by assumption. reflexivity. }
  f_equal.
  - f_equal. apply map_ext. intros f. rewrite Hm. reflexivity.
  - do 4 f_equal. apply length_filter_map, Hm.
Qed.

(** C2, as it holds.  For a 3D stack of at least one frame, or a list of
    at least two images, all of one shape, and a cutoff [> 0]:
    [average_dark] masks the entries of the stack whose distance to the
    center, divided by the pointwise standard deviation, is above the
    cutoff, counts them as zero, and returns the pointwise sum divided by
    [max(1, N - masked)].  (A list of one image is returned as it is.) *)
Theorem average_dark_cutoff (lstimg : lstimg_t) (h w : nat) (m : string)
  (c : Q) (quantiles : option (Q * Q)) :
  frames_shape lstimg h w ->
  frames_of lstimg <> [] ->
  single_image_list lstimg = false ->
  0 < c ->
  cutoff_average_spec lstimg h w m c quantiles.
Proof.
  intros Hs Hne H1 Hc center Hcenter.
  rewrite (average_dark_reduce_stack lstimg h w) by assumption.
  unfold reduce_stack.
  destruct (compute_center _ _ _ _ _ _) as [log ctr]. simpl in Hcenter.
  subst ctr.
  assert (Hle : Qle_bool c 0 = false).
  { destruct (Qle_bool c 0) eqn:E; [| reflexivity].
    apply Qle_bool_iff in E. exfalso. exact (Qlt_not_le _ _ Hc E). }
  rewrite Hle. eexists. split; [reflexivity |]. split.
  - apply has_shape_tabulate2.
  - intros i j Hi Hj. rewrite px_cutoff_average by assumption. reflexivity.
Qed.

Lemma average_dark_cutoff_witness :
  cutoff_average_spec
    (ImageList [[[1; 2]; [3; 0]]; [[0; 5]; [1; 1]]; [[5; 5]; [5; 5]]])
    2 2 "mean" 1 (Some (1 # 2, 1 # 2)).
Proof.
  apply average_dark_cutoff.
  - reflexivity.
  - discriminate.
  - reflexivity.
  - reflexivity.
Defined.

(** C2, as it is written, fails on a list of one image: with the center
    method "std" the image [[5]] is returned as it is, where the standard
    deviation and the center are both 0, the pixel is masked and the
    average within the cutoff is 0. *)
Lemma cutoff_average_spec_fails_on_single_image :
  frames_shape (ImageList [[[5]]]) 1 1
  /\ frames_of (ImageList [[[5]]]) <> []
  /\ 0 < 1
  /\ ~ cutoff_average_spec (ImageList [[[5]]]) 1 1 "std" 1
        (Some (1 # 2, 1 # 2)).
Proof.
  split; [reflexivity |]. split; [discriminate |]. split; [reflexivity |].
  intros H.
  destruct (H _ ltac:(vm_compute; reflexivity)) as (out & Hout & _ & Hpx).
  vm_compute in Hout. injection Hout as <-.
  specialize (Hpx 0%nat 0%nat ltac:(lia) ltac:(lia)).
  vm_compute in Hpx. discriminate Hpx.
Qed.

(** ** The reduction filters *)

Example max_accumulator :
  (let* f1 := add_image (init MaxAveraging (Some 2%nat)) [[1; 2]; [3; 0]] in
   let* f2 := add_image f1 [[0; 5]; [1; 1]] in
   get_result f2)
  = Ok (Some [[1; 5]; [3; 1]]).
Proof. reflexivity. Qed.

(** C3, on the code.  [get_result] right after [init]: the stack filter
    raises "No data to reduce"; the accumulators for max, min and sum
    return [None], with no error; the accumulator for the mean raises a
    [TypeError] (the division of [None]). *)
Theorem get_result_after_init (max_images : option nat) :
  get_result (init MaxAveraging max_images) = Ok None
  /\ get_result (init MinAveraging max_images) = Ok None
  /\ get_result (init SumAveraging max_images) = Ok None
  /\ get_result (init MeanAveraging max_images)
     = Raise (TypeError "unsupported operand type(s) for /: 'NoneType' and 'float'")
  /\ forall filter_name cut_off quantiles,
       get_result (init (AverageDarkFilter filter_name cut_off quantiles)
                     max_images)
       = Raise (Exception "No data to reduce").
Proof. repeat split. Qed.

(** ** [sort] sorts *)



Lemma insert_sorted_hd (x y : Q) (l : list Q) :
  y <= x -> HdRel Qle y l -> HdRel Qle y (insert_sorted x l).
Proof.
  intros Hyx Hl. destruct l as [|z l]; cbn [insert_sorted].
  - constructor. exact Hyx.
  - destruct (Qle_bool x z); constructor; [exact Hyx |].
    inversion Hl; assumption.
Qed.

Lemma insert_sorted_sorted (x : Q) (l : list Q) :
  Sorted Qle l -> Sorted Qle (insert_sorted x l).
Proof.
  induction 1 as [|y l Hs IH Hhd]; cbn [insert_sorted].
  - repeat constructor.
  - destruct (Qle_bool x y) eqn:E.
    + apply Qle_bool_iff in E. repeat constructor; assumption.
    + constructor; [exact IH |]. apply insert_sorted_hd; [| exact Hhd].
      apply Qlt_le_weak, Qnot_le_lt. intros C. apply Qle_bool_iff in C.
      congruence.
Qed.

Lemma sort_sorted (l : list Q) : Sorted Qle (sort l).
Proof.
  induction l as [|x l IH]; [constructor |].
  apply insert_sorted_sorted, IH.
Qed.

(** ** A single frame *)

Lemma mean1_single (x : Q) : mean1 [x] == x.
Proof.
  unfold mean1. simpl. unfold Qdiv.
  change (/ inject_Z (Z.of_nat 1)) with 1. ring.
Qed.

Lemma Qsum_single (x : Q) : Qsum [x] == x.
Proof. simpl. ring. Qed.

Lemma median1_single (x : Q) : median1 [x] = x.
Proof. reflexivity. Qed.

Lemma Qnum_zero (q : Q) : q == 0 -> Qnum q = 0%Z.
Proof. unfold Qeq. simpl. lia. Qed.

Lemma Qsqrt_zero (q : Q) : q == 0 -> Qsqrt q == 0.
Proof.
  intros H. unfold Qsqrt. rewrite (Qnum_zero q H). reflexivity.
Qed.

Lemma std1_single (x : Q) : std1 [x] == 0.
Proof.
  unfold std1. apply Qsqrt_zero. cbn [map]. rewrite mean1_single.
  assert (E : x - mean1 [x] == 0) by (rewrite mean1_single; ring).
  rewrite E. reflexivity.
Qed.

Lemma masked_value_single (x c cutoff : Q) :
  c == x -> masked_value [x] c cutoff x = false.
Proof.
  intros Hc. unfold masked_value, np_true_divide.
  assert (H1 : Qeq_bool (std1 [x]) 0 = true)
    by (apply Qeq_bool_iff, std1_single).
  assert (H2 : Qeq_bool (Qabs (x - c)) 0 = true).
  { apply Qeq_bool_iff. assert (E : x - c == 0) by (rewrite Hc; ring).
    rewrite E. reflexivity. }
  rewrite H1, H2. reflexivity.
Qed.

Lemma trimmed_pixel_single (x c cutoff : Q) :
  c == x -> trimmed_pixel [x] c cutoff == x.
Proof.
  intros Hc. unfold trimmed_pixel. cbn [map]. rewrite filter_cons.
  rewrite (masked_value_single x c cutoff Hc).
  rewrite decide_False by done. simpl. unfold Qdiv.
  change (/ inject_Z (Z.max 1 (Z.of_nat 1 - Z.of_nat 0))) with 1. ring.
Qed.

Lemma quantile_range_single (q1 q2 : Q) :
  0 <= q1 <= 1 -> 0 <= q2 <= 1 ->
  quantile_range (q1, q2) 1 = (0%Z, 1%Z, false).
Proof.
  intros [H1 H1'] [H2 H2']. unfold quantile_range. cbn [fst snd].
  set (lo := Qminimum q1 q2). set (hi := Qmaximum q1 q2).
  assert (Hlo : 0 <= lo <= 1).
  { unfold lo, Qminimum. destruct (Qle_bool q1 q2); auto. }
  assert (Hhi : 0 <= hi <= 1).
  { unfold hi, Qmaximum. destruct (Qle_bool q1 q2); auto. }
  assert (Hlh : lo <= hi).
  { unfold lo, hi, Qminimum, Qmaximum. destruct (Qle_bool q1 q2) eqn:E.
    - apply Qle_bool_iff, E.
    - apply Qlt_le_weak, Qnot_le_lt. intros C.
      apply Qle_bool_iff in C. congruence. }
  change (Z.of_nat 1) with 1%Z. change (inject_Z 1) with 1.
  assert (Ef : (0 <= Qfloor (lo * 1) <= 1)%Z).
  { split.
    - change 0%Z with (Qfloor 0). apply Qfloor_resp_le.
      rewrite Qmult_1_r. tauto.
    - change 1%Z with (Qfloor 1). apply Qfloor_resp_le.
      rewrite Qmult_1_r. tauto. }
  assert (Ec : (0 <= Qceiling (hi * 1) <= 1)%Z).
  { split.
    - change 0%Z with (Qceiling 0). apply Qceiling_resp_le.
      rewrite Qmult_1_r. tauto.
    - change 1%Z with (Qceiling 1). apply Qceiling_resp_le.
      rewrite Qmult_1_r. tauto. }
  assert (Efc : (Qfloor (lo * 1) <= Qceiling (hi * 1))%Z).
  { rewrite Zle_Qle. eapply Qle_trans; [apply Qfloor_le |].
    eapply Qle_trans; [| apply Qle_ceiling]. rewrite !Qmult_1_r. exact Hlh. }
  destruct (Z.eqb_spec (Z.min 1 (Qceiling (hi * 1)))
              (Z.max 0 (Qfloor (lo * 1)))) as [E|E].
  - destruct (Z.ltb_spec (Z.min 1 (Qceiling (hi * 1))) 1) as [L|L].
    + repeat f_equal; lia.
    + destruct (Z.ltb_spec 0 (Z.max 0 (Qfloor (lo * 1)))) as [L'|L'].
      * repeat f_equal; lia.
      * exfalso; lia.
  - repeat f_equal; lia.
Qed.

Lemma px_reduce_axis0 (h w : nat) (f : list Q -> Q) (stack : list image)
  (i j : nat) :
  (i < h)%nat -> (j < w)%nat ->
  px (reduce_axis0 0 h w f stack) i j = f (map (fun fr => px fr i j) stack).
Proof.
  intros Hi Hj. unfold px at 1, reduce_axis0.
  rewrite get2_tabulate2 by assumption. reflexivity.
Qed.

Lemma compute_center_single (frame : image) (h w : nat) (m : string)
  (quantiles : option (Q * Q)) :
  frame_is_center m quantiles ->
  exists log center,
    compute_center [frame] h w 1 m quantiles = (log, Ok center)
    /\ has_shape h w center = true
    /\ forall i j, (i < h)%nat -> (j < w)%nat ->
         px center i j == px frame i j.
Proof.
  intros [-> | [-> | [-> | [-> | [-> | [-> (q1 & q2 & -> & H1 & H2)]]]]]].
  - do 2 eexists. split; [reflexivity |]. split; [apply has_shape_tabulate2 |].
    intros i j Hi Hj. rewrite px_reduce_axis0 by assumption.
    apply mean1_single.
  - do 2 eexists. split; [reflexivity |]. split; [apply has_shape_tabulate2 |].
    intros i j Hi Hj. unfold np_sum_axis0.
    rewrite px_reduce_axis0 by assumption. apply Qsum_single.
  - do 2 eexists. split; [reflexivity |]. split; [apply has_shape_tabulate2 |].
    intros i j Hi Hj. rewrite px_reduce_axis0 by assumption. reflexivity.
  - do 2 eexists. split; [reflexivity |]. split; [apply has_shape_tabulate2 |].
    intros i j Hi Hj. rewrite px_reduce_axis0 by assumption. reflexivity.
  - do 2 eexists. split; [reflexivity |]. split; [apply has_shape_tabulate2 |].
    intros i j Hi Hj. rewrite px_reduce_axis0 by assumption. reflexivity.
  - unfold compute_center.
    change (ndarray_method "quantile") with (@None (nat -> nat -> list image -> outcome image)).
    change (String.eqb "quantile" "median") with false.
    change (starts_with "quantil" "quantile") with true. cbv iota.
    rewrite (quantile_range_single q1 q2 H1 H2).
    do 2 eexists. split; [reflexivity |]. split; [apply has_shape_tabulate2 |].
    intros i j Hi Hj. rewrite px_reduce_axis0 by assumption.
    change (slice 0 1 (np_sort_axis0 h w [frame]))
      with [tabulate2 h w (fun i j => nth 0 (sort (column 0 [frame] i j)) 0)].
    cbn [map]. rewrite mean1_single. unfold px at 1.
    rewrite get2_tabulate2 by assumption. reflexivity.
Qed.

Lemma reduce_stack_single (frame : image) (h w : nat) (m : string)
  (cutoff : option Q) (quantiles : option (Q * Q)) :
  frame_is_center m quantiles ->
  returns_frame (reduce_stack [frame] h w 1 m cutoff quantiles).2 h w frame.
Proof.
  intros Hm.
  destruct (compute_center_single frame h w m quantiles Hm)
    as (log & center & E & Hsh & Hpx).
  unfold reduce_stack. rewrite E.
  destruct cutoff as [c|]; [destruct (Qle_bool c 0) |].
  - exists center. auto.
  - eexists. split; [reflexivity |]. split; [apply has_shape_tabulate2 |].
    intros i j Hi Hj.
    change 1%nat with (length [frame]).
    rewrite (px_cutoff_average [frame] h w center c i j) by (done || lia).
    apply trimmed_pixel_single, Hpx; assumption.
  - exists center. auto.
Qed.

(** C4, as it holds.  A list that holds one 2D frame is returned as it is,
    under every center method and every cutoff, and nothing is logged.  A
    3D stack of one frame gives that frame back under the center methods
    mean, sum, max, min, median and quantile (band within [0, 1]); under a
    center method that is none of the reductions of an array, "median" or
    "quantil...", it raises [RuntimeError]. *)
Theorem average_dark_single_frame (frame : image) (h w : nat) (m : string)
  (cutoff : option Q) (quantiles : option (Q * Q)) :
  has_shape h w frame = true ->
  average_dark (ImageList [frame]) m cutoff quantiles = ([], Ok frame)
  /\ (frame_is_center m quantiles ->
      returns_frame
        (average_dark (Stack3D h w [frame]) m cutoff quantiles).2 h w frame)
  /\ (ndarray_method m = None ->
      String.eqb m "median" = false ->
      starts_with "quantil" m = false ->
      (average_dark (Stack3D h w [frame]) m cutoff quantiles).2
      = Raise (RuntimeError "Cannot understand method: %s in average_dark")).
Proof.
  intros Hsh. split; [reflexivity |]. split.
  - apply reduce_stack_single.
  - intros H1 H2 H3. unfold average_dark, build_stack, reduce_stack,
      compute_center. rewrite H1, H2, H3. destruct cutoff; reflexivity.
Qed.

Lemma average_dark_single_frame_witness :
  average_dark (ImageList [[[1; 2]; [3; 0]]]) "std" (Some 4) None
  = ([], Ok [[1; 2]; [3; 0]])
  /\ returns_frame
       (average_dark (Stack3D 2 2 [[[1; 2]; [3; 0]]]) "median" (Some 4)
          None).2 2 2 [[1; 2]; [3; 0]]
  /\ (average_dark (Stack3D 2 2 [[[1; 2]; [3; 0]]]) "unknown" (Some 4)
        None).2
     = Raise (RuntimeError "Cannot understand method: %s in average_dark").
Proof.
  pose proof (average_dark_single_frame [[1; 2]; [3; 0]] 2 2 "std"
                (Some 4) None eq_refl) as (H1 & _ & _).
  pose proof (average_dark_single_frame [[1; 2]; [3; 0]] 2 2 "median"
                (Some 4) None eq_refl) as (_ & H2 & _).
  pose proof (average_dark_single_frame [[1; 2]; [3; 0]] 2 2 "unknown"
                (Some 4) None eq_refl) as (_ & _ & H3).
  split; [exact H1 |]. split.
  - apply H2. unfold frame_is_center. tauto.
  - apply H3; reflexivity.
Defined.

(** C4, as it is written, fails on a 3D stack of one frame: a center
    method that is not recognized raises. *)
Lemma single_frame_stack_unknown_method_raises :
  has_shape 1 1 [[5]] = true
  /\ ~ returns_frame
        (average_dark (Stack3D 1 1 [[[5]]]) "unknown" None
           (Some (1 # 2, 1 # 2))).2 1 1 [[5]].
Proof.
  split; [reflexivity |]. intros (out & H & _). vm_compute in H.
  discriminate H.
Qed.

(** ** The quantile band (0.5, 0.5) on four frames *)

Lemma quantile_range_half_4 :
  quantile_range (1 # 2, 1 # 2) 4 = (2%Z, 3%Z, false).
Proof. reflexivity. Qed.

(** C5, as it holds.  On four frames of one shape the band (0.5, 0.5) has
    the empty index range [2, 2); it is widened at the upper bound, to
    [2, 3).  [average_dark] raises nothing and returns an image: without
    cutoff, the third smallest value of each pixel.  The only record
    logged is the information on the filter: no warning is logged. *)
Theorem average_dark_half_band (lstimg : lstimg_t) (h w : nat)
  (cutoff : option Q) :
  frames_shape lstimg h w ->
  length (frames_of lstimg) = 4%nat ->
  quantile_range (1 # 2, 1 # 2) (length (frames_of lstimg))
  = (2%Z, 3%Z, false)
  /\ exists out,
       average_dark lstimg "quantile" cutoff (Some (1 # 2, 1 # 2))
       = ([LogInfo "Filtering data (quantiles: %s)"], Ok out)
       /\ has_shape h w out = true
       /\ (no_cutoff cutoff = true ->
           forall i j, (i < h)%nat -> (j < w)%nat ->
             px out i j
             == nth 2 (sort (map (fun f => px f i j) (frames_of lstimg))) 0).
Proof.
  intros Hs Hlen. split; [rewrite Hlen; reflexivity |].
  assert (Hne : frames_of lstimg <> []).
  { intros E. rewrite E in Hlen. discriminate. }
  assert (H1 : single_image_list lstimg = false).
  { destruct lstimg as [[|f [|g l]]|]; try reflexivity. discriminate. }
  rewrite (average_dark_reduce_stack lstimg h w) by assumption.
  rewrite Hlen. clear Hs Hne H1.
  destruct (frames_of lstimg) as [|f1 [|f2 [|f3 [|f4 [|f5 l]]]]];
    try discriminate.
  clear Hlen. set (stack := [f1; f2; f3; f4]).
  unfold reduce_stack, compute_center.
  change (ndarray_method "quantile")
    with (@None (nat -> nat -> list image -> outcome image)).
  change (String.eqb "quantile" "median") with false.
  change (starts_with "quantil" "quantile") with true. cbv iota.
  rewrite quantile_range_half_4.
  change (slice 2 3 (np_sort_axis0 h w stack))
    with [tabulate2 h w (fun i j => nth 2 (sort (column 0 stack i j)) 0)].
  cbv iota. unfold np_mean_axis0, np_nan_on_empty.
  destruct cutoff as [c|]; [destruct (Qle_bool c 0) eqn:Hc |].
  - eexists. split; [reflexivity |]. split; [apply has_shape_tabulate2 |].
    intros _ i j Hi Hj. rewrite px_reduce_axis0 by assumption.
    cbn [map]. rewrite mean1_single. unfold px at 1.
    rewrite get2_tabulate2 by assumption. reflexivity.
  - eexists. split; [reflexivity |]. split; [apply has_shape_tabulate2 |].
    simpl. rewrite Hc. discriminate.
  - eexists. split; [reflexivity |]. split; [apply has_shape_tabulate2 |].
    intros _ i j Hi Hj. rewrite px_reduce_axis0 by assumption.
    cbn [map]. rewrite mean1_single. unfold px at 1.
    rewrite get2_tabulate2 by assumption. reflexivity.
Qed.

Lemma average_dark_half_band_witness :
  quantile_range (1 # 2, 1 # 2) 4 = (2%Z, 3%Z, false)
  /\ exists out,
       average_dark (Stack3D 1 2 [[[4; 1]]; [[3; 1]]; [[1; 0]]; [[2; 7]]])
         "quantile" None (Some (1 # 2, 1 # 2))
       = ([LogInfo "Filtering data (quantiles: %s)"], Ok out)
       /\ has_shape 1 2 out = true
       /\ (no_cutoff None = true ->
           forall i j, (i < 1)%nat -> (j < 2)%nat ->
             px out i j
             == nth 2 (sort (map (fun f => px f i j)
                               [[[4; 1]]; [[3; 1]]; [[1; 0]]; [[2; 7]]])) 0).
Proof.
  apply (average_dark_half_band
           (Stack3D 1 2 [[[4; 1]]; [[3; 1]]; [[1; 0]]; [[2; 7]]]) 1 2 None).
  - repeat split.
  - reflexivity.
Defined.

Example half_band_result :
  average_dark (Stack3D 1 2 [[[4; 1]]; [[3; 1]]; [[1; 0]]; [[2; 7]]])
    "quantile" None (Some (1 # 2, 1 # 2))
  = ([LogInfo "Filtering data (quantiles: %s)"], Ok [[3 / 1; 1 / 1]]).
Proof. reflexivity. Qed.

(** C5, as it is written, fails: on four frames no warning is logged. *)
Lemma half_band_logs_no_warning :
  frames_shape (Stack3D 1 2 [[[4; 1]]; [[3; 1]]; [[1; 0]]; [[2; 7]]]) 1 2
  /\ ~ half_band_spec
        (Stack3D 1 2 [[[4; 1]]; [[3; 1]]; [[1; 0]]; [[2; 7]]]) None.
Proof.
  split; [repeat split |]. intros [_ H]. vm_compute in H. discriminate H.
Qed.

(** ** The monitor value of a header *)

(** The lookup returns a number or raises [MonitorNotFound], but for one
    case: the mnemonic is found at an index that has no position value,
    where the format of the message has two [%s] for one argument and the
    formatting raises [TypeError]. *)
Lemma monitor_lookup_outcome (float : string -> option Q)
  (keys : gmap string string) (monitor_key : string) :
  (exists v, _get_monitor_value_from_edf float keys monitor_key = Ok v)
  \/ (exists msg,
        _get_monitor_value_from_edf float keys monitor_key
        = Raise (MonitorNotFound msg))
  \/ (_get_monitor_value_from_edf float keys monitor_key
      = Raise (TypeError "not enough arguments for format string")
      /\ exists base_key mnemonic mne pos i,
           split_slash monitor_key = Some (base_key, mnemonic)
           /\ keys !! (base_key ++ "_mne") = Some mne
           /\ keys !! (base_key ++ "_pos") = Some pos
           /\ index mnemonic (split mne) = Some i
           /\ (length (split pos) <= i)%nat).
Proof.
  unfold _get_monitor_value_from_edf.
  assert (Hfloat : forall monitor,
    (exists v, match float monitor with
               | Some v => Ok v
               | None => raise_MonitorNotFound
                           "Monitor value '%s' is not valid" [monitor]
               end = Ok v)
    \/ (exists msg, match float monitor with
                    | Some v => Ok v
                    | None => raise_MonitorNotFound
                                "Monitor value '%s' is not valid" [monitor]
                    end = Raise (MonitorNotFound msg))).
  { intros monitor. destruct (float monitor) as [v|]; [left; eauto |].
    right. eexists. reflexivity. }
  destruct (split_slash monitor_key) as [[base_key mnemonic]|] eqn:Hs.
  - destruct (keys !! (base_key ++ "_mne")) as [mne|] eqn:Hmne;
      [| right; left; eexists; reflexivity].
    destruct (keys !! (base_key ++ "_pos")) as [pos|] eqn:Hpos;
      [| right; left; eexists; reflexivity].
    destruct (index mnemonic (split mne)) as [i|] eqn:Hi;
      [| right; left; eexists; reflexivity].
    destruct (Nat.leb_spec (length (split pos)) i) as [Hle|Hlt].
    + right; right. split; [reflexivity |].
      exists base_key, mnemonic, mne, pos, i. auto.
    + cbn [bind]. destruct (Hfloat (nth i (split pos) EmptyString)); auto.
  - destruct (keys !! monitor_key) as [monitor|] eqn:Hk;
      [| right; left; eexists; reflexivity].
    cbn [bind]. destruct (Hfloat monitor); auto.
Qed.

(** C6, on the code.  The mnemonic "b" is the second of the mnemonics and
    the position list holds one value: the lookup raises [TypeError], not
    [MonitorNotFound]. *)
Theorem monitor_lookup_missing_position (float : string -> option Q) :
  _get_monitor_value_from_edf float short_pos_header "counter/b"
  = Raise (TypeError "not enough arguments for format string").
Proof. reflexivity. Qed.

(** C9.  With the monitor key [None], [_get_monitor_value] raises nothing:
    it returns an exception object, "No monitor defined", as its value. *)
Theorem get_monitor_value_no_key (float : string -> option Q)
  (image_class : fabio_class) (header : gmap string string) :
  _get_monitor_value float image_class header None
  = Ok (ExceptionObject "No monitor defined").
Proof. reflexivity. Qed.

(** ** The flat after [_update_flat] *)

Lemma clamp_positive (flat : image) :
  Forall (Forall (fun x => 0 < x))
    (map (map (fun x => if Qle_bool x 0 then 1 else x)) flat).
Proof.
  induction flat as [|row flat IH]; constructor; [| exact IH].
  induction row as [|x row IHr]; constructor; [| exact IHr].
  destruct (Qle_bool x 0) eqn:E; [reflexivity |].
  apply Qnot_le_lt. intros C. apply Qle_bool_iff in C. congruence.
Qed.

(** C8.  After [_update_flat], with or without the correction of the flat
    from the dark, every entry of the flat is strictly positive: the flat
    is the raw flat, or the raw flat minus the dark, where each entry
    [<= 0] is replaced by 1. *)
Theorem update_flat_positive (self self' : Average) (log : list log_record)
  (flat : image) :
  _update_flat self = (log, Ok self') ->
  _flat self' = Some flat ->
  Forall (Forall (fun x => 0 < x)) flat
  /\ exists raw_flat base,
       _raw_flat self = Some raw_flat
       /\ (base = raw_flat
           \/ exists dark,
                _correct_flat_from_dark self = true
                /\ _dark self = Some dark
                /\ np_binary Qminus raw_flat dark = Ok base)
       /\ flat = map (map (fun x => if Qle_bool x 0 then 1 else x)) base.
Proof.
  unfold _update_flat. intros H Hflat.
  destruct (_raw_flat self) as [raw_flat|].
  - destruct (_correct_flat_from_dark self) eqn:Hc.
    + destruct (_dark self) as [dark|] eqn:Hd.
      * destruct (np_binary Qminus raw_flat dark) as [base| |] eqn:Hb;
          cbn [bind] in H; inversion H; subst; simpl in Hflat.
        injection Hflat as <-. split; [apply clamp_positive |].
        exists raw_flat, base. split; [reflexivity |].
        split; [right; exists dark; auto | reflexivity].
      * cbn [bind] in H. inversion H; subst; simpl in Hflat.
        injection Hflat as <-. split; [apply clamp_positive |].
        exists raw_flat, raw_flat. auto.
    + cbn [bind] in H. inversion H; subst; simpl in Hflat.
      injection Hflat as <-. split; [apply clamp_positive |].
      exists raw_flat, raw_flat. auto.
  - cbn [bind] in H. inversion H; subst. discriminate.
Qed.

(** [_update_flat] returns when the dark has the shape of the raw flat. *)
Lemma update_flat_returns (self : Average) :
  (forall raw_flat dark,
     _raw_flat self = Some raw_flat -> _dark self = Some dark ->
     has_shape (shape2 raw_flat).1 (shape2 raw_flat).2 raw_flat
     && has_shape (shape2 raw_flat).1 (shape2 raw_flat).2 dark = true) ->
  exists log self', _update_flat self = (log, Ok self').
Proof.
  intros H. unfold _update_flat.
  destruct (_raw_flat self) as [raw_flat|]; [| do 2 eexists; reflexivity].
  destruct (_correct_flat_from_dark self); [| do 2 eexists; reflexivity].
  destruct (_dark self) as [dark|]; [| do 2 eexists; reflexivity].
  specialize (H raw_flat dark eq_refl eq_refl). unfold np_binary.
  destruct (shape2 raw_flat) as [h w]. cbn [fst snd] in H. rewrite H.
  do 2 eexists; reflexivity.
Qed.

Lemma update_flat_positive_witness :
  (_update_flat flat_example).2
  = Ok {| _dark := Some [[1; 1]; [1; 1]];
          _raw_flat := Some [[3; 1]; [0; 2]];
          _flat := Some [[2; 1]; [1; 1]];
          _monitor_key := None;
          _threshold := PNone; _minimum := PNone; _maximum := PNone;
          _correct_flat_from_dark := true |}
  /\ Forall (Forall (fun x => 0 < x)) [[2; 1]; [1; 1]].
Proof.
  split; [reflexivity |].
  apply (update_flat_positive flat_example
           {| _dark := Some [[1; 1]; [1; 1]];
              _raw_flat := Some [[3; 1]; [0; 2]];
              _flat := Some [[2; 1]; [1; 1]];
              _monitor_key := None;
              _threshold := PNone; _minimum := PNone; _maximum := PNone;
              _correct_flat_from_dark := true |}
           []).
  - reflexivity.
  - reflexivity.
Defined.

(** ** The correction of an image and the array of the caller *)

(** C7, on the code.  The image of the caller is a contiguous [float32]
    array that holds 5, and the dark holds 1: the array that is returned
    is the object of the caller itself, which now holds 4. *)
Theorem corrected_image_aliases_input (float : string -> option Q)
  (removeSaturatedPixel :
     heap -> ref -> pyval -> pyval -> pyval -> outcome (heap * ref))
  (image_class : fabio_class) (header : gmap string string) :
  [Ndarray float32 true [[5]]] !! 0%nat = Some (Ndarray float32 true [[5]])
  /\ exists hp',
       _get_corrected_image float removeSaturatedPixel dark_only
         [Ndarray float32 true [[5]]] image_class header 0
       = ([], Ok (hp', Some 0%nat))
       /\ hp' !! 0%nat = Some (Ndarray float32 true [[5 - 1]]).
Proof.
  split; [reflexivity |]. eexists. split; reflexivity.
Qed.

(** Where the array of the caller is not a contiguous [float32] array, and
    no saturation bound is set, the array that is returned is a new object
    and the array of the caller is as it was. *)
Lemma corrected_image_fresh (float : string -> option Q)
  (removeSaturatedPixel :
     heap -> ref -> pyval -> pyval -> pyval -> outcome (heap * ref))
  (self : Average) (hp hp' : heap) (image_class : fabio_class)
  (header : gmap string string) (image r : ref) (a : ndarray)
  (log : list log_record) :
  hp !! image = Some a ->
  dtype_eqb (dtype a) float32 && c_contiguous a = false ->
  truthy (_threshold self) || truthy (_minimum self)
  || truthy (_maximum self) = false ->
  _get_corrected_image float removeSaturatedPixel self hp image_class header
    image = (log, Ok (hp', Some r)) ->
  r = length hp /\ hp' !! image = Some a.
Proof.
  intros Ha Hd Ht. unfold _get_corrected_image, ascontiguousarray_float32,
    saturation_step. rewrite Ha, Hd, Ht. cbn [bind alloc].
  set (hp1 := (hp ++ [Ndarray float32 true (data a)])%list).
  assert (Hlt : (image < length hp)%nat) by (eapply lookup_lt_Some, Ha).
  assert (H1 : hp1 !! image = Some a).
  { unfold hp1. rewrite lookup_app_l by exact Hlt. exact Ha. }
  assert (Hstep : forall (h0 : heap) op h1,
            h0 !! image = Some a ->
            in_place h0 (length hp) op = Ok h1 -> h1 !! image = Some a).
  { intros h0 op h1 E0. unfold in_place.
    destruct (h0 !! length hp) as [b|]; [| discriminate].
    destruct (op (data b)) as [d| |]; cbn [bind]; try discriminate.
    intros [= <-]. rewrite list_lookup_insert_ne by lia. exact E0. }
  destruct (match _dark self with
            | Some dark => in_place hp1 (length hp) (fun a0 => np_binary Qminus a0 dark)
            | None => Ok hp1
            end) as [hp2| |] eqn:E2; cbn [bind]; try discriminate.
  assert (H2 : hp2 !! image = Some a).
  { destruct (_dark self); [eapply Hstep; eauto | congruence]. }
  destruct (match _flat self with
            | Some flat => in_place hp2 (length hp) (fun a0 => np_divide a0 flat)
            | None => Ok hp2
            end) as [hp3| |] eqn:E3; cbn [bind]; try discriminate.
  assert (H3 : hp3 !! image = Some a).
  { destruct (_flat self); [eapply Hstep; eauto | congruence]. }
  unfold monitor_step. destruct (_monitor_key self) as [key|].
  - destruct (_get_monitor_value float image_class header (Some key))
      as [[v|msg]|[]|]; cbn [bind]; try discriminate.
    destruct (in_place hp3 (length hp) (fun a0 => np_divide_scalar a0 v))
      as [hp4| |] eqn:E4; cbn [bind]; try discriminate.
    intros [= _ <- <-]. split; [reflexivity |]. eapply Hstep; eauto.
  - cbn [bind]. intros [= _ <- <-]. auto.
Qed.

(** ** The saturation bounds *)

(** C10.  The saturation step calls [removeSaturatedPixel] when one of the
    three bounds is true as a condition, and only then.  When none is (each
    is [None], zero or [False]) the step leaves the array as it is, and the
    correction of an image is the one of an [Average] whose bounds are all
    [None]. *)
Theorem saturation_bounds_truthy (float : string -> option Q)
  (removeSaturatedPixel :
     heap -> ref -> pyval -> pyval -> pyval -> outcome (heap * ref))
  (self : Average) (threshold minimum maximum : pyval) (hp : heap)
  (image_class : fabio_class) (header : gmap string string) (image : ref) :
  (truthy threshold || truthy minimum || truthy maximum = false ->
   saturation_step removeSaturatedPixel
     (set_pixel_filter self threshold minimum maximum) hp image
   = Ok (hp, image)
   /\ _get_corrected_image float removeSaturatedPixel
        (set_pixel_filter self threshold minimum maximum)
        hp image_class header image
      = _get_corrected_image float removeSaturatedPixel
          (set_pixel_filter self PNone PNone PNone)
          hp image_class header image)
  /\ (truthy threshold || truthy minimum || truthy maximum = true ->
      saturation_step removeSaturatedPixel
        (set_pixel_filter self threshold minimum maximum) hp image
      = removeSaturatedPixel hp image threshold minimum maximum).
Proof.
  split; intros Ht.
  - split.
    + unfold saturation_step. cbn [set_pixel_filter _threshold _minimum _maximum].
      rewrite Ht. reflexivity.
    + unfold _get_corrected_image, saturation_step, monitor_step.
      cbn [set_pixel_filter _threshold _minimum _maximum _dark _flat
           _monitor_key truthy orb].
      rewrite Ht. reflexivity.
  - unfold saturation_step. cbn [set_pixel_filter _threshold _minimum _maximum].
    rewrite Ht. reflexivity.
Qed.

Lemma saturation_bounds_truthy_witness :
  saturation_step (fun hp r _ _ _ => Ok (hp, r))
    (set_pixel_filter dark_only (PNum 0) (PNum 0) (PBool false))
    [Ndarray uint16 true [[5]]] 0
  = Ok ([Ndarray uint16 true [[5]]], 0%nat)
  /\ saturation_step (fun hp r _ _ _ => Raise NotImplementedError)
       (set_pixel_filter dark_only (PNum 0) PNone (PNum 7))
       [Ndarray uint16 true [[5]]] 0
     = Raise NotImplementedError.
Proof.
  split.
  - exact (proj1 (proj1 (saturation_bounds_truthy (fun _ => None)
             (fun hp r _ _ _ => Ok (hp, r)) dark_only
             (PNum 0) (PNum 0) (PBool false)
             [Ndarray uint16 true [[5]]] EdfImage ∅ 0%nat) eq_refl)).
  - exact (proj2 (saturation_bounds_truthy (fun _ => None)
             (fun hp r _ _ _ => Raise NotImplementedError) dark_only
             (PNum 0) PNone (PNum 7)
             [Ndarray uint16 true [[5]]] EdfImage ∅ 0%nat) eq_refl).
Defined.

(** ** The accumulators over a sequence of images *)

Lemma np_binary_same_shape (f : Q -> Q -> Q) (h w : nat) (a b : image) :
  has_shape h w a = true -> has_shape h w b = true ->
  exists out,
    np_binary f a b = Ok out
    /\ has_shape h w out = true
    /\ forall i j, (i < h)%nat -> (j < w)%nat ->
         px out i j = f (px a i j) (px b i j).
Proof.
  intros Ha Hb. unfold np_binary. destruct h as [|h].
  - rewrite (has_shape_no_rows w a Ha), (has_shape_no_rows w b Hb).
    exists []. repeat split. intros i j Hi. lia.
  - rewrite (shape2_has_shape (S h) w a Ha) by lia. rewrite Ha, Hb.
    eexists. split; [reflexivity |]. split; [apply has_shape_tabulate2 |].
    intros i j Hi Hj. unfold px at 1.
    rewrite get2_tabulate2 by assumption. reflexivity.
Qed.

Lemma add_images_accumulator (c : filter_class) (op : Q -> Q -> Q)
  (h w : nat) (frames : list image) :
  accumulator_op c = Some op ->
  forallb (has_shape h w) frames = true ->
  forall (count : nat) (acc : image),
    has_shape h w acc = true ->
    exists acc',
      add_images (Filter c (Accumulator count (Some acc))) frames
      = Ok (Filter c (Accumulator (count + length frames) (Some acc')))
      /\ has_shape h w acc' = true
      /\ forall i j, (i < h)%nat -> (j < w)%nat ->
           px acc' i j
           = fold_left op (map (fun f => px f i j) frames) (px acc i j).
Proof.
  intros Hop. induction frames as [|f frames IH]; intros Hs count acc Hacc.
  - exists acc. rewrite Nat.add_0_r. auto.
  - cbn [forallb] in Hs. apply andb_true_iff in Hs. destruct Hs as [Hf Hs].
    destruct (np_binary_same_shape op h w acc f Hacc Hf)
      as (acc1 & E1 & Hsh1 & Hpx1).
    destruct (IH Hs (S count) acc1 Hsh1) as (acc' & E & Hsh & Hpx).
    exists acc'. split; [| split; [exact Hsh |]].
    + cbn [add_images]. unfold add_image. cbn [state cls].
      assert (Hacc1 : _accumulate c (Some acc) f = Ok acc1).
      { destruct c; cbn in Hop; inversion Hop; subst op; exact E1. }
      rewrite Hacc1. cbn [bind].
      replace (S count + length frames)%nat
        with (count + length (f :: frames))%nat in E
        by (cbn [length]; lia).
      exact E.
    + intros i j Hi Hj. rewrite Hpx by assumption. cbn [map fold_left].
      rewrite Hpx1 by assumption. reflexivity.
Qed.

Lemma add_images_from_init (c : filter_class) (op : Q -> Q -> Q)
  (h w : nat) (max_images : option nat) (f0 : image) (frames : list image) :
  accumulator_op c = Some op ->
  forallb (has_shape h w) (f0 :: frames) = true ->
  exists acc,
    add_images (init c max_images) (f0 :: frames)
    = Ok (Filter c (Accumulator (length (f0 :: frames)) (Some acc)))
    /\ has_shape h w acc = true
    /\ forall i j, (i < h)%nat -> (j < w)%nat ->
         px acc i j
         = fold_left op (map (fun f => px f i j) frames) (px f0 i j).
Proof.
  intros Hop Hs. cbn [forallb] in Hs. apply andb_true_iff in Hs.
  destruct Hs as [H0 Hs].
  destruct (add_images_accumulator c op h w frames Hop Hs 1 f0 H0)
    as (acc & E & Hsh & Hpx).
  exists acc. split; [| auto].
  cbn [add_images]. unfold add_image.
  assert (Hinit : init c max_images = Filter c (Accumulator 0 None)).
  { destruct c; cbn in Hop; try discriminate; reflexivity. }
  rewrite Hinit. cbn [state cls].
  assert (Hacc : _accumulate c None f0 = Ok f0).
  { destruct c; cbn in Hop; try discriminate; reflexivity. }
  rewrite Hacc. cbn [bind]. exact E.
Qed.

Lemma Qplus_assoc_sym (a b c : Q) : a + b + c == a + (b + c).
Proof. ring. Qed.

Lemma fold_left_Qplus (l : list Q) (x : Q) :
  fold_left Qplus l x == x + Qsum l.
Proof.
  revert x. induction l as [|y l IH]; intros x.
  - simpl. rewrite Qplus_0_r. reflexivity.
  - cbn [fold_left]. rewrite IH.
    change (Qsum (y :: l)) with (y + Qsum l). apply Qplus_assoc_sym.
Qed.

Lemma Qmaximum_cases (a b : Q) :
  (Qmaximum a b = a \/ Qmaximum a b = b)
  /\ a <= Qmaximum a b /\ b <= Qmaximum a b.
Proof.
  unfold Qmaximum. destruct (Qle_bool a b) eqn:E.
  - apply Qle_bool_iff in E. repeat split; auto; apply Qle_refl.
  - repeat split; auto; try apply Qle_refl.
    apply Qlt_le_weak, Qnot_le_lt. intros C. apply Qle_bool_iff in C.
    congruence.
Qed.

Lemma Qminimum_cases (a b : Q) :
  (Qminimum a b = a \/ Qminimum a b = b)
  /\ Qminimum a b <= a /\ Qminimum a b <= b.
Proof.
  unfold Qminimum. destruct (Qle_bool a b) eqn:E.
  - apply Qle_bool_iff in E. repeat split; auto; apply Qle_refl.
  - repeat split; auto; try apply Qle_refl.
    apply Qlt_le_weak, Qnot_le_lt. intros C. apply Qle_bool_iff in C.
    congruence.
Qed.

Lemma fold_left_Qmaximum (l : list Q) (x : Q) :
  In (fold_left Qmaximum l x) (x :: l)
  /\ forall y, In y (x :: l) -> y <= fold_left Qmaximum l x.
Proof.
  revert x. induction l as [|z l IH]; intros x; cbn [fold_left].
  - split; [left; reflexivity |]. intros y [<- | []]. apply Qle_refl.
  - destruct (IH (Qmaximum x z)) as [Hin Hle].
    destruct (Qmaximum_cases x z) as (Hc & Hx & Hz). split.
    + destruct Hin as [Hin | Hin]; [| right; right; exact Hin].
      rewrite <- Hin. destruct Hc as [-> | ->]; [left | right; left];
        reflexivity.
    + intros y [<- | [<- | Hy]].
      * eapply Qle_trans; [exact Hx |]. apply Hle. left. reflexivity.
      * eapply Qle_trans; [exact Hz |]. apply Hle. left. reflexivity.
      * apply Hle. right. exact Hy.
Qed.

Lemma fold_left_Qminimum (l : list Q) (x : Q) :
  In (fold_left Qminimum l x) (x :: l)
  /\ forall y, In y (x :: l) -> fold_left Qminimum l x <= y.
Proof.
  revert x. induction l as [|z l IH]; intros x; cbn [fold_left].
  - split; [left; reflexivity |]. intros y [<- | []]. apply Qle_refl.
  - destruct (IH (Qminimum x z)) as [Hin Hle].
    destruct (Qminimum_cases x z) as (Hc & Hx & Hz). split.
    + destruct Hin as [Hin | Hin]; [| right; right; exact Hin].
      rewrite <- Hin. destruct Hc as [-> | ->]; [left | right; left];
        reflexivity.
    + intros y [<- | [<- | Hy]].
      * eapply Qle_trans; [| exact Hx]. apply Hle. left. reflexivity.
      * eapply Qle_trans; [| exact Hz]. apply Hle. left. reflexivity.
      * apply Hle. right. exact Hy.
Qed.

(** X1.  The accumulator of the sum, after [init] and one [add_image] for
    each of at least one image, all of one shape: [get_result] returns an
    image of that shape whose pixels are the sums of the pixels of the
    images. *)
Theorem sum_accumulator_result (h w : nat) (max_images : option nat)
  (frames : list image) :
  frames <> [] ->
  forallb (has_shape h w) frames = true ->
  exists f out,
    add_images (init SumAveraging max_images) frames = Ok f
    /\ get_result f = Ok (Some out)
    /\ has_shape h w out = true
    /\ forall i j, (i < h)%nat -> (j < w)%nat ->
         px out i j == Qsum (map (fun fr => px fr i j) frames).
Proof.
  intros Hne Hs. destruct frames as [|f0 frames]; [congruence |].
  destruct (add_images_from_init SumAveraging Qplus h w max_images f0 frames
              eq_refl Hs) as (acc & E & Hsh & Hpx).
  do 2 eexists. split; [exact E |]. split; [reflexivity |].
  split; [exact Hsh |]. intros i j Hi Hj. rewrite Hpx by assumption.
  rewrite fold_left_Qplus. reflexivity.
Qed.

Lemma sum_accumulator_result_witness :
  exists f out,
    add_images (init SumAveraging None) [[[1; 2]]; [[3; 4]]; [[5; 6]]] = Ok f
    /\ get_result f = Ok (Some out)
    /\ has_shape 1 2 out = true
    /\ forall i j, (i < 1)%nat -> (j < 2)%nat ->
         px out i j
         == Qsum (map (fun fr => px fr i j) [[[1; 2]]; [[3; 4]]; [[5; 6]]]).
Proof.
  apply (sum_accumulator_result 1 2 None [[[1; 2]]; [[3; 4]]; [[5; 6]]]).
  - discriminate.
  - reflexivity.
Defined.

(** X2.  The accumulator of the maximum, on at least one image, all of one
    shape: each pixel of the result is the pixel of one of the images and
    is at least the pixel of every image. *)
Theorem max_accumulator_result (h w : nat) (max_images : option nat)
  (frames : list image) :
  frames <> [] ->
  forallb (has_shape h w) frames = true ->
  exists f out,
    add_images (init MaxAveraging max_images) frames = Ok f
    /\ get_result f = Ok (Some out)
    /\ has_shape h w out = true
    /\ forall i j, (i < h)%nat -> (j < w)%nat ->
         In (px out i j) (map (fun fr => px fr i j) frames)
         /\ forall fr, In fr frames -> px fr i j <= px out i j.
Proof.
  intros Hne Hs. destruct frames as [|f0 frames]; [congruence |].
  destruct (add_images_from_init MaxAveraging Qmaximum h w max_images f0
              frames eq_refl Hs) as (acc & E & Hsh & Hpx).
  do 2 eexists. split; [exact E |]. split; [reflexivity |].
  split; [exact Hsh |]. intros i j Hi Hj. rewrite Hpx by assumption.
  destruct (fold_left_Qmaximum (map (fun fr => px fr i j) frames) (px f0 i j))
    as [Hin Hle].
  split; [exact Hin |]. intros fr Hfr. apply Hle.
  exact (in_map (fun fr => px fr i j) (f0 :: frames) fr Hfr).
Qed.

Lemma max_accumulator_result_witness :
  exists f out,
    add_images (init MaxAveraging None) [[[1; 2]; [3; 0]]; [[0; 5]; [1; 1]]]
    = Ok f
    /\ get_result f = Ok (Some out)
    /\ has_shape 2 2 out = true
    /\ forall i j, (i < 2)%nat -> (j < 2)%nat ->
         In (px out i j)
            (map (fun fr => px fr i j) [[[1; 2]; [3; 0]]; [[0; 5]; [1; 1]]])
         /\ forall fr, In fr [[[1; 2]; [3; 0]]; [[0; 5]; [1; 1]]] ->
                       px fr i j <= px out i j.
Proof.
  apply (max_accumulator_result 2 2 None
           [[[1; 2]; [3; 0]]; [[0; 5]; [1; 1]]]).
  - discriminate.
  - reflexivity.
Defined.

(** X3.  The accumulator of the minimum, on at least one image, all of one
    shape: each pixel of the result is the pixel of one of the images and
    is at most the pixel of every image. *)
Theorem min_accumulator_result (h w : nat) (max_images : option nat)
  (frames : list image) :
  frames <> [] ->
  forallb (has_shape h w) frames = true ->
  exists f out,
    add_images (init MinAveraging max_images) frames = Ok f
    /\ get_result f = Ok (Some out)
    /\ has_shape h w out = true
    /\ forall i j, (i < h)%nat -> (j < w)%nat ->
         In (px out i j) (map (fun fr => px fr i j) frames)
         /\ forall fr, In fr frames -> px out i j <= px fr i j.
Proof.
  intros Hne Hs. destruct frames as [|f0 frames]; [congruence |].
  destruct (add_images_from_init MinAveraging Qminimum h w max_images f0
              frames eq_refl Hs) as (acc & E & Hsh & Hpx).
  do 2 eexists. split; [exact E |]. split; [reflexivity |].
  split; [exact Hsh |]. intros i j Hi Hj. rewrite Hpx by assumption.
  destruct (fold_left_Qminimum (map (fun fr => px fr i j) frames) (px f0 i j))
    as [Hin Hle].
  split; [exact Hin |]. intros fr Hfr. apply Hle.
  exact (in_map (fun fr => px fr i j) (f0 :: frames) fr Hfr).
Qed.

Lemma min_accumulator_result_witness :
  exists f out,
    add_images (init MinAveraging None) [[[1; 2]; [3; 0]]; [[0; 5]; [1; 1]]]
    = Ok f
    /\ get_result f = Ok (Some out)
    /\ has_shape 2 2 out = true
    /\ forall i j, (i < 2)%nat -> (j < 2)%nat ->
         In (px out i j)
            (map (fun fr => px fr i j) [[[1; 2]; [3; 0]]; [[0; 5]; [1; 1]]])
         /\ forall fr, In fr [[[1; 2]; [3; 0]]; [[0; 5]; [1; 1]]] ->
                       px out i j <= px fr i j.
Proof.
  apply (min_accumulator_result 2 2 None
           [[[1; 2]; [3; 0]]; [[0; 5]; [1; 1]]]).
  - discriminate.
  - reflexivity.
Defined.

Lemma average_dark_mean_px (lstimg : lstimg_t) (h w : nat)
  (quantiles : option (Q * Q)) :
  frames_shape lstimg h w ->
  frames_of lstimg <> [] ->
  exists out,
    (average_dark lstimg "mean" None quantiles).2 = Ok out
    /\ forall i j, (i < h)%nat -> (j < w)%nat ->
         px out i j
         == Qsum (map (fun f => px f i j) (frames_of lstimg))
            / inject_Z (Z.of_nat (length (frames_of lstimg))).
Proof.
  intros Hs Hne. destruct (single_image_list lstimg) eqn:H1.
  - apply single_image_list_inv in H1. destruct H1 as [f ->].
    exists f. split; [reflexivity |]. intros i j _ _.
    symmetry. apply (mean1_single (px f i j)).
  - rewrite (average_dark_reduce_stack lstimg h w) by assumption.
    rewrite reduce_stack_mean_no_cutoff by (assumption || reflexivity).
    eexists. split; [reflexivity |]. intros i j Hi Hj.
    rewrite px_reduce_axis0 by assumption. unfold mean1.
    rewrite length_map. reflexivity.
Qed.

(** X4.  The accumulator of the mean, on at least one image, all of one
    shape, returns the pointwise arithmetic mean of the images: the same
    image, pixel by pixel, as [average_dark] on the list of the images with
    the center method "mean" and no cutoff. *)
Theorem mean_accumulator_result (h w : nat) (max_images : option nat)
  (frames : list image) (quantiles : option (Q * Q)) :
  frames <> [] ->
  forallb (has_shape h w) frames = true ->
  exists f out batch,
    add_images (init MeanAveraging max_images) frames = Ok f
    /\ get_result f = Ok (Some out)
    /\ is_pointwise_mean frames h w out
    /\ (average_dark (ImageList frames) "mean" None quantiles).2 = Ok batch
    /\ forall i j, (i < h)%nat -> (j < w)%nat ->
         px out i j == px batch i j.
Proof.
  intros Hne Hs.
  destruct (average_dark_mean_px (ImageList frames) h w quantiles Hs Hne)
    as (batch & Hb & Hbpx).
  cbn [frames_of] in Hbpx.
  destruct frames as [|f0 frames]; [congruence |].
  destruct (add_images_from_init MeanAveraging Qplus h w max_images f0 frames
              eq_refl Hs) as (acc & E & Hsh & Hpx).
  set (n := length (f0 :: frames)) in *.
  assert (Hout : has_shape h w
            (tabulate2 (shape2 acc).1 (shape2 acc).2
               (fun i j => px acc i j / inject_Z (Z.of_nat n))) = true
          /\ forall i j, (i < h)%nat -> (j < w)%nat ->
               px (tabulate2 (shape2 acc).1 (shape2 acc).2
                     (fun i j => px acc i j / inject_Z (Z.of_nat n))) i j
               == Qsum (map (fun f => px f i j) (f0 :: frames))
                  / inject_Z (Z.of_nat n)).
  { destruct h as [|h].
    - rewrite (has_shape_no_rows w acc Hsh). split; [reflexivity |].
      intros i j Hi. lia.
    - rewrite (shape2_has_shape (S h) w acc Hsh) by lia. cbn [fst snd].
      split; [apply has_shape_tabulate2 |]. intros i j Hi Hj.
      unfold px at 1. rewrite get2_tabulate2 by assumption.
      rewrite Hpx by assumption. rewrite fold_left_Qplus. reflexivity. }
  destruct Hout as [Hosh Hopx].
  do 3 eexists. split; [exact E |]. split; [reflexivity |].
  split; [split; [exact Hosh | exact Hopx] |]. split; [exact Hb |].
  intros i j Hi Hj. rewrite Hopx, Hbpx by assumption. reflexivity.
Qed.

Lemma mean_accumulator_result_witness :
  exists f out batch,
    add_images (init MeanAveraging None) [[[1; 1]]; [[3; 3]]; [[5; 5]]] = Ok f
    /\ get_result f = Ok (Some out)
    /\ is_pointwise_mean [[[1; 1]]; [[3; 3]]; [[5; 5]]] 1 2 out
    /\ (average_dark (ImageList [[[1; 1]]; [[3; 3]]; [[5; 5]]]) "mean" None
          None).2 = Ok batch
    /\ forall i j, (i < 1)%nat -> (j < 2)%nat ->
         px out i j == px batch i j.
Proof.
  apply (mean_accumulator_result 1 2 None [[[1; 1]]; [[3; 3]]; [[5; 5]]] None).
  - discriminate.
  - reflexivity.
Defined.

(** ** The stack filter over a sequence of images *)

Lemma add_images_app (f : reduction_filter) (l1 l2 : list image) :
  add_images f (l1 ++ l2)%list
  = let* f' := add_images f l1 in add_images f' l2.
Proof.
  revert f. induction l1 as [|img l1 IH]; intros f; [reflexivity |].
  cbn [app add_images]. destruct (add_image f img) as [f'| |];
    cbn [bind]; [apply IH | reflexivity | reflexivity].
Qed.

(** The frame of zeros of a new stack takes every image of the shape of
    the first one. *)
Lemma zeros_takes_shape (h w : nat) (f0 img : image) :
  has_shape h w f0 = true -> has_shape h w img = true ->
  let zf := zeros (shape2 f0).1 (shape2 f0).2 in
  has_shape (shape2 zf).1 (shape2 zf).2 img = true.
Proof.
  intros H0 Himg. destruct h as [|h].
  - rewrite (has_shape_no_rows w f0 H0), (has_shape_no_rows w img Himg).
    reflexivity.
  - rewrite (shape2_has_shape (S h) w f0 H0) by lia. cbn [fst snd].
    cbv zeta. unfold zeros.
    rewrite (shape2_has_shape (S h) w _ (has_shape_tabulate2 (S h) w _))
      by lia.
    exact Himg.
Qed.

Lemma add_images_stacker (c : filter_class) (h w n : nat) (zf : image)
  (frames : list image) :
  (forall img : image,
     has_shape h w img = true ->
     has_shape (shape2 zf).1 (shape2 zf).2 img = true) ->
  forallb (has_shape h w) frames = true ->
  forall done : list image,
    (length done + length frames <= n)%nat ->
    add_images
      (Filter c (Stacker (Some (done ++ replicate (n - length done) zf)%list)
                   (Some n) (length done)))
      frames
    = Ok (Filter c
            (Stacker
               (Some ((done ++ frames)
                      ++ replicate (n - length (done ++ frames)%list) zf)%list)
               (Some n) (length (done ++ frames)%list))).
Proof.
  unfold image in *.
  intros Hz. induction frames as [|img frames IH]; intros Hs done Hlen.
  - rewrite app_nil_r. reflexivity.
  - cbn [forallb] in Hs. apply andb_true_iff in Hs. destruct Hs as [Himg Hs].
    cbn [length] in Hlen. cbn [add_images]. unfold add_image.
    cbn [state cls bind].
    destruct (n - length done)%nat as [|m] eqn:Hm; [lia |].
    rewrite lookup_app_r by lia. rewrite Nat.sub_diag.
    assert (Hl : replicate (S m) zf !! 0%nat = Some zf) by reflexivity.
    rewrite Hl. rewrite (Hz img Himg).
    unfold image in *.
    rewrite insert_app_r_alt by lia. rewrite Nat.sub_diag.
    assert (Hi : <[0%nat:=img]> (replicate (S m) zf) = img :: replicate m zf)
      by reflexivity.
    rewrite Hi.
    cbn [bind].
    specialize (IH Hs (done ++ [img])%list
                  ltac:(rewrite length_app; cbn [length]; lia)).
    assert (E1 : ((done ++ [img])
                  ++ replicate (n - length (done ++ [img])%list) zf)%list
                 = (done ++ img :: replicate m zf)%list).
    { rewrite length_app. cbn [length].
      replace (n - (length done + 1))%nat with m by lia.
      rewrite <- app_assoc. reflexivity. }
    assert (E2 : length (done ++ [img])%list = S (length done))
      by (rewrite length_app; cbn [length]; lia).
    rewrite E1, E2 in IH. rewrite IH.
    assert (E3 : ((done ++ [img]) ++ frames)%list
                 = (done ++ img :: frames)%list)
      by (rewrite <- app_assoc; reflexivity).
    rewrite E3. reflexivity.
Qed.

(** X5.  The stack filter, after [init] for [n] images and one
    [add_image] for each of [k] images of one shape, [1 <= k <= n]: the
    count of the filter is [k], and [get_result] is the result of
    [average_dark] on the 3D stack of these [k] images, in the order they
    were added, with the name, the cutoff and the quantiles of the
    filter. *)
Theorem stack_filter_result (filter_name : string) (cut_off : option Q)
  (quantiles : option (Q * Q)) (h w n : nat) (frames : list image) :
  frames <> [] ->
  forallb (has_shape h w) frames = true ->
  (length frames <= n)%nat ->
  exists f stack,
    add_images (init (AverageDarkFilter filter_name cut_off quantiles)
                  (Some n)) frames = Ok f
    /\ state f = Stacker (Some stack) (Some n) (length frames)
    /\ get_result f
       = (let* r := (average_dark (Stack3D h w frames) filter_name cut_off
                       quantiles).2 in
          Ok (Some r)).
Proof.
  intros Hne Hs Hlen. destruct frames as [|f0 rest]; [congruence |].
  set (c := AverageDarkFilter filter_name cut_off quantiles).
  set (zf := zeros (shape2 f0).1 (shape2 f0).2).
  assert (H0 : has_shape h w f0 = true).
  { cbn [forallb] in Hs. apply andb_true_iff in Hs. tauto. }
  assert (Hz : forall img : image,
                 has_shape h w img = true ->
                 has_shape (shape2 zf).1 (shape2 zf).2 img = true).
  { intros img Himg. exact (zeros_takes_shape h w f0 img H0 Himg). }
  pose proof (add_images_stacker c h w n zf (f0 :: rest) Hz Hs [] Hlen) as E.
  cbn [app length] in E. rewrite Nat.sub_0_r in E.
  assert (Einit : add_images (init c (Some n)) (f0 :: rest)
                  = add_images
                      (Filter c (Stacker (Some (replicate n zf)) (Some n) 0))
                      (f0 :: rest)) by reflexivity.
  rewrite Einit, E. do 2 eexists. split; [reflexivity |].
  split; [reflexivity |].
  unfold get_result. cbn [state cls app head default].
  change (take (S (length rest))
            (f0 :: rest ++ replicate (n - S (length rest)) zf)%list)
    with (f0 :: take (length rest)
                  (rest ++ replicate (n - S (length rest)) zf)%list).
  rewrite take_app_length. subst c. cbv iota. cbv [id]. destruct h as [|h].
  - rewrite (has_shape_no_rows w f0 H0). cbn [shape2 length hd fst snd].
    unfold average_dark, build_stack. cbv [id]. cbn [length hd].
    rewrite (reduce_stack_no_rows _ w 0). reflexivity.
  - rewrite (shape2_has_shape (S h) w f0 H0) by lia. reflexivity.
Qed.

Lemma stack_filter_result_witness :
  exists f stack,
    add_images (init (AverageDarkFilter "median" None None) (Some 3%nat))
      [[[1; 2]]; [[3; 4]]] = Ok f
    /\ state f = Stacker (Some stack) (Some 3%nat) 2
    /\ get_result f
       = (let* r := (average_dark (Stack3D 1 2 [[[1; 2]]; [[3; 4]]]) "median"
                       None None).2 in
          Ok (Some r)).
Proof.
  apply (stack_filter_result "median" None None 1 2 3 [[[1; 2]]; [[3; 4]]]).
  - discriminate.
  - reflexivity.
  - cbn [length]. lia.
Defined.

Lemma forallb_take {A : Type} (p : A -> bool) (n : nat) (l : list A) :
  forallb p l = true -> forallb p (take n l) = true.
Proof.
  revert n. induction l as [|x l IH]; intros [|n] H; try reflexivity.
  cbn [forallb] in H. apply andb_true_iff in H. destruct H as [Hx Hl].
  cbn [take forallb]. rewrite Hx. exact (IH n Hl).
Qed.

(** X6.  The stack filter holds at most the number of images given to
    [init]: with more images than that, all of one shape, an [add_image]
    raises [IndexError]. *)
Theorem stack_filter_capacity (filter_name : string) (cut_off : option Q)
  (quantiles : option (Q * Q)) (h w n : nat) (frames : list image) :
  forallb (has_shape h w) frames = true ->
  (n < length frames)%nat ->
  add_images (init (AverageDarkFilter filter_name cut_off quantiles)
                (Some n)) frames
  = Raise (IndexError "index out of bounds for axis 0").
Proof.
  intros Hs Hlen. destruct frames as [|f0 rest]; [cbn [length] in Hlen; lia |].
  set (c := AverageDarkFilter filter_name cut_off quantiles).
  set (zf := zeros (shape2 f0).1 (shape2 f0).2).
  assert (H0 : has_shape h w f0 = true).
  { cbn [forallb] in Hs. apply andb_true_iff in Hs. tauto. }
  assert (Hz : forall img : image,
                 has_shape h w img = true ->
                 has_shape (shape2 zf).1 (shape2 zf).2 img = true).
  { intros img Himg. exact (zeros_takes_shape h w f0 img H0 Himg). }
  assert (Einit : add_images (init c (Some n)) (f0 :: rest)
                  = add_images
                      (Filter c (Stacker (Some (replicate n zf)) (Some n) 0))
                      (f0 :: rest)) by reflexivity.
  rewrite Einit. rewrite <- (take_drop n (f0 :: rest)).
  assert (Hs1 : forallb (has_shape h w) (take n (f0 :: rest)) = true).
  { apply forallb_take, Hs. }
  assert (Hl1 : length (take n (f0 :: rest)) = n).
  { rewrite length_take. lia. }
  rewrite add_images_app.
  pose proof (add_images_stacker c h w n zf (take n (f0 :: rest)) Hz Hs1 []
                ltac:(cbn [length]; lia)) as E.
  cbn [app length] in E. rewrite Nat.sub_0_r in E. rewrite E.
  cbn [bind]. rewrite Hl1, Nat.sub_diag. cbn [replicate]. rewrite app_nil_r.
  destruct (drop n (f0 :: rest)) as [|img tl] eqn:Hd.
  { exfalso. assert (Hld : length (drop n (f0 :: rest)) = 0%nat)
      by (rewrite Hd; reflexivity).
    rewrite length_drop in Hld. lia. }
  cbn [add_images]. unfold add_image. cbn [state cls bind].
  rewrite lookup_ge_None_2 by (unfold image in *; lia). reflexivity.
Qed.

Lemma stack_filter_capacity_witness :
  add_images (init (AverageDarkFilter "mean" None None) (Some 1%nat))
    [[[1; 2]]; [[3; 4]]]
  = Raise (IndexError "index out of bounds for axis 0").
Proof.
  apply (stack_filter_capacity "mean" None None 1 2 1 [[[1; 2]]; [[3; 4]]]).
  - reflexivity.
  - cbn [length]. lia.
Defined.

(** ** The filters by name, and the choice of [average_images] *)

Lemma _FILTER_NAME_MAPPING_lookup (n : string) (c : filter_class) :
  _FILTER_NAME_MAPPING !! n = Some c <-> In c _FILTERS /\ name c = n.
Proof.
  unfold _FILTER_NAME_MAPPING, _FILTERS. cbn [fold_left name]. split.
  - intros H.
    repeat (apply lookup_insert_Some in H;
            destruct H as [[<- <-] | [_ H]]; [cbn; tauto |]).
    rewrite lookup_empty in H. discriminate.
  - intros [Hin <-].
    destruct Hin as [<- | [<- | [<- | [<- | []]]]]; reflexivity.
Qed.

(** X7.  [_get_filter_class] returns a class exactly for the names "max",
    "min", "mean" and "sum", and the class it returns has the name that was
    asked for; for every other name it raises an exception. *)
Theorem get_filter_class_by_name (filter_name : string) :
  (forall c, _get_filter_class filter_name = Ok c
             <-> In c _FILTERS /\ name c = filter_name)
  /\ (~ In filter_name ["max"; "min"; "mean"; "sum"] ->
      _get_filter_class filter_name
      = Raise (Exception "Filter name '%s' unknown")).
Proof.
  split.
  - intros c. rewrite <- _FILTER_NAME_MAPPING_lookup.
    unfold _get_filter_class.
    destruct (_FILTER_NAME_MAPPING !! filter_name) as [c'|]; split;
      intros H; inversion H; reflexivity.
  - intros Hn. unfold _get_filter_class.
    destruct (_FILTER_NAME_MAPPING !! filter_name) as [c|] eqn:E;
      [| reflexivity].
    exfalso. apply Hn. apply _FILTER_NAME_MAPPING_lookup in E.
    destruct E as [Hin <-].
    destruct Hin as [<- | [<- | [<- | [<- | []]]]]; cbn; tauto.
Qed.

Lemma get_filter_class_by_name_witness :
  _get_filter_class "median" = Raise (Exception "Filter name '%s' unknown").
Proof.
  apply (get_filter_class_by_name "median").
  intros [H | [H | [H | [H | []]]]]; discriminate H.
Defined.

Lemma str_in_In (x : string) (l : list string) :
  str_in x l = true <-> In x l.
Proof.
  unfold str_in. rewrite existsb_exists. split.
  - intros (y & Hy & E). apply String.eqb_eq in E. subst y. exact Hy.
  - intros H. exists x. split; [exact H | apply String.eqb_refl].
Qed.

(** X8.  In [average_images], after the name of the filter is sanitized,
    the choice of the algorithm never raises: it returns an algorithm whose
    name is the sanitized name, which is the name given when it is one of
    the seven names of the documentation, and "mean" otherwise. *)
Theorem select_algorithm_sanitized (filter_ : string) (cutoff : option Q)
  (quantiles : option (Q * Q)) :
  exists c,
    select_algorithm (sanitize_filter filter_).2 cutoff quantiles = Ok c
    /\ name c = (sanitize_filter filter_).2
    /\ (In filter_ ["min"; "max"; "median"; "mean"; "sum"; "quantiles"; "std"]
        -> (sanitize_filter filter_).2 = filter_)
    /\ (~ In filter_ ["min"; "max"; "median"; "mean"; "sum"; "quantiles"; "std"]
        -> (sanitize_filter filter_).2 = "mean").
Proof.
  unfold sanitize_filter.
  destruct (str_in filter_ _) eqn:E.
  - cbn [snd]. apply str_in_In in E.
    assert (Hsel : exists c, select_algorithm filter_ cutoff quantiles = Ok c
                             /\ name c = filter_).
    { unfold select_algorithm.
      destruct (cutoff_truthy cutoff || quantiles_truthy quantiles) eqn:Ht;
        [cbn [orb]; eexists; split; reflexivity |].
      destruct E as [<- | [<- | [<- | [<- | [<- | [<- | [<- | []]]]]]]];
        cbn; eexists; split; reflexivity. }
    destruct Hsel as (c & Hc & Hn). exists c. repeat split; auto.
    intros Hnot. contradiction.
  - cbn [snd].
    assert (Hsel : exists c, select_algorithm "mean" cutoff quantiles = Ok c
                             /\ name c = "mean").
    { unfold select_algorithm.
      destruct (cutoff_truthy cutoff || quantiles_truthy quantiles) eqn:Ht;
        cbn; eexists; split; reflexivity. }
    destruct Hsel as (c & Hc & Hn). exists c. repeat split; auto.
    intros Hin. apply str_in_In in Hin. congruence.
Qed.

(** ** The index range of a quantile band *)


Lemma Qfloor_zero_r (q : Q) : Qfloor (q * inject_Z 0) = 0%Z.
Proof.
  assert (E : q * inject_Z 0 == 0) by (change (inject_Z 0) with 0; ring).
  rewrite E. reflexivity.
Qed.

Lemma Qceiling_zero_r (q : Q) : Qceiling (q * inject_Z 0) = 0%Z.
Proof.
  assert (E : q * inject_Z 0 == 0) by (change (inject_Z 0) with 0; ring).
  rewrite E. reflexivity.
Qed.

(** X9.  For every band and every number of frames [n], the index range
    [lower, upper) that [average_dark] selects lies within the stack,
    [0 <= lower] and [upper <= n], and the warning of the empty selection
    is logged exactly when the stack holds no frame. *)
Theorem quantile_range_within_stack (quantiles : Q * Q) (n : nat) :
  (0 <= (quantile_range quantiles n).1.1)%Z
  /\ ((quantile_range quantiles n).1.2 <= Z.of_nat n)%Z
  /\ ((quantile_range quantiles n).2 = true <-> n = 0%nat).
Proof.
  unfold quantile_range.
  set (lo := Qfloor (Qminimum quantiles.1 quantiles.2 * inject_Z (Z.of_nat n))).
  set (hi := Qceiling (Qmaximum quantiles.1 quantiles.2 * inject_Z (Z.of_nat n))).
  assert (H0 : n = 0%nat -> lo = 0%Z /\ hi = 0%Z).
  { intros ->. unfold lo, hi. change (Z.of_nat 0) with 0%Z.
    rewrite Qfloor_zero_r, Qceiling_zero_r. auto. }
  destruct (Z.eqb_spec (Z.min (Z.of_nat n) hi) (Z.max 0 lo)) as [E|E];
    [destruct (Z.ltb_spec (Z.min (Z.of_nat n) hi) (Z.of_nat n)) as [L|L];
     [| destruct (Z.ltb_spec 0 (Z.max 0 lo)) as [L'|L']] |];
    cbn [fst snd]; repeat split; try lia; try discriminate;
    intros Hn; destruct (H0 Hn) as [Hlo Hhi]; exfalso;
    rewrite ?Hlo, ?Hhi, ?Hn in *; cbn in *; lia.
Qed.









(** ** The cutoff where nothing, or everything, is masked *)

Lemma filter_none {A : Type} (p : A -> bool) (l : list A) :
  (forall x, In x l -> p x = false) ->
  filter (fun x => p x = true) l = [].
Proof.
  induction l as [|x l IH]; intros H; [reflexivity |].
  rewrite filter_cons. rewrite decide_False.
  - apply IH. intros y Hy. apply H. right. exact Hy.
  - rewrite (H x (or_introl eq_refl)). discriminate.
Qed.

Lemma trimmed_pixel_nothing_masked (col : list Q) (c cutoff : Q) :
  col <> [] ->
  (forall x, In x col -> masked_value col c cutoff x = false) ->
  trimmed_pixel col c cutoff
  == Qsum col / inject_Z (Z.of_nat (length col)).
Proof.
  intros Hne H. unfold trimmed_pixel.
  rewrite (filter_none (masked_value col c cutoff) col H).
  rewrite (map_ext_in _ (fun x => x)).
  - rewrite map_id. cbn [length].
    replace (Z.max 1 (Z.of_nat (length col) - Z.of_nat 0))
      with (Z.of_nat (length col)); [reflexivity |].
    destruct col; [congruence | cbn [length]; lia].
  - intros x Hx. rewrite (H x Hx). reflexivity.
Qed.

Lemma Qsum_zeros {A : Type} (l : list A) : Qsum (map (fun _ => 0) l) == 0.
Proof.
  induction l as [|x l IH]; [reflexivity |].
  cbn [map Qsum fold_right]. fold (Qsum (map (fun _ : A => 0) l)).
  rewrite IH. reflexivity.
Qed.

Lemma trimmed_pixel_all_masked (col : list Q) (c cutoff : Q) :
  (forall x, In x col -> masked_value col c cutoff x = true) ->
  trimmed_pixel col c cutoff == 0.
Proof.
  intros H. unfold trimmed_pixel.
  rewrite (map_ext_in _ (fun _ => 0)).
  - rewrite Qsum_zeros. unfold Qdiv. apply Qmult_0_l.
  - intros x Hx. rewrite (H x Hx). reflexivity.
Qed.

(** X11.  In the average within a cutoff [> 0] (a 3D stack of at least one
    frame, or a list of at least two images, of one shape): at a pixel
    where no frame is farther from the center than the cutoff times the
    standard deviation, the result is the plain mean of the pixel; at a
    pixel where every frame is masked, the result is 0, the sum of no value
    divided by one. *)
Theorem average_dark_cutoff_extremes (lstimg : lstimg_t) (h w : nat)
  (m : string) (c : Q) (quantiles : option (Q * Q)) (center out : image)
  (i j : nat) :
  frames_shape lstimg h w ->
  frames_of lstimg <> [] ->
  single_image_list lstimg = false ->
  0 < c ->
  (compute_center (frames_of lstimg) h w (length (frames_of lstimg))
     m quantiles).2 = Ok center ->
  (average_dark lstimg m (Some c) quantiles).2 = Ok out ->
  (i < h)%nat -> (j < w)%nat ->
  let col := map (fun f => px f i j) (frames_of lstimg) in
  ((forall x, In x col -> masked_value col (px center i j) c x = false) ->
   px out i j == Qsum col / inject_Z (Z.of_nat (length (frames_of lstimg))))
  /\ ((forall x, In x col -> masked_value col (px center i j) c x = true) ->
      px out i j == 0).
Proof.
  intros Hs Hne H1 Hc Hcenter Hout Hi Hj col.
  rewrite (average_dark_reduce_stack lstimg h w) in Hout by assumption.
  unfold reduce_stack in Hout.
  destruct (compute_center _ _ _ _ _ _) as [log ctr]. cbn [snd] in Hcenter.
  subst ctr.
  assert (Hle : Qle_bool c 0 = false).
  { destruct (Qle_bool c 0) eqn:E; [| reflexivity].
    apply Qle_bool_iff in E. exfalso. exact (Qlt_not_le _ _ Hc E). }
  rewrite Hle in Hout. cbn [snd] in Hout. injection Hout as <-.
  rewrite px_cutoff_average by assumption. fold col.
  assert (Hcol : col <> []).
  { unfold col. destruct (frames_of lstimg); [congruence | discriminate]. }
  split; intros H.
  - rewrite trimmed_pixel_nothing_masked by assumption.
    unfold col. rewrite length_map. reflexivity.
  - apply trimmed_pixel_all_masked, H.
Qed.

Lemma average_dark_cutoff_extremes_witness :
  let col := map (fun f => px f 0 0) [[[1]]; [[1]]; [[1]]] in
  ((forall x, In x col ->
      masked_value col (px [[(1 + (1 + (1 + 0))) / 3]] 0 0) 2 x = false) ->
   px [[(1 + (1 + (1 + 0))) / 3]] 0 0
   == Qsum col / inject_Z (Z.of_nat 3))
  /\ ((forall x, In x col ->
         masked_value col (px [[(1 + (1 + (1 + 0))) / 3]] 0 0) 2 x = true) ->
      px [[(1 + (1 + (1 + 0))) / 3]] 0 0 == 0).
Proof.
  apply (average_dark_cutoff_extremes (Stack3D 1 1 [[[1]]; [[1]]; [[1]]])
           1 1 "mean" 2 None [[(1 + (1 + (1 + 0))) / 3]]
           [[(1 + (1 + (1 + 0))) / 3]] 0 0).
  - repeat split.
  - discriminate.
  - reflexivity.
  - reflexivity.
  - reflexivity.
  - reflexivity.
  - lia.
  - lia.
Defined.

(** ** The monitor value that is found *)

Lemma split_slash_no_slash (s : string) :
  no_slash s = true -> split_slash s = None.
Proof.
  induction s as [|c s IH]; [reflexivity |].
  cbn [no_slash split_slash]. intros H. apply andb_true_iff in H.
  destruct H as [Hc Hs]. apply negb_true_iff in Hc. rewrite Hc, (IH Hs).
  reflexivity.
Qed.



(** X12.  For a key with no ['/'], the lookup returns [v] exactly when
    the header holds the key with a value that [float] reads as [v]; in
    particular a value stored under the key is the one that is read. *)
Theorem monitor_lookup_plain_key (float : string -> option Q)
  (keys : gmap string string) (monitor_key : string) (v : Q) :
  no_slash monitor_key = true ->
  (_get_monitor_value_from_edf float keys monitor_key = Ok v
   <-> exists s, keys !! monitor_key = Some s /\ float s = Some v)
  /\ forall s, float s = Some v ->
       _get_monitor_value_from_edf float (<[monitor_key := s]> keys)
         monitor_key = Ok v.
Proof.
  intros Hk.
  assert (Hiff : forall keys0 : gmap string string,
            _get_monitor_value_from_edf float keys0 monitor_key = Ok v
            <-> exists s, keys0 !! monitor_key = Some s /\ float s = Some v).
  { intros keys0. unfold _get_monitor_value_from_edf.
    rewrite (split_slash_no_slash monitor_key Hk).
    destruct (keys0 !! monitor_key) as [s|].
    - cbn [bind]. destruct (float s) as [v'|] eqn:Ef.
      + split.
        * intros [= <-]. exists s. auto.
        * intros (s' & [= <-] & Hf). congruence.
      + split; [discriminate |]. intros (s' & [= <-] & Hf). congruence.
    - split; [discriminate |]. intros (s' & C & _). discriminate. }
  split; [apply Hiff |]. intros s Hf. apply Hiff. exists s.
  split; [apply lookup_insert_eq | exact Hf].
Qed.

Lemma monitor_lookup_plain_key_witness :
  (_get_monitor_value_from_edf
     (fun s => if String.eqb s "5.0" then Some 5 else None)
     (<["x" := "5.0"]> ∅) "x" = Ok 5
   <-> exists s, (<["x" := "5.0"]> ∅ : gmap string string) !! "x" = Some s
                 /\ (if String.eqb s "5.0" then Some 5 else None) = Some 5)
  /\ forall s, (if String.eqb s "5.0" then Some 5 else None) = Some 5 ->
       _get_monitor_value_from_edf
         (fun s => if String.eqb s "5.0" then Some 5 else None)
         (<["x" := s]> (<["x" := "5.0"]> ∅)) "x" = Ok 5.
Proof.
  apply (monitor_lookup_plain_key
           (fun s => if String.eqb s "5.0" then Some 5 else None)
           (<["x" := "5.0"]> ∅) "x" 5).
  reflexivity.
Defined.



(** ** [_update_flat] again *)

(** X14.  [_update_flat] computes the flat from the raw flat and the dark,
    never from the flat it replaces: it changes no other attribute, and a
    second call returns the same object and logs the same, so that the
    dark is not subtracted twice.  Without a raw flat there is no flat. *)
Theorem update_flat_again (self self' : Average) (log : list log_record) :
  _update_flat self = (log, Ok self') ->
  _update_flat self' = (log, Ok self')
  /\ _dark self' = _dark self
  /\ _raw_flat self' = _raw_flat self
  /\ _monitor_key self' = _monitor_key self
  /\ _threshold self' = _threshold self
  /\ _minimum self' = _minimum self
  /\ _maximum self' = _maximum self
  /\ _correct_flat_from_dark self' = _correct_flat_from_dark self
  /\ (_raw_flat self = None -> _flat self' = None).
Proof.
  unfold _update_flat. intros H.
  destruct (_raw_flat self) as [raw_flat|] eqn:Hraw;
    [destruct (_correct_flat_from_dark self) eqn:Hc;
     [destruct (_dark self) as [dark|] eqn:Hd;
      [destruct (np_binary Qminus raw_flat dark) as [base| |] eqn:Hb |] |] |];
    cbn [bind] in H; inversion H; subst;
    cbn [_dark _raw_flat _flat _monitor_key _threshold _minimum _maximum
         _correct_flat_from_dark];
    rewrite ?Hraw, ?Hc, ?Hd, ?Hb; cbn [bind];
    repeat split; try reflexivity; try discriminate.
Qed.

Lemma update_flat_again_witness :
  _update_flat
    {| _dark := Some [[1; 1]; [1; 1]];
       _raw_flat := Some [[3; 1]; [0; 2]];
       _flat := Some [[2; 1]; [1; 1]];
       _monitor_key := None;
       _threshold := PNone; _minimum := PNone; _maximum := PNone;
       _correct_flat_from_dark := true |}
  = ([], Ok {| _dark := Some [[1; 1]; [1; 1]];
               _raw_flat := Some [[3; 1]; [0; 2]];
               _flat := Some [[2; 1]; [1; 1]];
               _monitor_key := None;
               _threshold := PNone; _minimum := PNone; _maximum := PNone;
               _correct_flat_from_dark := true |}).
Proof.
  apply (update_flat_again flat_example
           {| _dark := Some [[1; 1]; [1; 1]];
              _raw_flat := Some [[3; 1]; [0; 2]];
              _flat := Some [[2; 1]; [1; 1]];
              _monitor_key := None;
              _threshold := PNone; _minimum := PNone; _maximum := PNone;
              _correct_flat_from_dark := true |} []).
  reflexivity.
Defined.

(** ** The values of a corrected image *)

Lemma has_shape_rows {A : Type} (h w : nat) (a : list (list A)) (i : nat) :
  has_shape h w a = true -> (i < h)%nat -> length (nth i a []) = w.
Proof.
  unfold has_shape. intros H Hi. apply andb_true_iff in H.
  destruct H as [Hl Hr]. apply Nat.eqb_eq in Hl.
  rewrite forallb_forall in Hr. apply Nat.eqb_eq, Hr, nth_In. lia.
Qed.

Lemma map_map_shape (f : Q -> Q) (h w : nat) (a : image) :
  has_shape h w a = true ->
  has_shape h w (map (map f) a) = true
  /\ forall i j, (i < h)%nat -> (j < w)%nat ->
       px (map (map f) a) i j = f (px a i j).
Proof.
  intros H. split.
  - unfold has_shape in *. apply andb_true_iff in H. destruct H as [Hl Hr].
    rewrite length_map, Hl. cbn [andb]. rewrite forallb_forall in Hr.
    apply forallb_forall. intros r Hin. apply in_map_iff in Hin.
    destruct Hin as (r0 & <- & Hr0). rewrite length_map. apply Hr, Hr0.
  - intros i j Hi Hj. unfold px, get2.
    change (@nil Q) with (map f []) at 1. rewrite map_nth.
    rewrite (nth_indep _ 0 (f 0))
      by (rewrite length_map, (has_shape_rows h w a i H Hi); exact Hj).
    apply map_nth.
Qed.

Lemma ascontiguousarray_float32_ok (hp : heap) (image : ref) (a : ndarray) :
  hp !! image = Some a ->
  exists hp1 r,
    ascontiguousarray_float32 hp image = Ok (hp1, r)
    /\ hp1 !! r = Some (Ndarray float32 true (data a)).
Proof.
  intros Ha. unfold ascontiguousarray_float32. rewrite Ha.
  destruct (dtype_eqb (dtype a) float32 && c_contiguous a) eqn:E.
  - exists hp, image. split; [reflexivity |]. rewrite Ha.
    apply andb_true_iff in E. destruct E as [Ed Ec].
    destruct a as [[] c d]; cbn in *; try discriminate. subst c. reflexivity.
  - do 2 eexists. split; [reflexivity |]. cbn [alloc].
    rewrite lookup_app_r by lia. rewrite Nat.sub_diag. reflexivity.
Qed.

Lemma in_place_ok (hp : heap) (r : ref) (op : image -> outcome image)
  (d0 d1 : image) :
  hp !! r = Some (Ndarray float32 true d0) ->
  op d0 = Ok d1 ->
  exists hp',
    in_place hp r op = Ok hp'
    /\ hp' !! r = Some (Ndarray float32 true d1).
Proof.
  intros Hr Hop. unfold in_place. rewrite Hr. cbn [data dtype c_contiguous].
  rewrite Hop. cbn [bind]. eexists. split; [reflexivity |].
  apply list_lookup_insert_eq. eapply lookup_lt_Some, Hr.
Qed.

(** X15.  [_get_corrected_image] with no saturation bound, on an image of
    the shape of the dark and of the flat, a flat with no zero, and a
    monitor that is found and is not zero: the array that is returned is a
    contiguous [float32] array of the shape of the image, and each pixel is
    the pixel of the image minus the dark, divided by the flat, divided by
    the monitor, in this order, each step where it is configured. *)
Theorem corrected_image_value (float : string -> option Q)
  (removeSaturatedPixel :
     heap -> ref -> pyval -> pyval -> pyval -> outcome (heap * ref))
  (self : Average) (hp : heap) (image_class : fabio_class)
  (header : gmap string string) (image : ref) (a : ndarray) (h w : nat)
  (monitor : option Q) :
  hp !! image = Some a ->
  has_shape h w (data a) = true ->
  truthy (_threshold self) || truthy (_minimum self)
  || truthy (_maximum self) = false ->
  (forall dark, _dark self = Some dark -> has_shape h w dark = true) ->
  (forall flat, _flat self = Some flat ->
                has_shape h w flat = true /\ no_zero flat = true) ->
  match _monitor_key self with
  | None => monitor = None
  | Some key =>
      exists v, _get_monitor_value float image_class header (Some key)
                = Ok (MonitorFloat v)
                /\ Qeq_bool v 0 = false /\ monitor = Some v
  end ->
  exists hp' r d,
    _get_corrected_image float removeSaturatedPixel self hp image_class
      header image = ([], Ok (hp', Some r))
    /\ hp' !! r = Some (Ndarray float32 true d)
    /\ has_shape h w d = true
    /\ forall i j, (i < h)%nat -> (j < w)%nat ->
         px d i j = corrected_pixel self monitor i j (px (data a) i j).
Proof.
  intros Ha Hsh Ht Hdark Hflat Hmon.
  destruct (ascontiguousarray_float32_ok hp image a Ha) as (hp1 & r & E1 & H1).
  unfold _get_corrected_image, saturation_step, monitor_step, corrected_pixel.
  rewrite E1. cbn [bind]. rewrite Ht. cbn [bind].
  (* the dark *)
  assert (Hd : exists hp2 d2,
            match _dark self with
            | Some dark => in_place hp1 r (fun a0 => np_binary Qminus a0 dark)
            | None => Ok hp1
            end = Ok hp2
            /\ hp2 !! r = Some (Ndarray float32 true d2)
            /\ has_shape h w d2 = true
            /\ forall i j, (i < h)%nat -> (j < w)%nat ->
                 px d2 i j
                 = match _dark self with
                   | Some dark => px (data a) i j - px dark i j
                   | None => px (data a) i j
                   end).
  { destruct (_dark self) as [dark|].
    - destruct (np_binary_same_shape Qminus h w (data a) dark Hsh
                  (Hdark dark eq_refl)) as (d2 & Ed & Hs2 & Hp2).
      destruct (in_place_ok hp1 r (fun a0 => np_binary Qminus a0 dark)
                  (data a) d2 H1 Ed) as (hp2 & Ei & Hl).
      exists hp2, d2. auto.
    - exists hp1, (data a). auto. }
  destruct Hd as (hp2 & d2 & E2 & H2 & Hs2 & Hp2). rewrite E2. cbn [bind].
  (* the flat *)
  assert (Hf : exists hp3 d3,
            match _flat self with
            | Some flat => in_place hp2 r (fun a0 => np_divide a0 flat)
            | None => Ok hp2
            end = Ok hp3
            /\ hp3 !! r = Some (Ndarray float32 true d3)
            /\ has_shape h w d3 = true
            /\ forall i j, (i < h)%nat -> (j < w)%nat ->
                 px d3 i j
                 = match _flat self with
                   | Some flat => px d2 i j / px flat i j
                   | None => px d2 i j
                   end).
  { destruct (_flat self) as [flat|].
    - destruct (Hflat flat eq_refl) as [Hfs Hnz].
      destruct (np_binary_same_shape Qdiv h w d2 flat Hs2 Hfs)
        as (d3 & Ed & Hs3 & Hp3).
      assert (Ediv : np_divide d2 flat = Ok d3).
      { unfold np_divide. unfold no_zero in Hnz.
        apply negb_true_iff in Hnz. rewrite Hnz. exact Ed. }
      destruct (in_place_ok hp2 r (fun a0 => np_divide a0 flat) d2 d3 H2 Ediv)
        as (hp3 & Ei & Hl).
      exists hp3, d3. auto.
    - exists hp2, d2. auto. }
  destruct Hf as (hp3 & d3 & E3 & H3 & Hs3 & Hp3). rewrite E3. cbn [bind].
  (* the monitor *)
  destruct (_monitor_key self) as [key|].
  - destruct Hmon as (v & Ev & Hv & ->). rewrite Ev.
    destruct (map_map_shape (fun x => x / v) h w d3 Hs3) as [Hs4 Hp4].
    assert (Ediv : np_divide_scalar d3 v = Ok (map (map (fun x => x / v)) d3)).
    { unfold np_divide_scalar. rewrite Hv. reflexivity. }
    destruct (in_place_ok hp3 r (fun a0 => np_divide_scalar a0 v) d3 _ H3 Ediv)
      as (hp4 & Ei & Hl).
    rewrite Ei. cbn [bind]. exists hp4, r, (map (map (fun x => x / v)) d3).
    split; [reflexivity |]. split; [exact Hl |]. split; [exact Hs4 |].
    intros i j Hi Hj. rewrite Hp4, Hp3, Hp2 by assumption.
    destruct (_dark self), (_flat self); reflexivity.
  - subst monitor. cbn [bind]. exists hp3, r, d3.
    split; [reflexivity |]. split; [exact H3 |]. split; [exact Hs3 |].
    intros i j Hi Hj. rewrite Hp3, Hp2 by assumption.
    destruct (_dark self), (_flat self); reflexivity.
Qed.

Lemma corrected_image_value_witness :
  exists hp' r d,
    _get_corrected_image
      (fun s => if String.eqb s "2" then Some 2 else None)
      (fun hp r _ _ _ => Ok (hp, r))
      full_example [Ndarray uint16 true [[6]]] EdfImage
      (<["mon" := "2"]> ∅) 0
    = ([], Ok (hp', Some r))
    /\ hp' !! r = Some (Ndarray float32 true d)
    /\ has_shape 1 1 d = true
    /\ forall i j, (i < 1)%nat -> (j < 1)%nat ->
         px d i j
         = corrected_pixel full_example (Some 2) i j
             (px (data (Ndarray uint16 true [[6]])) i j).
Proof.
  apply (corrected_image_value
           (fun s => if String.eqb s "2" then Some 2 else None)
           (fun hp r _ _ _ => Ok (hp, r))
           full_example [Ndarray uint16 true [[6]]] EdfImage
           (<["mon" := "2"]> ∅) 0 (Ndarray uint16 true [[6]]) 1 1 (Some 2)).
  - reflexivity.
  - reflexivity.
  - reflexivity.
  - intros dark [= <-]. reflexivity.
  - intros flat [= <-]. split; reflexivity.
  - exists 2. repeat split.
Defined.

(** ** An image whose monitor is not found *)



(** ** common_prefix *)

Lemma string_app_assoc (a b c : string) : (a ++ b) ++ c = a ++ (b ++ c).
Proof.
  induction a as [|x a IH]; [reflexivity |].
  change (String x ((a ++ b) ++ c) = String x (a ++ (b ++ c))).
  f_equal. exact IH.
Qed.

Lemma string_app_nil_r (a : string) : a ++ EmptyString = a.
Proof.
  induction a as [|x a IH]; [reflexivity |].
  change (String x (a ++ EmptyString) = String x a). f_equal. exact IH.
Qed.

Lemma common_prefix_loop_zip1 (string_list : list string) (prefix : string) :
  common_prefix_loop (zip1 string_list) prefix
  = Ok (prefix ++ fold_right append EmptyString string_list).
Proof.
  revert prefix. induction string_list as [|s l IH]; intros prefix.
  - cbn [zip1 map common_prefix_loop fold_right].
    rewrite string_app_nil_r. reflexivity.
  - cbn [zip1 map common_prefix_loop forallb]. rewrite String.eqb_refl.
    cbn [andb]. fold (zip1 l). rewrite IH, string_app_assoc. reflexivity.
Qed.

(** X17.  [common_prefix] iterates over [zip(string_list)], whose tuples
    hold one string each, so that no comparison ever fails: it returns the
    concatenation of all the strings of the list, in order, for every
    list (for one string, that string; for none, the empty string). *)
Theorem common_prefix_is_concatenation (string_list : list string) :
  common_prefix string_list
  = Ok (fold_right append EmptyString string_list).
Proof.
  unfold common_prefix. rewrite common_prefix_loop_zip1. reflexivity.
Qed.

Example common_prefix_two :
  common_prefix ["image_01.edf"; "image_02.edf"]
  = Ok "image_01.edfimage_02.edf".
Proof. reflexivity. Qed.

(** ** The quantile method without quantiles *)

Lemma ndarray_method_quantil (m : string) :
  starts_with "quantil" m = true ->
  ndarray_method m = None /\ String.eqb m "median" = false.
Proof.
  unfold starts_with. intros H.
  destruct m as [|c m]; [discriminate |].
  cbn [String.prefix] in H. destruct (ascii_dec "q" c) as [<- | Hc];
    [| discriminate].
  split; reflexivity.
Qed.

(** X18.  With a center method that starts with "quantil" and the
    quantiles [None] (what [average_images] hands over when it is called
    with the filter "quantiles" and no quantiles), [average_dark] on a 3D
    stack, or on a list of at least two images of one shape, logs the
    information on the filter and raises [TypeError]: no result is
    computed, with or without cutoff. *)
Theorem average_dark_quantile_without_quantiles (lstimg : lstimg_t)
  (h w : nat) (m : string) (cutoff : option Q) :
  frames_shape lstimg h w ->
  frames_of lstimg <> [] ->
  single_image_list lstimg = false ->
  starts_with "quantil" m = true ->
  average_dark lstimg m cutoff None
  = ([LogInfo "Filtering data (quantiles: %s)"],
     Raise (TypeError "'NoneType' object is not iterable")).
Proof.
  intros Hs Hne H1 Hm.
  rewrite (average_dark_reduce_stack lstimg h w) by assumption.
  destruct (ndarray_method_quantil m Hm) as [Hnd Hmed].
  unfold reduce_stack, compute_center. rewrite Hnd, Hmed, Hm.
  destruct cutoff; reflexivity.
Qed.

Lemma average_dark_quantile_without_quantiles_witness :
  average_dark (Stack3D 1 1 [[[4]]; [[1]]]) "quantiles" (Some 3) None
  = ([LogInfo "Filtering data (quantiles: %s)"],
     Raise (TypeError "'NoneType' object is not iterable")).
Proof.
  apply (average_dark_quantile_without_quantiles
           (Stack3D 1 1 [[[4]]; [[1]]]) 1 1 "quantiles" (Some 3)).
  - repeat split.
  - discriminate.
  - reflexivity.
  - reflexivity.
Defined.

(** ** GeometryConstaintsModel *)

(** X19.  [GeometryConstaintsModel.isValid] never returns [True]: it
    returns [False] exactly when one of the seven constraints is not
    valid, and [None] (no [return] is reached) when all are valid. *)
Theorem isValid_never_true (ConstraintModel : Type)
  (constraint_isValid : ConstraintModel -> bool)
  (self : GeometryConstaintsModel ConstraintModel) :
  isValid ConstraintModel constraint_isValid self <> Some true
  /\ (isValid ConstraintModel constraint_isValid self = Some false
      <-> existsb (fun c => negb (constraint_isValid c))
            (constraints ConstraintModel self) = true)
  /\ (isValid ConstraintModel constraint_isValid self = None
      <-> forallb constraint_isValid (constraints ConstraintModel self)
          = true).
Proof.
  unfold isValid, constraints. cbn [existsb forallb].
  destruct (constraint_isValid (__distance _ self)),
    (constraint_isValid (__waveLength _ self)),
    (constraint_isValid (__poni1 _ self)),
    (constraint_isValid (__poni2 _ self)),
    (constraint_isValid (__rotation1 _ self)),
    (constraint_isValid (__rotation2 _ self)),
    (constraint_isValid (__rotation3 _ self));
    cbn; repeat split; intros; congruence.
Qed.

(** ** A pass in which every image is skipped *)

Lemma for_each_invariant {A S : Type} (P : S -> Prop)
  (body : S -> A -> list log_record * outcome S) (l : list A) :
  (forall s x log s', In x l -> P s -> body s x = (log, Ok s') -> P s') ->
  forall s log s', P s -> for_each body l s = (log, Ok s') -> P s'.
Proof.
  induction l as [|x l IH]; intros Hbody s log s' Hs H.
  - cbn [for_each] in H. injection H as _ <-. exact Hs.
  - cbn [for_each] in H. destruct (body s x) as [log1 r1] eqn:E1.
    destruct r1 as [s1| |]; [| discriminate H | discriminate H].
    destruct (for_each body l s1) as [log2 r2] eqn:E2.
    injection H as _ ->.
    apply (IH (fun s0 x0 log0 s0' Hin => Hbody s0 x0 log0 s0' (or_intror Hin))
              s1 log2 s'); [| exact E2].
    exact (Hbody s x log1 s1 (or_introl eq_refl) Hs E1).
Qed.

Lemma corrected_image_monitor_not_found (float : string -> option Q)
  (removeSaturatedPixel :
     heap -> ref -> pyval -> pyval -> pyval -> outcome (heap * ref))
  (self : Average) (hp : heap) (image_class : fabio_class)
  (header : gmap string string) (image : ref) (key msg : string)
  (log : list log_record) (hp' : heap) (o : option ref) :
  _monitor_key self = Some key ->
  _get_monitor_value float image_class header (Some key)
  = Raise (MonitorNotFound msg) ->
  _get_corrected_image float removeSaturatedPixel self hp image_class
    header image = (log, Ok (hp', o)) ->
  o = None.
Proof.
  intros Hkey Hmon. unfold _get_corrected_image, monitor_step.
  rewrite Hkey, Hmon.
  destruct (let* p := ascontiguousarray_float32 hp image in _)
    as [[hp3 r]| |]; cbn [bind]; [| discriminate | discriminate].
  intros [= <- <- <-]. reflexivity.
Qed.

Section AllSkipped.

Variable float : string -> option Q.
Variable removeSaturatedPixel :
  heap -> ref -> pyval -> pyval -> pyval -> outcome (heap * ref).
Variable getframe_data : heap -> fabio_image -> nat -> outcome (heap * ref).
Variable self : Average.
Variable key : string.
Variable fabio_images : list fabio_image.

Hypothesis monitor_key_set : _monitor_key self = Some key.

Hypothesis monitor_not_found :
  forall img, In img fabio_images ->
    exists msg,
      _get_monitor_value float (fabio_cls img) (fabio_header img) (Some key)
      = Raise (MonitorNotFound msg).

Lemma reduce_frame_skipped (img : fabio_image) (hp hp' : heap)
  (alg alg' : algorithm) (frame : nat) (log : list log_record) :
  In img fabio_images ->
  reduce_frame float removeSaturatedPixel getframe_data self img (hp, alg) frame
  = (log, Ok (hp', alg')) ->
  alg' = alg.
Proof.
  intros Hin. destruct (monitor_not_found img Hin) as [msg Hmsg].
  unfold reduce_frame.
  destruct (let* p := if (fabio_nframes img =? 1)%nat then _ else _ in _)
    as [[hp1 r]| |]; [| discriminate | discriminate].
  destruct (_get_corrected_image float removeSaturatedPixel self hp1
              (fabio_cls img) (fabio_header img) r) as [log1 r1] eqn:E.
  destruct r1 as [[hp2 o]| |]; cbn [bind]; [| discriminate | discriminate].
  rewrite (corrected_image_monitor_not_found _ _ _ _ _ _ _ _ _ _ _ _
             monitor_key_set Hmsg E).
  intros [= _ _ <-]. reflexivity.
Qed.

Lemma frames_all_skipped (c : filter_class) (nb_frames : nat) (hp hp' : heap)
  (alg' : algorithm) (log : list log_record) :
  for_each
    (fun st fabio_img =>
       for_each
         (reduce_frame float removeSaturatedPixel getframe_data self fabio_img)
         (seq 0 (fabio_nframes fabio_img)) st)
    fabio_images (hp, algorithm_init c (Some nb_frames))
  = (log, Ok (hp', alg')) ->
  alg' = algorithm_init c (Some nb_frames).
Proof.
  intros H.
  refine (for_each_invariant
            (fun st : heap * algorithm =>
               st.2 = algorithm_init c (Some nb_frames))
            _ fabio_images _ (hp, _) log (hp', alg') eq_refl H).
  intros [hp1 alg1] img log1 [hp2 alg2] Hin Hs Hb. cbn [snd] in *.
  refine (for_each_invariant
            (fun st : heap * algorithm =>
               st.2 = algorithm_init c (Some nb_frames))
            _ (seq 0 (fabio_nframes img)) _ (hp1, alg1) log1 (hp2, alg2)
            Hs Hb).
  intros [hp3 alg3] frame log3 [hp4 alg4] _ Hs3 Hb3. cbn [snd] in *.
  rewrite (reduce_frame_skipped img hp3 hp4 alg3 alg4 frame log3 Hin Hb3).
  exact Hs3.
Qed.

(** When the monitor key is set and is found in no image,
    [_get_image_reduction] returns no image: where it returns, the
    algorithm is one of the accumulators of the maximum, the minimum or the
    sum and the result is [None]. *)
Lemma get_image_reduction_all_skipped (c : filter_class) (nb_frames : nat)
  (hp hp' : heap) (log : list log_record) (result : option image) :
  _get_image_reduction float removeSaturatedPixel getframe_data self
    fabio_images nb_frames c hp = (log, Ok (hp', result)) ->
  result = None /\ In c [MaxAveraging; MinAveraging; SumAveraging].
Proof.
  unfold _get_image_reduction.
  destruct (for_each _ fabio_images _) as [log1 r1] eqn:E.
  destruct r1 as [[hp1 alg1]| |]; cbn [bind]; [| discriminate | discriminate].
  rewrite (frames_all_skipped c nb_frames hp hp1 alg1 log1 E).
  cbn [fst snd]. destruct c; cbn; intros [= _ _ <-]; tauto.
Qed.

End AllSkipped.

(** X20.  When a monitor key is set and the monitor is found in no image
    (also when there is no image), a pass of [_get_image_reduction] adds no
    image to the algorithm and returns no image: the stack filter and the
    accumulator of the mean raise, and where the pass returns (the
    accumulators of the maximum, the minimum and the sum) its result is
    [None]. *)
Theorem reduction_all_skipped (float : string -> option Q)
  (removeSaturatedPixel :
     heap -> ref -> pyval -> pyval -> pyval -> outcome (heap * ref))
  (getframe_data : heap -> fabio_image -> nat -> outcome (heap * ref))
  (self : Average) (key : string) (fabio_images : list fabio_image)
  (c : filter_class) (nb_frames : nat) (hp hp' : heap)
  (log : list log_record) (result : option image) :
  _monitor_key self = Some key ->
  (forall img, In img fabio_images ->
     exists msg,
       _get_monitor_value float (fabio_cls img) (fabio_header img) (Some key)
       = Raise (MonitorNotFound msg)) ->
  _get_image_reduction float removeSaturatedPixel getframe_data self
    fabio_images nb_frames c hp = (log, Ok (hp', result)) ->
  result = None /\ In c [MaxAveraging; MinAveraging; SumAveraging].
Proof.
  intros Hkey Hmon. eapply get_image_reduction_all_skipped; eassumption.
Qed.

(** X21.  When a monitor key is set and the monitor is found in no image
    (also when there is no image), [process] with at least one algorithm
    never returns: it raises, from [_update_flat], from a frame, from the
    [get_result] of the first algorithm, or from the intensity range of its
    result, which is [None]. *)
Theorem process_all_skipped (float : string -> option Q)
  (removeSaturatedPixel :
     heap -> ref -> pyval -> pyval -> pyval -> outcome (heap * ref))
  (getframe_data : heap -> fabio_image -> nat -> outcome (heap * ref))
  (self : Average) (key : string) (fabio_images : list fabio_image)
  (algorithms : list filter_class) (nb_frames : nat) (hp : heap) :
  _monitor_key self = Some key ->
  (forall img, In img fabio_images ->
     exists msg,
       _get_monitor_value float (fabio_cls img) (fabio_header img) (Some key)
       = Raise (MonitorNotFound msg)) ->
  algorithms <> [] ->
  is_ok (process float removeSaturatedPixel getframe_data self fabio_images
           nb_frames algorithms hp).2 = false.
Proof.
  intros Hkey Hmon Hne.
  destruct (process float removeSaturatedPixel getframe_data self
              fabio_images nb_frames algorithms hp) as [log [x| |]] eqn:H;
    [exfalso | reflexivity | reflexivity].
  unfold process in H.
  destruct (_update_flat self) as [log0 r0] eqn:E0.
  destruct r0 as [self'| |]; [| discriminate H | discriminate H].
  assert (Hkey' : _monitor_key self' = Some key).
  { unfold _update_flat in E0.
    destruct (_raw_flat self);
      [destruct (if _correct_flat_from_dark self then _ else _)
         as [l0 [f| |]] |];
      cbn [bind] in E0; inversion E0; subst; exact Hkey. }
  destruct algorithms as [|c algorithms]; [congruence |].
  cbn [for_each] in H. cbn [fst snd] in H.
  destruct (_get_image_reduction float removeSaturatedPixel getframe_data
              self' fabio_images nb_frames c hp) as [log1 r1] eqn:E1.
  destruct r1 as [[hp1 res]| |].
  - destruct (get_image_reduction_all_skipped float removeSaturatedPixel
                getframe_data self' key fabio_images Hkey' Hmon c nb_frames
                hp hp1 log1 res E1) as [-> _].
    cbn in H. discriminate H.
  - cbn in H. discriminate H.
  - cbn in H. discriminate H.
Qed.

Lemma reduction_all_skipped_witness :
  _get_image_reduction no_float no_saturation no_getframe monitor_only
    [plain_image] 1 MaxAveraging [Ndarray uint16 true [[6]]]
  = ([LogDebug "Intensity range for %s#%i is %s --> %s";
      LogWarning "Monitor not found in filename '%s', data skipped. Cause: %s"],
     Ok ([Ndarray uint16 true [[6]]; Ndarray float32 true [[6]]], None))
  /\ ((None : option image) = None
      /\ In MaxAveraging [MaxAveraging; MinAveraging; SumAveraging]).
Proof.
  assert (H : _get_image_reduction no_float no_saturation no_getframe
                monitor_only [plain_image] 1 MaxAveraging
                [Ndarray uint16 true [[6]]]
              = ([LogDebug "Intensity range for %s#%i is %s --> %s";
                  LogWarning "Monitor not found in filename '%s', data skipped. Cause: %s"],
                 Ok ([Ndarray uint16 true [[6]]; Ndarray float32 true [[6]]],
                     None)))
    by (vm_compute; reflexivity).
  split; [exact H |].
  eapply (reduction_all_skipped no_float no_saturation no_getframe
            monitor_only "mon" [plain_image] MaxAveraging 1
            [Ndarray uint16 true [[6]]]);
    [reflexivity | | exact H].
  intros img [<- | []]. eexists. vm_compute. reflexivity.
Defined.

Lemma process_all_skipped_witness :
  is_ok (process no_float no_saturation no_getframe monitor_only
           [plain_image] 1 [AverageDarkFilter "median" None None]
           [Ndarray uint16 true [[6]]]).2 = false.
Proof.
  apply (process_all_skipped no_float no_saturation no_getframe
           monitor_only "mon" [plain_image]
           [AverageDarkFilter "median" None None] 1
           [Ndarray uint16 true [[6]]] eq_refl).
  - intros img [<- | []]. eexists. vm_compute. reflexivity.
  - discriminate.
Defined.

(** ** A pass as a function of the values of the frames *)

Lemma in_place_last (hp : heap) (a : ndarray) (op : image -> outcome image) :
  in_place (hp ++ [a])%list (length hp) op
  = let* d := op (data a) in
    Ok (hp ++ [Ndarray (dtype a) (c_contiguous a) d])%list.
Proof.
  unfold in_place. rewrite lookup_app_r by lia. rewrite Nat.sub_diag.
  cbn [lookup list_lookup]. destruct (op (data a)) as [d| |];
    cbn [bind]; [| reflexivity | reflexivity].
  rewrite insert_app_r_alt by lia. rewrite Nat.sub_diag. reflexivity.
Qed.

(** The correction of one image, on the heap and on the values. *)
Lemma correct_values_refined (float : string -> option Q)
  (removeSaturatedPixel :
     heap -> ref -> pyval -> pyval -> pyval -> outcome (heap * ref))
  (self : Average) (hp : heap) (image_class : fabio_class)
  (header : gmap string string) (img : ref) (a : ndarray) :
  hp !! img = Some a ->
  truthy (_threshold self) || truthy (_minimum self)
  || truthy (_maximum self) = false ->
  is_float32_contiguous a = false \/ no_in_place self ->
  refines
    (fun (o : option image) (r : heap * option ref) =>
       (exists ext, r.1 = (hp ++ ext)%list)
       /\ match o, r.2 with
          | None, None => True
          | Some d, Some r1 => exists a1, r.1 !! r1 = Some a1 /\ data a1 = d
          | _, _ => False
          end)
    (correct_values float self image_class header (data a))
    (_get_corrected_image float removeSaturatedPixel self hp image_class
       header img).2.
Proof.
  intros Ha Ht Hcond.
  unfold _get_corrected_image, saturation_step, ascontiguousarray_float32,
    correct_values, monitor_step, refines.
  rewrite Ha, Ht.
  destruct (dtype_eqb (dtype a) float32 && c_contiguous a) eqn:Ef.
  - destruct Hcond as [C | (Hd & Hf & Hm)];
      [unfold is_float32_contiguous in C; congruence |].
    rewrite Hd, Hf, Hm. cbn. eexists. split; [reflexivity |]. cbn.
    split; [exists []; symmetry; apply app_nil_r | eauto].
  - cbn [bind alloc].
    destruct (_dark self) as [dark|].
    + cbn [bind]; rewrite in_place_last; cbn [data dtype c_contiguous].
      destruct (np_binary Qminus (data a) dark) as [d1| |]; cbn [bind];
        [| reflexivity | reflexivity].
      destruct (_flat self) as [flat|].
      * cbn [bind]; rewrite in_place_last; cbn [data dtype c_contiguous].
        destruct (np_divide d1 flat) as [d2| |]; cbn [bind];
          [| reflexivity | reflexivity].
        destruct (_monitor_key self) as [key|].
        -- destruct (_get_monitor_value float image_class header (Some key))
             as [[v|msg]|[]|]; cbn [bind snd]; try reflexivity.
           ++ cbn [bind]; rewrite in_place_last; cbn [data dtype c_contiguous].
              destruct (np_divide_scalar d2 v) as [d3| |]; cbn [bind];
                [| reflexivity | reflexivity].
              eexists. split; [reflexivity |]. cbn [fst snd].
              split; [eexists; reflexivity |]. eexists.
              rewrite lookup_app_r by lia. rewrite Nat.sub_diag.
              split; reflexivity.
           ++ eexists. split; [reflexivity |]. cbn [fst snd].
              split; [eexists; reflexivity | exact I].
        -- cbn [bind snd]. eexists. split; [reflexivity |]. cbn [fst snd].
           split; [eexists; reflexivity |]. eexists.
           rewrite lookup_app_r by lia. rewrite Nat.sub_diag.
           split; reflexivity.
      * destruct (_monitor_key self) as [key|].
        -- destruct (_get_monitor_value float image_class header (Some key))
             as [[v|msg]|[]|]; cbn [bind snd]; try reflexivity.
           ++ cbn [bind]; rewrite in_place_last; cbn [data dtype c_contiguous].
              destruct (np_divide_scalar d1 v) as [d3| |]; cbn [bind];
                [| reflexivity | reflexivity].
              eexists. split; [reflexivity |]. cbn [fst snd].
              split; [eexists; reflexivity |]. eexists.
              rewrite lookup_app_r by lia. rewrite Nat.sub_diag.
              split; reflexivity.
           ++ eexists. split; [reflexivity |]. cbn [fst snd].
              split; [eexists; reflexivity | exact I].
        -- cbn [bind snd]. eexists. split; [reflexivity |]. cbn [fst snd].
           split; [eexists; reflexivity |]. eexists.
           rewrite lookup_app_r by lia. rewrite Nat.sub_diag.
           split; reflexivity.
    + destruct (_flat self) as [flat|].
      * cbn [bind]; rewrite in_place_last; cbn [data dtype c_contiguous].
        destruct (np_divide (data a) flat) as [d2| |]; cbn [bind];
          [| reflexivity | reflexivity].
        destruct (_monitor_key self) as [key|].
        -- destruct (_get_monitor_value float image_class header (Some key))
             as [[v|msg]|[]|]; cbn [bind snd]; try reflexivity.
           ++ cbn [bind]; rewrite in_place_last; cbn [data dtype c_contiguous].
              destruct (np_divide_scalar d2 v) as [d3| |]; cbn [bind];
                [| reflexivity | reflexivity].
              eexists. split; [reflexivity |]. cbn [fst snd].
              split; [eexists; reflexivity |]. eexists.
              rewrite lookup_app_r by lia. rewrite Nat.sub_diag.
              split; reflexivity.
           ++ eexists. split; [reflexivity |]. cbn [fst snd].
              split; [eexists; reflexivity | exact I].
        -- cbn [bind snd]. eexists. split; [reflexivity |]. cbn [fst snd].
           split; [eexists; reflexivity |]. eexists.
           rewrite lookup_app_r by lia. rewrite Nat.sub_diag.
           split; reflexivity.
      * destruct (_monitor_key self) as [key|].
        -- destruct (_get_monitor_value float image_class header (Some key))
             as [[v|msg]|[]|]; cbn [bind snd]; try reflexivity.
           ++ cbn [bind]; rewrite in_place_last; cbn [data dtype c_contiguous].
              destruct (np_divide_scalar (data a) v) as [d3| |]; cbn [bind];
                [| reflexivity | reflexivity].
              eexists. split; [reflexivity |]. cbn [fst snd].
              split; [eexists; reflexivity |]. eexists.
              rewrite lookup_app_r by lia. rewrite Nat.sub_diag.
              split; reflexivity.
           ++ eexists. split; [reflexivity |]. cbn [fst snd].
              split; [eexists; reflexivity | exact I].
        -- cbn [bind snd]. eexists. split; [reflexivity |]. cbn [fst snd].
           split; [eexists; reflexivity |]. eexists.
           rewrite lookup_app_r by lia. rewrite Nat.sub_diag.
           split; reflexivity.
Qed.

Lemma algorithm_filter_extended (hp ext : heap) (alg : algorithm)
  (f : reduction_filter) :
  algorithm_filter hp alg = Ok f ->
  algorithm_filter (hp ++ ext)%list alg = Ok f.
Proof.
  destruct alg as [c count [acc|]|f0]; cbn [algorithm_filter];
    [| trivial | trivial].
  destruct (hp !! acc) as [a|] eqn:E; [| discriminate].
  rewrite (lookup_app_l_Some _ _ _ _ E). trivial.
Qed.

(** One image given to an algorithm, on the heap and on the values. *)
Lemma add_image_refined (hp : heap) (alg : algorithm) (f : reduction_filter)
  (img : ref) (b : ndarray) :
  algorithm_wf alg ->
  algorithm_filter hp alg = Ok f ->
  hp !! img = Some b ->
  refines
    (fun (f' : reduction_filter) (r : heap * algorithm) =>
       (exists ext, r.1 = (hp ++ ext)%list)
       /\ algorithm_wf r.2 /\ algorithm_filter r.1 r.2 = Ok f')
    (add_image f (data b))
    (algorithm_add_image hp alg img).
Proof.
  intros Hwf Hf Hb. unfold refines.
  destruct alg as [c count [acc|]|f0];
    cbn [algorithm_filter algorithm_add_image algorithm_wf] in *.
  - destruct (hp !! acc) as [a|] eqn:Ea; [| discriminate].
    injection Hf as <-. rewrite Hb. unfold add_image. cbn [state cls].
    destruct (_accumulate c (Some (data a)) (data b)) as [d| |];
      cbn [bind alloc]; [| reflexivity | reflexivity].
    eexists. split; [reflexivity |]. cbn [fst snd algorithm_filter algorithm_wf].
    split; [eexists; reflexivity |]. split; [exact Hwf |].
    rewrite lookup_app_r by lia. rewrite Nat.sub_diag. reflexivity.
  - injection Hf as <-. unfold add_image. cbn [state cls].
    assert (Hacc : _accumulate c None (data b) = Ok (data b))
      by (destruct c; [reflexivity .. | exfalso; apply Hwf; reflexivity]).
    rewrite Hacc. cbn [bind]. eexists. split; [reflexivity |].
    cbn [fst snd algorithm_filter algorithm_wf].
    split; [exists []; symmetry; apply app_nil_r |]. split; [exact Hwf |].
    rewrite Hb. reflexivity.
  - injection Hf as <-. rewrite Hb.
    destruct (add_image f0 (data b)) as [f'| |]; cbn [bind];
      [| reflexivity | reflexivity].
    eexists. split; [reflexivity |]. cbn [fst snd algorithm_filter algorithm_wf].
    split; [exists []; symmetry; apply app_nil_r |]. split; [exact I | reflexivity].
Qed.

Lemma for_each_cons_outcome {A S : Type}
  (body : S -> A -> list log_record * outcome S) (x : A) (l : list A) (s : S) :
  (for_each body (x :: l) s).2
  = match (body s x).2 with
    | Ok s' => (for_each body l s').2
    | r => r
    end.
Proof.
  cbn [for_each]. destruct (body s x) as [log [s'| |]]; cbn [snd];
    [| reflexivity | reflexivity].
  destruct (for_each body l s') as [log' r']. reflexivity.
Qed.

Lemma for_each_one_outcome {A S : Type}
  (body : S -> A -> list log_record * outcome S) (x : A) (s : S) :
  (for_each body [x] s).2 = (body s x).2.
Proof.
  rewrite for_each_cons_outcome. destruct (body s x).2; reflexivity.
Qed.

Lemma algorithm_init_filter (hp : heap) (c : filter_class)
  (max_images : option nat) :
  algorithm_wf (algorithm_init c max_images)
  /\ algorithm_filter hp (algorithm_init c max_images) = Ok (init c max_images).
Proof.
  destruct c; cbn; split; trivial; discriminate.
Qed.

Section ByValue.

Variable float : string -> option Q.

Variable removeSaturatedPixel :
  heap -> ref -> pyval -> pyval -> pyval -> outcome (heap * ref).

Variable getframe_data : heap -> fabio_image -> nat -> outcome (heap * ref).

Variable self : Average.

Hypothesis no_bound :
  truthy (_threshold self) || truthy (_minimum self)
  || truthy (_maximum self) = false.

(** The body of the loop, for an image of one frame. *)
Lemma reduce_frame_refined (fabio_img : fabio_image) (hp : heap)
  (alg : algorithm) (f : reduction_filter) (a : ndarray) (frame : nat) :
  fabio_nframes fabio_img = 1%nat ->
  hp !! fabio_data fabio_img = Some a ->
  is_float32_contiguous a = false \/ no_in_place self ->
  algorithm_wf alg ->
  algorithm_filter hp alg = Ok f ->
  refines
    (fun (f' : reduction_filter) (st : heap * algorithm) =>
       (exists ext, st.1 = (hp ++ ext)%list)
       /\ algorithm_wf st.2 /\ algorithm_filter st.1 st.2 = Ok f')
    (let* _ := intensity_range (Some (data a)) in
     let* c := correct_values float self (fabio_cls fabio_img)
                 (fabio_header fabio_img) (data a) in
     match c with
     | None => Ok f
     | Some corrected => add_image f corrected
     end)
    (reduce_frame float removeSaturatedPixel getframe_data self fabio_img
       (hp, alg) frame).2.
Proof.
  intros Hn Ha Hcond Hwf Hf. unfold reduce_frame. rewrite Hn.
  cbn [Nat.eqb bind fst snd]. rewrite Ha. cbn [fmap option_fmap option_map].
  destruct (intensity_range (Some (data a))) as [[]| |]; cbn [bind];
    [| reflexivity | reflexivity].
  pose proof (correct_values_refined float removeSaturatedPixel self hp
                (fabio_cls fabio_img) (fabio_header fabio_img)
                (fabio_data fabio_img) a Ha no_bound Hcond) as H.
  destruct (_get_corrected_image float removeSaturatedPixel self hp
              (fabio_cls fabio_img) (fabio_header fabio_img)
              (fabio_data fabio_img)) as [log r].
  cbn [snd] in *. unfold refines in H.
  destruct (correct_values float self (fabio_cls fabio_img)
              (fabio_header fabio_img) (data a)) as [[d|]| |];
    cbn [bind]; [| | subst r; reflexivity | subst r; reflexivity].
  - destruct H as ([hp1 [r1|]] & -> & (ext & Hext) & H); cbn [fst snd] in *;
      [| contradiction].
    destruct H as (a1 & Ha1 & <-). cbn [bind].
    pose proof (add_image_refined hp1 alg f r1 a1 Hwf) as H.
    rewrite Hext in H, Ha1.
    specialize (H (algorithm_filter_extended hp ext alg f Hf) Ha1).
    unfold refines in *. rewrite Hext.
    destruct (add_image f (data a1)) as [f'| |]; [| exact H | exact H].
    destruct H as (st & -> & (ext' & Hext') & Hwf' & Hf').
    exists st. split; [reflexivity |]. split; [| split; assumption].
    exists (ext ++ ext')%list. rewrite Hext'. symmetry. apply app_assoc.
  - destruct H as ([hp1 [r1|]] & -> & (ext & Hext) & H); cbn [fst snd] in *;
      [contradiction |].
    cbn [bind]. eexists. split; [reflexivity |]. cbn [fst snd].
    split; [exists ext; exact Hext |]. split; [exact Hwf |].
    rewrite Hext. apply algorithm_filter_extended. exact Hf.
Qed.

(** The loop over the images. *)
Lemma reduce_values_refined (hp0 : heap) (fabio_images : list fabio_image) :
  (forall img, In img fabio_images ->
     fabio_nframes img = 1%nat
     /\ exists a, hp0 !! fabio_data img = Some a
          /\ (is_float32_contiguous a = false \/ no_in_place self)) ->
  forall (ext : heap) (alg : algorithm) (f : reduction_filter),
  algorithm_wf alg ->
  algorithm_filter (hp0 ++ ext)%list alg = Ok f ->
  refines
    (fun (f' : reduction_filter) (st : heap * algorithm) =>
       (exists ext', st.1 = (hp0 ++ ext')%list)
       /\ algorithm_filter st.1 st.2 = Ok f')
    (reduce_values float self f (frame_values hp0 fabio_images))
    (for_each
       (fun st fabio_img =>
          for_each
            (reduce_frame float removeSaturatedPixel getframe_data self
               fabio_img)
            (seq 0 (fabio_nframes fabio_img)) st)
       fabio_images ((hp0 ++ ext)%list, alg)).2.
Proof.
  induction fabio_images as [|img l IH]; intros Himgs ext alg f Hwf Hf.
  - cbn. eexists. split; [reflexivity |]. cbn [fst snd].
    split; [exists ext; reflexivity | exact Hf].
  - destruct (Himgs img (or_introl eq_refl)) as (Hn & a & Ha & Hcond).
    rewrite for_each_cons_outcome. rewrite Hn.
    change (seq 0 1) with [0%nat]. rewrite for_each_one_outcome.
    cbn [frame_values map reduce_values]. rewrite Ha.
    change (default [] (data <$> Some a)) with (data a).
    fold (frame_values hp0 l).
    pose proof (reduce_frame_refined img (hp0 ++ ext)%list alg f a 0%nat Hn
                  (lookup_app_l_Some _ _ _ _ Ha) Hcond Hwf Hf) as H.
    unfold refines in H |- *.
    destruct (intensity_range (Some (data a))) as [[]| |]; cbn [bind] in *;
      [| rewrite H; reflexivity | rewrite H; reflexivity].
    destruct (correct_values float self (fabio_cls img) (fabio_header img)
                (data a)) as [c| |]; cbn [bind] in *;
      [| rewrite H; reflexivity | rewrite H; reflexivity].
    assert (Hnext : forall f1 : reduction_filter,
              (exists b : heap * algorithm,
                 (reduce_frame float removeSaturatedPixel getframe_data self
                    img ((hp0 ++ ext)%list, alg) 0%nat).2 = Ok b
                 /\ (exists ext0, b.1 = ((hp0 ++ ext) ++ ext0)%list)
                 /\ algorithm_wf b.2 /\ algorithm_filter b.1 b.2 = Ok f1) ->
              refines
                (fun (f' : reduction_filter) (st : heap * algorithm) =>
                   (exists ext', st.1 = (hp0 ++ ext')%list)
                   /\ algorithm_filter st.1 st.2 = Ok f')
                (reduce_values float self f1 (frame_values hp0 l))
                match
                  (reduce_frame float removeSaturatedPixel getframe_data self
                     img ((hp0 ++ ext)%list, alg) 0%nat).2
                with
                | Ok s' =>
                    (for_each
                       (fun st fabio_img =>
                          for_each
                            (reduce_frame float removeSaturatedPixel
                               getframe_data self fabio_img)
                            (seq 0 (fabio_nframes fabio_img)) st) l s').2
                | r => r
                end).
    { intros f1 ([hp1 alg1] & -> & (ext1 & Hext1) & Hwf1 & Hf1).
      cbn [fst snd] in *. subst hp1. rewrite <- app_assoc in *.
      apply IH; [| exact Hwf1 | exact Hf1].
      intros img' Hin. apply Himgs. right. exact Hin. }
    destruct c as [d|].
    + destruct (add_image f d) as [f1| |]; cbn [bind];
        [| rewrite H; reflexivity | rewrite H; reflexivity].
      apply Hnext. exact H.
    + apply Hnext. exact H.
Qed.

(** A pass on a heap that has grown since the values were read. *)
Lemma get_image_reduction_refined (hp0 : heap)
  (fabio_images : list fabio_image) (nb_frames : nat) (c : filter_class)
  (ext : heap) :
  (forall img, In img fabio_images ->
     fabio_nframes img = 1%nat
     /\ exists a, hp0 !! fabio_data img = Some a
          /\ (is_float32_contiguous a = false \/ no_in_place self)) ->
  refines
    (fun (result : option image) (r : heap * option image) =>
       r.2 = result /\ exists ext', r.1 = (hp0 ++ ext')%list)
    (let* f := reduce_values float self (init c (Some nb_frames))
                 (frame_values hp0 fabio_images) in
     get_result f)
    (_get_image_reduction float removeSaturatedPixel getframe_data self
       fabio_images nb_frames c (hp0 ++ ext)%list).2.
Proof.
  intros Himgs. unfold _get_image_reduction.
  destruct (algorithm_init_filter (hp0 ++ ext)%list c (Some nb_frames))
    as (Hwf & Hf).
  pose proof (reduce_values_refined hp0 fabio_images Himgs ext
                (algorithm_init c (Some nb_frames))
                (init c (Some nb_frames)) Hwf Hf) as H.
  destruct (for_each
              (fun st fabio_img =>
                 for_each
                   (reduce_frame float removeSaturatedPixel getframe_data
                      self fabio_img)
                   (seq 0 (fabio_nframes fabio_img)) st)
              fabio_images
              ((hp0 ++ ext)%list, algorithm_init c (Some nb_frames)))
    as [log r].
  cbn [snd] in *. unfold refines in *.
  destruct (reduce_values float self (init c (Some nb_frames))
              (frame_values hp0 fabio_images)) as [f| |];
    cbn [bind]; [| subst r; reflexivity | subst r; reflexivity].
  destruct H as ([hp1 alg1] & -> & Hext & Hf1). cbn [fst snd bind] in *.
  unfold algorithm_get_result. rewrite Hf1. cbn [bind].
  destruct (get_result f) as [result| |]; cbn [bind];
    [| reflexivity | reflexivity].
  eexists. split; [reflexivity |]. cbn [fst snd]. split; [reflexivity |].
  exact Hext.
Qed.

(** X22. A pass of [Average._get_image_reduction] with no saturation bound,
    over images of one frame each of which is copied by
    [numpy.ascontiguousarray] (it is not a contiguous float32 array) or is
    corrected by nothing (no dark, no flat, no monitor): the pass raises
    what the corrections and the filter raise on the values of the images,
    or returns what the filter returns after it was given the corrected
    values of the images that were not skipped, in order; and every array
    that was on the heap before the pass is on it after the pass, as it
    was. *)
Theorem reduction_by_value (fabio_images : list fabio_image)
  (nb_frames : nat) (c : filter_class) (hp : heap) :
  (forall img, In img fabio_images ->
     fabio_nframes img = 1%nat
     /\ exists a, hp !! fabio_data img = Some a
          /\ (is_float32_contiguous a = false \/ no_in_place self)) ->
  refines
    (fun (result : option image) (r : heap * option image) =>
       r.2 = result /\ exists ext, r.1 = (hp ++ ext)%list)
    (let* f := reduce_values float self (init c (Some nb_frames))
                 (frame_values hp fabio_images) in
     get_result f)
    (_get_image_reduction float removeSaturatedPixel getframe_data self
       fabio_images nb_frames c hp).2.
Proof.
  intros Himgs.
  pose proof (get_image_reduction_refined hp fabio_images nb_frames c []
                Himgs) as H.
  rewrite app_nil_r in H. exact H.
Qed.

End ByValue.

Lemma reduction_by_value_witness :
  refines
    (fun (result : option image) (r : heap * option image) =>
       r.2 = result
       /\ exists ext,
            r.1 = ([Ndarray uint16 true [[7]]; Ndarray uint16 true [[9]]]
                   ++ ext)%list)
    (let* f := reduce_values no_float dark_only
                 (init MeanAveraging (Some 2%nat))
                 (frame_values
                    [Ndarray uint16 true [[7]]; Ndarray uint16 true [[9]]]
                    [plain_image; second_image]) in
     get_result f)
    (_get_image_reduction no_float no_saturation no_getframe dark_only
       [plain_image; second_image] 2 MeanAveraging
       [Ndarray uint16 true [[7]]; Ndarray uint16 true [[9]]]).2.
Proof.
  apply (reduction_by_value no_float no_saturation no_getframe dark_only
           eq_refl [plain_image; second_image] 2 MeanAveraging
           [Ndarray uint16 true [[7]]; Ndarray uint16 true [[9]]]).
  intros img [<- | [<- | []]]; (split; [reflexivity |]); eexists;
    (split; [reflexivity | left; reflexivity]).
Defined.

Lemma update_flat_keeps (self self' : Average) :
  (_update_flat self).2 = Ok self' ->
  _threshold self' = _threshold self /\ _minimum self' = _minimum self
  /\ _maximum self' = _maximum self
  /\ (uncorrected self -> no_in_place self').
Proof.
  unfold _update_flat. intros H.
  destruct (_raw_flat self) as [raw_flat|] eqn:Er.
  - destruct (if _correct_flat_from_dark self
              then match _dark self with
                   | Some dark => ([], np_binary Qminus raw_flat dark)
                   | None =>
                       ([LogDebug "No dark. Flat correction using dark skipped"],
                        Ok raw_flat)
                   end
              else ([], Ok raw_flat)) as [log [flat| |]];
      cbn [snd bind] in H; [| discriminate H | discriminate H].
    injection H as <-. cbn.
    split; [reflexivity | split; [reflexivity | split; [reflexivity |]]].
    intros (_ & C & _). congruence.
  - cbn [snd bind] in H. injection H as <-. cbn.
    split; [reflexivity | split; [reflexivity | split; [reflexivity |]]].
    intros (Hd & _ & Hm). unfold no_in_place. cbn. auto.
Qed.

Section ProcessByValue.

Variable float : string -> option Q.

Variable removeSaturatedPixel :
  heap -> ref -> pyval -> pyval -> pyval -> outcome (heap * ref).

Variable getframe_data : heap -> fabio_image -> nat -> outcome (heap * ref).

Variable self : Average.

Hypothesis no_bound :
  truthy (_threshold self) || truthy (_minimum self)
  || truthy (_maximum self) = false.

(** The loop of [process] over the algorithms. *)
Lemma process_values_refined (hp0 : heap) (fabio_images : list fabio_image)
  (nb_frames : nat) :
  (forall img, In img fabio_images ->
     fabio_nframes img = 1%nat
     /\ exists a, hp0 !! fabio_data img = Some a
          /\ (is_float32_contiguous a = false \/ no_in_place self)) ->
  forall (algorithms : list filter_class) (ext : heap)
    (acc : list (filter_class * image)),
  refines
    (fun (results : list (filter_class * image))
         (st : heap * list (filter_class * image)) =>
       st.2 = (acc ++ results)%list
       /\ exists ext', st.1 = (hp0 ++ ext')%list)
    (process_values float self (frame_values hp0 fabio_images) nb_frames
       algorithms)
    (for_each
       (fun (st : heap * list (filter_class * image)) c =>
          let '(log, r) :=
            _get_image_reduction float removeSaturatedPixel getframe_data
              self fabio_images nb_frames c st.1 in
          match r with
          | Ok (hp', image_reduction) =>
              match intensity_range image_reduction, image_reduction with
              | Ok _, Some d =>
                  ((log ++ [LogDebug "Intensity range in merged dataset : %s --> %s"])%list,
                   Ok (hp', (st.2 ++ [(c, d)])%list))
              | Raise e, _ => (log, Raise e)
              | _, _ => (log, NonFinite)
              end
          | Raise e => (log, Raise e)
          | NonFinite => (log, NonFinite)
          end)
       algorithms ((hp0 ++ ext)%list, acc)).2.
Proof.
  intros Himgs. induction algorithms as [|c cs IH]; intros ext acc.
  - cbn. eexists. split; [reflexivity |]. cbn [fst snd].
    split; [symmetry; apply app_nil_r | exists ext; reflexivity].
  - rewrite for_each_cons_outcome. cbn [process_values fst snd].
    pose proof (get_image_reduction_refined float removeSaturatedPixel
                  getframe_data self no_bound hp0 fabio_images nb_frames c
                  ext Himgs) as H.
    destruct (_get_image_reduction float removeSaturatedPixel getframe_data
                self fabio_images nb_frames c (hp0 ++ ext)%list) as [log r].
    cbn [snd] in H. unfold refines in H |- *.
    destruct (let* f := reduce_values float self (init c (Some nb_frames))
                          (frame_values hp0 fabio_images) in
              get_result f) as [result| |] eqn:E.
    + destruct H as ([hp1 res] & -> & Hres & (ext1 & Hext1)).
      cbn [fst snd] in *. subst res hp1.
      destruct (reduce_values float self (init c (Some nb_frames))
                  (frame_values hp0 fabio_images)) as [f| |];
        cbn [bind] in E |- *; [| discriminate E | discriminate E].
      rewrite E. cbn [bind].
      destruct result as [d|]; [| cbn; reflexivity].
      destruct (intensity_range (Some d)) as [[]| |] eqn:Ei; cbn [bind snd];
        [| reflexivity |].
      * specialize (IH ext1 (acc ++ [(c, d)])%list). unfold refines in IH.
        destruct (process_values float self (frame_values hp0 fabio_images)
                    nb_frames cs) as [results| |]; cbn [bind];
          [| exact IH | exact IH].
        destruct IH as (st & -> & Hst & Hext). exists st.
        split; [reflexivity |]. split; [| exact Hext].
        rewrite Hst. rewrite <- app_assoc. reflexivity.
      * unfold intensity_range in Ei.
        destruct (length (concat d) =? 0)%nat; discriminate Ei.
    + subst r. cbn [snd].
      destruct (reduce_values float self (init c (Some nb_frames))
                  (frame_values hp0 fabio_images)) as [f| |];
        cbn [bind] in E |- *;
        [rewrite E; reflexivity | injection E as <-; reflexivity
        | discriminate E].
    + subst r. cbn [snd].
      destruct (reduce_values float self (init c (Some nb_frames))
                  (frame_values hp0 fabio_images)) as [f| |];
        cbn [bind] in E |- *;
        [rewrite E; reflexivity | discriminate E | reflexivity].
Qed.

End ProcessByValue.

(** X23. [Average.process] with no saturation bound, over images of one
    frame each of which is copied by [numpy.ascontiguousarray] (it is not
    a contiguous float32 array) or is corrected by nothing (no dark, no
    flat, no monitor): the call raises what the update of the flat, the
    corrections and the filters raise on the values of the images, or
    returns for each algorithm, in order, what its filter returns after it
    was given the corrected values of the images as they were on entry;
    no pass sees what an earlier pass did, and every array that was on the
    heap before the call is on it after the call, as it was. *)
Theorem process_by_value (float : string -> option Q)
  (removeSaturatedPixel :
     heap -> ref -> pyval -> pyval -> pyval -> outcome (heap * ref))
  (getframe_data : heap -> fabio_image -> nat -> outcome (heap * ref))
  (self : Average) (fabio_images : list fabio_image) (nb_frames : nat)
  (algorithms : list filter_class) (hp : heap) :
  truthy (_threshold self) || truthy (_minimum self)
  || truthy (_maximum self) = false ->
  (forall img, In img fabio_images ->
     fabio_nframes img = 1%nat
     /\ exists a, hp !! fabio_data img = Some a
          /\ (is_float32_contiguous a = false \/ uncorrected self)) ->
  refines
    (fun (results : list (filter_class * image))
         (r : heap * Average * list (filter_class * image)) =>
       r.2 = results /\ exists ext, r.1.1 = (hp ++ ext)%list)
    (let* self' := (_update_flat self).2 in
     process_values float self' (frame_values hp fabio_images) nb_frames
       algorithms)
    (process float removeSaturatedPixel getframe_data self fabio_images
       nb_frames algorithms hp).2.
Proof.
  intros Hb Himgs. unfold process.
  destruct (_update_flat self) as [log0 [self'| |]] eqn:E0; cbn [snd bind];
    [| reflexivity | reflexivity].
  assert (E : (_update_flat self).2 = Ok self') by (rewrite E0; reflexivity).
  destruct (update_flat_keeps self self' E) as (Ht & Hmi & Hma & Hun).
  assert (Hb' : truthy (_threshold self') || truthy (_minimum self')
                || truthy (_maximum self') = false)
    by (rewrite Ht, Hmi, Hma; exact Hb).
  assert (Himgs' : forall img, In img fabio_images ->
            fabio_nframes img = 1%nat
            /\ exists a, hp !! fabio_data img = Some a
                 /\ (is_float32_contiguous a = false \/ no_in_place self')).
  { intros img Hin. destruct (Himgs img Hin) as (Hn & a & Ha & Hc).
    split; [exact Hn |]. exists a. split; [exact Ha |].
    destruct Hc as [Hc | Hc]; [left; exact Hc | right; exact (Hun Hc)]. }
  pose proof (process_values_refined float removeSaturatedPixel getframe_data
                self' Hb' hp fabio_images nb_frames Himgs' algorithms [] [])
    as H.
  rewrite app_nil_r in H.
  destruct (for_each
              (fun (st : heap * list (filter_class * image)) c =>
                 let '(log, r) :=
                   _get_image_reduction float removeSaturatedPixel
                     getframe_data self' fabio_images nb_frames c st.1 in
                 match r with
                 | Ok (hp', image_reduction) =>
                     match intensity_range image_reduction, image_reduction with
                     | Ok _, Some d =>
                         ((log ++ [LogDebug "Intensity range in merged dataset : %s --> %s"])%list,
                          Ok (hp', (st.2 ++ [(c, d)])%list))
                     | Raise e, _ => (log, Raise e)
                     | _, _ => (log, NonFinite)
                     end
                 | Raise e => (log, Raise e)
                 | NonFinite => (log, NonFinite)
                 end)
              algorithms (hp, [])) as [log r].
  cbn [snd] in *. unfold refines in *.
  destruct (process_values float self' (frame_values hp fabio_images)
              nb_frames algorithms) as [results| |];
    [| subst r; reflexivity | subst r; reflexivity].
  destruct H as ([hp1 res] & -> & Hres & Hext). cbn [fst snd bind] in *.
  eexists. split; [reflexivity |]. cbn [fst snd]. split; assumption.
Qed.

Lemma process_by_value_witness :
  refines
    (fun (results : list (filter_class * image))
         (r : heap * Average * list (filter_class * image)) =>
       r.2 = results
       /\ exists ext,
            r.1.1 = ([Ndarray uint16 true [[7]]; Ndarray uint16 true [[9]]]
                     ++ ext)%list)
    (let* self' := (_update_flat dark_only).2 in
     process_values no_float self'
       (frame_values [Ndarray uint16 true [[7]]; Ndarray uint16 true [[9]]]
          [plain_image; second_image])
       2 [MaxAveraging; MeanAveraging])
    (process no_float no_saturation no_getframe dark_only
       [plain_image; second_image] 2 [MaxAveraging; MeanAveraging]
       [Ndarray uint16 true [[7]]; Ndarray uint16 true [[9]]]).2.
Proof.
  apply (process_by_value no_float no_saturation no_getframe dark_only
           [plain_image; second_image] 2 [MaxAveraging; MeanAveraging]
           [Ndarray uint16 true [[7]]; Ndarray uint16 true [[9]]] eq_refl).
  intros img [<- | [<- | []]]; (split; [reflexivity |]); eexists;
    (split; [reflexivity | left; reflexivity]).
Defined.
